(** * Ink Gateway orchestrator ([engine.py]): a shallow embedding

    The nightly orchestrator is a sequence of steps that log, read the
    file system and run [git] through [subprocess.run].  The embedding
    below keeps that shape:

    - Python values are modelled as the code uses them ([str], [dict],
      [pathlib.Path], [datetime.date], [subprocess.CompletedProcess]);
    - everything outside the interpreter (external commands, the file
      system, the clock, the YAML parser) is reached through a [Host]
      record, so that every function is stated for all hosts;
    - effects are threaded by a state-and-exception monad [M] whose state
      carries the host world, the log records emitted so far and the
      list of external commands issued so far;
    - concrete hosts run the program: a scripted one, which answers
      each command with the next reply of a script, and two built on a
      small model of the repository that [git] keeps (module [Git],
      and [Worktree] for the working copy on top of it), which stand
      for the behaviour assumed of the external tool. *)

From Stdlib Require Import ZArith Ascii String.
From stdpp Require Import gmap strings list sorting pretty.

Set Warnings "-register-all".
Open Scope string_scope.
Open Scope list_scope.
Open Scope Z_scope.

(* ===================================================================== *)
(** ** Python strings *)
(* ===================================================================== *)

(** A [str] is a [string]; a character stands for the code point of the
    same number (U+0000 to U+00FF).  Non-ASCII characters of the message
    literals of [engine.py] appear as their UTF-8 bytes. *)
Module Str.

(** [c.isspace()] on the code points below U+0100. *)
Definition isspace (c : ascii) : bool :=
  let n := N_of_ascii c in
  ((9 <=? n) && (n <=? 13) || (28 <=? n) && (n <=? 32)
   || (n =? 133) || (n =? 160))%N.

Definition is_empty (s : string) : bool :=
  match s with EmptyString => true | String _ _ => false end.

(** [c in chars] for a character and a string of characters. *)
Fixpoint mem (c : ascii) (chars : string) : bool :=
  match chars with
  | EmptyString => false
  | String d chars' => Ascii.eqb c d || mem c chars'
  end.

(** Leading characters satisfying [p] are dropped. *)
Fixpoint lstrip_by (p : ascii -> bool) (s : string) : string :=
  match s with
  | EmptyString => EmptyString
  | String c s' => if p c then lstrip_by p s' else s
  end.

(** Trailing characters satisfying [p] are dropped: the head is kept
    unless everything after it is dropped and it satisfies [p] too. *)
Fixpoint rstrip_by (p : ascii -> bool) (s : string) : string :=
  match s with
  | EmptyString => EmptyString
  | String c s' =>
      let r := rstrip_by p s' in
      if is_empty r && p c then EmptyString else String c r
  end.

(** [s.strip()] *)
Definition strip (s : string) : string := rstrip_by isspace (lstrip_by isspace s).

(** [s.rstrip(chars)] *)
Definition rstrip (chars : string) (s : string) : string :=
  rstrip_by (fun c => mem c chars) s.

(** [s.split(sep)] for a one-character separator: the pieces between
    the occurrences of [sep]; never the empty list. *)
Fixpoint split (sep : ascii) (s : string) : list string :=
  match s with
  | EmptyString => [EmptyString]
  | String c s' =>
      let r := split sep s' in
      if Ascii.eqb c sep then EmptyString :: r
      else match r with
           | [] => [String c EmptyString]
           | w :: ws => String c w :: ws
           end
  end.

Definition cons_word (w : string) (ws : list string) : list string :=
  if is_empty w then ws else w :: ws.

(** Scan for [s.split()]: the word that starts at the head of [s]
    (empty if [s] starts with white space) and the words after it. *)
Fixpoint split_ws_scan (s : string) : string * list string :=
  match s with
  | EmptyString => (EmptyString, [])
  | String c s' =>
      let '(w, ws) := split_ws_scan s' in
      if isspace c then (EmptyString, cons_word w ws) else (String c w, ws)
  end.

(** [s.split()]: the maximal runs of non-space characters. *)
Definition split_ws (s : string) : list string :=
  let '(w, ws) := split_ws_scan s in cons_word w ws.

(** [sep.join(pieces)] *)
Definition join (sep : string) (pieces : list string) : string :=
  String.concat sep pieces.

(** [needle in s] *)
Fixpoint contains (needle s : string) : bool :=
  String.prefix needle s
  || match s with
     | EmptyString => false
     | String _ s' => contains needle s'
     end.

(** [s.endswith(suffix)] *)
Fixpoint endswith (suffix s : string) : bool :=
  String.eqb suffix s
  || match s with
     | EmptyString => false
     | String _ s' => endswith suffix s'
     end.

(** [c * n] for a one-character string [c]. *)
Fixpoint replicate (n : nat) (c : ascii) : string :=
  match n with
  | O => EmptyString
  | S n' => String c (replicate n' c)
  end.

(** [fnmatch.fnmatchcase(name, pat)] for patterns made of literal
    characters, [*] and [?] (the patterns of [engine.py] use no
    bracket expression). *)
Fixpoint fnmatch (pat : string) (name : string) : bool :=
  match pat with
  | EmptyString => is_empty name
  | String p pat' =>
      if Ascii.eqb p "*" then
        (fix star (s : string) : bool :=
           fnmatch pat' s
           || match s with
              | EmptyString => false
              | String _ s' => star s'
              end) name
      else
        match name with
        | EmptyString => false
        | String c name' =>
            (Ascii.eqb p "?" || Ascii.eqb p c) && fnmatch pat' name'
        end
  end.

(** [f"{n:0{width}d}"] for a non-negative [n]. *)
Definition zfill (width : nat) (n : Z) : string :=
  let digits := pretty n in
  replicate (width - String.length digits) "0" +:+ digits.

End Str.

(** [_count_words] *)
Definition _count_words (text : string) : Z :=
  Z.of_nat (length (Str.split_ws text)).

(* ===================================================================== *)
(** ** [pathlib.Path] *)
(* ===================================================================== *)

(** A path is its tuple of [parts]; an absolute path starts with the
    part ["/"]. *)
Definition Path := list string.

Module Pth.

(** The components of a path segment: the pieces between slashes, with
    empty pieces and ["."] collapsed as pathlib does. *)
Definition components (s : string) : list string :=
  filter (fun w => w ≠ "" ∧ w ≠ ".") (Str.split "/" s).

Definition is_absolute_str (s : string) : bool :=
  match s with String "/" _ => true | _ => false end.

(** [Path(s)] *)
Definition of_string (s : string) : Path :=
  if is_absolute_str s then "/" :: components s else components s.

(** [p / s]: an absolute segment replaces the path.  (A segment that
    starts with exactly two slashes keeps them as its root in pathlib;
    the segments of the program are names without a slash.) *)
Definition div (p : Path) (s : string) : Path :=
  if is_absolute_str s then of_string s else p ++ components s.

(** [str(p)] *)
Definition to_string (p : Path) : string :=
  match p with
  | [] => "."
  | "/" :: rest => "/" +:+ Str.join "/" rest
  | _ => Str.join "/" p
  end.

(** [p.name] *)
Definition name (p : Path) : string :=
  match p with
  | [] => ""
  | ["/"] => ""
  | _ => List.last p ""
  end.

(** [p.parent] *)
Definition parent (p : Path) : Path :=
  match p with
  | [] => []
  | ["/"] => ["/"]
  | _ => removelast p
  end.

(** [p.relative_to(base)] : the parts after [base], or nothing when
    [base] is not a prefix of [p] (Python raises [ValueError]). *)
Fixpoint strip_prefix (base p : Path) : option Path :=
  match base, p with
  | [], _ => Some p
  | b :: base', x :: p' => if String.eqb b x then strip_prefix base' p' else None
  | _ :: _, [] => None
  end.

(** Path comparison is the comparison of the tuples of parts, each
    part compared as a string (by code point). *)
Definition compare (p q : Path) : comparison :=
  list_compare String.compare p q.

Definition leb (p q : Path) : bool :=
  match compare p q with Gt => false | _ => true end.

Definition le (p q : Path) : Prop := leb p q = true.

#[global] Instance le_dec : RelDecision le.
Proof. intros p q. unfold le. apply _. Defined.

End Pth.

(** [sorted(paths)] *)
Definition sorted (paths : list Path) : list Path := merge_sort Pth.le paths.

(* ===================================================================== *)
(** ** Python values: what [yaml.safe_load] returns, and dictionaries *)
(* ===================================================================== *)

(** Dictionary keys, up to Python's equality of keys: [True] and [False]
    are the keys [1] and [0]; [KOther] stands for any other hashable key
    (a float that is no integer, a date, a tuple), none of which equals a
    string. *)
Inductive pykey :=
| KNone
| KInt (n : Z)
| KStr (s : string)
| KOther (id : positive).

#[global] Instance pykey_eq_dec : EqDecision pykey.
Proof. solve_decision. Defined.

#[global] Instance pykey_countable : Countable pykey.
Proof.
  refine (inj_countable'
    (fun k => match k with
              | KNone => inl ()
              | KInt n => inr (inl n)
              | KStr s => inr (inr (inl s))
              | KOther p => inr (inr (inr p))
              end)
    (fun x => match x with
              | inl _ => KNone
              | inr (inl n) => KInt n
              | inr (inr (inl s)) => KStr s
              | inr (inr (inr p)) => KOther p
              end) _).
  by intros [].
Defined.

(** The values [yaml.safe_load] builds.  [POther] stands for a value of
    any other type (a float, a date, bytes, a set), of which the program
    uses nothing but the truth value. *)
Inductive pyval :=
| PNone
| PBool (b : bool)
| PInt (n : Z)
| PStr (s : string)
| PList (l : list pyval)
| PDict (d : gmap pykey pyval)
| POther (truth : bool) (id : positive).

(** A [dict] of the program. *)
Abbreviation dict := (gmap pykey pyval).

(** [bool(v)]: the truth value that [or] tests. *)
Definition truthy (v : pyval) : bool :=
  match v with
  | PNone => false
  | PBool b => b
  | PInt n => negb (n =? 0)
  | PStr s => negb (Str.is_empty s)
  | PList l => match l with [] => false | _ :: _ => true end
  | PDict d => negb (bool_decide (dom d = ∅))
  | POther truth _ => truth
  end.

(** [a or b] *)
Definition py_or (a b : pyval) : pyval := if truthy a then a else b.

(** [k in d] *)
Definition dict_contains (d : dict) (k : pykey) : bool :=
  bool_decide (k ∈ dom d).

(** [d.update(other)]: the entries of [other] replace or extend those of [d]. *)
Definition dict_update (d other : dict) : dict := other ∪ d.

(* ===================================================================== *)
(** ** Dates *)
(* ===================================================================== *)

Record date := mk_date { year : Z; month : Z; day : Z }.

#[global] Instance date_eq_dec : EqDecision date.
Proof. solve_decision. Defined.

(** [d.isoformat()] *)
Definition isoformat (d : date) : string :=
  Str.zfill 4 (year d) +:+ "-" +:+ Str.zfill 2 (month d) +:+ "-" +:+ Str.zfill 2 (day d).

(* ===================================================================== *)
(** ** Exceptions *)
(* ===================================================================== *)

(** The exceptions the program can meet. *)
Inductive exn :=
| RuntimeError (message : string)
| AttributeError (message : string)
| IndexError (message : string)
| KeyError (key : pykey)
| ValueError (message : string)
| FileNotFoundError (p : Path)
| IsADirectoryError (p : Path)
| UnicodeDecodeError (p : Path)
| YAMLError (message : string)
| FileExistsError (p : Path)
| NotADirectoryError (p : Path)
| PermissionError (p : Path).

(* ===================================================================== *)
(** ** The file system *)
(* ===================================================================== *)

(** A file holds bytes that decode to [Some text], or do not decode as
    UTF-8 ([None]), and a modification time stamp; a directory lists its
    entries in the order the operating system reports them. *)
Inductive node :=
| File (text : option string) (mtime : Z)
| Dir (mtime : Z) (entries : list (string * node)).

Module FS.

Definition entries_of (n : node) : list (string * node) :=
  match n with
  | File _ _ => []
  | Dir _ es => es
  end.

(** The first entry called [name]. *)
Fixpoint find_entry (name : string) (es : list (string * node)) : option node :=
  match es with
  | [] => None
  | (n, x) :: es' => if String.eqb n name then Some x else find_entry name es'
  end.

(** The node reached from [n] along the relative parts [p]. *)
Fixpoint descend (n : node) (p : list string) : option node :=
  match p with
  | [] => Some n
  | name :: p' =>
      match find_entry name (entries_of n) with
      | Some child => descend child p'
      | None => None
      end
  end.

(** The node at an absolute path. *)
Definition lookup (root : node) (p : Path) : option node :=
  match p with
  | "/" :: rel => descend root rel
  | _ => None
  end.

(** Every node strictly below [n], with its parts relative to [n], in
    the order in which [rglob] meets them (CPython 3.8 to 3.12): the
    entries of a directory as the operating system lists them, then
    what lies below each of its sub-directories in turn. *)
Fixpoint walk (n : node) : list (list string) :=
  match n with
  | File _ _ => []
  | Dir _ es =>
      map (fun e => [e.1]) es
      ++ (fix below (es : list (string * node)) : list (list string) :=
            match es with
            | [] => []
            | (name, child) :: es' => map (cons name) (walk child) ++ below es'
            end) es
  end.

(** [p.is_file()] *)
Definition is_file (root : node) (p : Path) : bool :=
  match lookup root p with
  | Some (File _ _) => true
  | _ => false
  end.

(** [p.exists()] *)
Definition exists_ (root : node) (p : Path) : bool :=
  match lookup root p with
  | Some _ => true
  | None => false
  end.

(** [d.glob(pat)] for a pattern without a slash: the entries of the
    directory [d] whose name matches; nothing when [d] is no directory. *)
Definition glob (root : node) (d : Path) (pat : string) : list Path :=
  match lookup root d with
  | Some (Dir _ es) =>
      map (fun e => d ++ [e.1]) (filter (fun e => Str.fnmatch pat e.1 = true) es)
  | _ => []
  end.

(** [d.rglob(pat)]: the same at every depth below [d], in the order of
    [walk]. *)
Definition rglob (root : node) (d : Path) (pat : string) : list Path :=
  match lookup root d with
  | Some (Dir m es) =>
      map (fun rel => d ++ rel)
          (filter (fun rel => Str.fnmatch pat (List.last rel "") = true) (walk (Dir m es)))
  | _ => []
  end.

(** What [p.mkdir(parents=True, exist_ok=True)] meets along the
    relative parts [rel] from [n]: a regular file that bears the name
    of the directory ([FileExistsError]) or of one of its parents
    ([NotADirectoryError]); a part that is missing is created, and an
    existing directory is accepted. *)
Fixpoint mkdir_from (p : Path) (n : node) (rel : list string) : option exn :=
  match n, rel with
  | File _ _, [] => Some (FileExistsError p)
  | File _ _, _ :: _ => Some (NotADirectoryError p)
  | Dir _ _, [] => None
  | Dir _ es, name :: rel' =>
      match find_entry name es with
      | Some child => mkdir_from p child rel'
      | None => None
      end
  end.

(** The error of [p.mkdir(parents=True, exist_ok=True)] on a tree in
    which every directory can be written to, if there is one. *)
Definition mkdir_error (root : node) (p : Path) : option exn :=
  match p with
  | "/" :: rel => mkdir_from p root rel
  | _ => None
  end.

End FS.

(* ===================================================================== *)
(** ** Effects: exceptions, log records, external commands *)
(* ===================================================================== *)

(** [subprocess.CompletedProcess], with the output captured as text. *)
Record CompletedProcess := mk_completed {
  returncode : Z;
  stdout : string;
  stderr : string
}.

(** What a call produces: a value, or a raised exception. *)
Inductive outcome (A : Type) :=
| Ok (a : A)
| Raise (e : exn).
Arguments Ok {A} a.
Arguments Raise {A} e.

Inductive levelname := INFO | WARNING | ERROR.

(** An argument of a logging call, kept unformatted as the [logging]
    module keeps it in the record. *)
Inductive logarg :=
| AStr (s : string)
| AInt (n : Z)
| APath (p : Path)
| AVal (v : pyval)
| AExn (e : exn).

(** A log record: level, message format and arguments. *)
Record LogRecord := mk_record {
  level : levelname;
  msg : string;
  args : list logarg
}.

(** One call of [subprocess.run]: the argument vector and the working
    directory. *)
Record Call := mk_call {
  argv : list string;
  cwd : Path
}.

(** The host: everything the program reaches outside the interpreter,
    over a type [W] of worlds.  [subprocess_run] runs a command to its
    end and captures its output (the executable is assumed to start);
    [mkdir_parents] creates a directory and its missing parents, or
    raises what the operating system reports ([FileExistsError],
    [NotADirectoryError], [PermissionError]);
    [date_fromtimestamp] is the local calendar date of a time stamp. *)
Record Host (W : Type) := mk_host {
  subprocess_run : list string -> Path -> W -> CompletedProcess * W;
  filesystem : W -> node;
  mkdir_parents : Path -> W -> outcome unit * W;
  date_today : W -> date;
  date_fromtimestamp : W -> Z -> date;
  yaml_safe_load : string -> outcome pyval
}.
Arguments subprocess_run {W} _ _ _ _.
Arguments filesystem {W} _ _.
Arguments mkdir_parents {W} _ _ _.
Arguments date_today {W} _ _.
Arguments date_fromtimestamp {W} _ _ _.
Arguments yaml_safe_load {W} _ _.

(** The state threaded through the program. *)
Record State (W : Type) := mk_state {
  world : W;
  records : list LogRecord;
  calls : list Call
}.
Arguments mk_state {W} _ _ _.
Arguments world {W} _.
Arguments records {W} _.
Arguments calls {W} _.

Definition initial {W : Type} (w : W) : State W := mk_state w [] [].

(** The monad of the program. *)
Definition M (W A : Type) : Type := State W -> outcome A * State W.

Definition ret {W A : Type} (a : A) : M W A := fun s => (Ok a, s).

Definition raise {W A : Type} (e : exn) : M W A := fun s => (Raise e, s).

Definition bind {W A B : Type} (m : M W A) (k : A -> M W B) : M W B :=
  fun s =>
    match m s with
    | (Ok a, s') => k a s'
    | (Raise e, s') => (Raise e, s')
    end.

Declare Scope py_scope.
Delimit Scope py_scope with py.
Notation "x <- m ;; k" := (bind m (fun x => k))
  (at level 100, m at next level, right associativity) : py_scope.
Notation "m ;; k" := (bind m (fun _ => k))
  (at level 100, right associativity) : py_scope.
Open Scope py_scope.

(** [if c: body] *)
Definition when {W : Type} (c : bool) (body : M W unit) : M W unit :=
  if c then body else ret tt.

(** [for x in xs: body(x)] *)
Fixpoint for_each {W A : Type} (xs : list A) (body : A -> M W unit) : M W unit :=
  match xs with
  | [] => ret tt
  | x :: xs' => body x ;; for_each xs' body
  end.

(** The value a finished call produced, if it raised nothing. *)
Definition value_of {A : Type} (o : outcome A) : option A :=
  match o with
  | Ok a => Some a
  | Raise _ => None
  end.

Definition raised {A : Type} (o : outcome A) : bool :=
  match o with
  | Ok _ => false
  | Raise _ => true
  end.

Section Effects.

Context {W : Type} (host : Host W).

(** [log.info], [log.warning], [log.error] *)
Definition log_ (lv : levelname) (fmt : string) (a : list logarg) : M W unit :=
  fun s => (Ok tt, mk_state (world s) (records s ++ [mk_record lv fmt a]) (calls s)).

Definition log_info := log_ INFO.
Definition log_warning := log_ WARNING.
Definition log_error := log_ ERROR.

(** [subprocess.run(cmd, cwd=cwd, capture_output=True, text=True)] *)
Definition run_process (cmd : list string) (dir : Path) : M W CompletedProcess :=
  fun s =>
    let '(r, w') := subprocess_run host cmd dir (world s) in
    (Ok r, mk_state w' (records s) (calls s ++ [mk_call cmd dir])).

(** Reading the file system. *)
Definition read_fs : M W node :=
  fun s => (Ok (filesystem host (world s)), s).

Definition path_exists (p : Path) : M W bool :=
  root <- read_fs ;; ret (FS.exists_ root p).

Definition path_is_file (p : Path) : M W bool :=
  root <- read_fs ;; ret (FS.is_file root p).

Definition path_glob (d : Path) (pat : string) : M W (list Path) :=
  root <- read_fs ;; ret (FS.glob root d pat).

Definition path_rglob (d : Path) (pat : string) : M W (list Path) :=
  root <- read_fs ;; ret (FS.rglob root d pat).

(** [p.read_text(encoding="utf-8")] *)
Definition read_text (p : Path) : M W string :=
  root <- read_fs ;;
  match FS.lookup root p with
  | Some (File (Some text) _) => ret text
  | Some (File None _) => raise (UnicodeDecodeError p)
  | Some (Dir _ _) => raise (IsADirectoryError p)
  | None => raise (FileNotFoundError p)
  end.

(** [p.stat().st_mtime] *)
Definition stat_mtime (p : Path) : M W Z :=
  root <- read_fs ;;
  match FS.lookup root p with
  | Some (File _ t) => ret t
  | Some (Dir t _) => ret t
  | None => raise (FileNotFoundError p)
  end.

(** [p.mkdir(parents=True, exist_ok=True)] *)
Definition mkdir (p : Path) : M W unit :=
  fun s =>
    let '(made, w') := mkdir_parents host p (world s) in
    (made, mk_state w' (records s) (calls s)).

(** [date.today()] *)
Definition today : M W date :=
  fun s => (Ok (date_today host (world s)), s).

(** [date.fromtimestamp(t)] *)
Definition fromtimestamp (t : Z) : M W date :=
  fun s => (Ok (date_fromtimestamp host (world s) t), s).

(** [p.relative_to(base)] *)
Definition relative_to (p base : Path) : M W Path :=
  match Pth.strip_prefix base p with
  | Some rel => ret rel
  | None => raise (ValueError "path is not in the subpath of the base")
  end.

End Effects.

(* ===================================================================== *)
(** ** The program *)
(* ===================================================================== *)

(** [BOOKS_ROOT] *)
Definition BOOKS_ROOT : Path := Pth.of_string "/data/ink-gateway/books".

(** [DEFAULTS] *)
Definition DEFAULTS : dict :=
  <[KStr "model" := PStr "claude-opus-4-6"]>
  (<[KStr "target_length" := PInt 90000]>
  (<[KStr "chapter_count" := PInt 30]>
  (<[KStr "chapter_structure" := PStr "linear"]>
  (<[KStr "nightly_output_target" := PInt 1500]> ∅)))).

(** One element of [context_sections]: the dictionary with the keys
    ["path"] and ["content"]. *)
Record ContextSection := mk_section {
  path : string;
  content : string
}.

(** The dictionary [build_payload] returns. *)
Record Payload := mk_payload {
  context_sections : list ContextSection;
  word_count : Z;
  config : dict
}.

(** [xs[-1]] *)
Definition index_last (xs : list string) : outcome string :=
  match last xs with
  | Some x => Ok x
  | None => Raise (IndexError "list index out of range")
  end.

(** [book_name_from_url] *)
Definition book_name_from_url (url : string) : outcome string :=
  index_last (Str.split "/" (Str.rstrip "/" url)).

(** The message of the [RuntimeError] that [_run] raises. *)
Definition command_failed (code : Z) (cmd : list string) : string :=
  "Command failed (exit " +:+ pretty code +:+ "): " +:+ Str.join " " cmd.

(** [s or t] on strings *)
Definition str_or (s t : string) : string := if Str.is_empty s then t else s.

Section Engine.

Context {W : Type} (host : Host W).

Definition lift {A : Type} (o : outcome A) : M W A :=
  match o with
  | Ok a => ret a
  | Raise e => raise e
  end.

(** [for x in xs: acc = body(acc, x)]: a loop that updates a local. *)
Fixpoint for_fold {A S : Type} (xs : list A) (acc : S) (body : S -> A -> M W S) : M W S :=
  match xs with
  | [] => ret acc
  | x :: xs' => acc' <- body acc x ;; for_fold xs' acc' body
  end.

(** [_run] *)
Definition _run (cmd : list string) (dir : Path) (check : bool) : M W CompletedProcess :=
  log_info "$ %s" [AStr (Str.join " " cmd)] ;;
  result <- run_process host cmd dir ;;
  when (negb (Str.is_empty (Str.strip (stdout result))))
       (log_info (Str.strip (stdout result)) []) ;;
  when (negb (returncode result =? 0))
       (when (negb (Str.is_empty (Str.strip (stderr result))))
             (log_error (Str.strip (stderr result)) []) ;;
        when check
             (raise (RuntimeError (command_failed (returncode result) cmd)))) ;;
  ret result.

(** [ensure_repo] *)
Definition ensure_repo (url : string) (book_dir : Path) : M W unit :=
  present <- path_exists host book_dir ;;
  if present : bool then
    log_info "Repo already cloned at %s — fetching." [APath book_dir] ;;
    _run ["git"; "fetch"; "--all"; "--tags"] book_dir true ;;
    ret tt
  else
    log_info "Cloning %s → %s" [AStr url; APath book_dir] ;;
    mkdir host (Pth.parent book_dir) ;;
    _run ["git"; "clone"; url; Pth.to_string book_dir] (Pth.parent book_dir) true ;;
    ret tt.

(** [overrides.items()] needs a dictionary. *)
Definition dict_items (v : pyval) : M W dict :=
  match v with
  | PDict d => ret d
  | _ => raise (AttributeError "object has no attribute 'items'")
  end.

(** [load_config] *)
Definition load_config (book_dir : Path) : M W dict :=
  let config_path := Pth.div (Pth.div book_dir "Global Material") "Config.yml" in
  let config := DEFAULTS in
  present <- path_exists host config_path ;;
  config <- (if present : bool then
               text <- read_text host config_path ;;
               document <- lift (yaml_safe_load host text) ;;
               let overrides := py_or document (PDict ∅) in
               items <- dict_items overrides ;;
               let config :=
                 dict_update config
                   (filter (fun kv => dict_contains DEFAULTS kv.1 = true) items) in
               log_info "Config loaded from %s" [APath config_path] ;;
               ret config
             else
               log_warning "Config.yml not found — using defaults." [] ;;
               ret config) ;;
  log_info "Config: %s" [AVal (PDict config)] ;;
  ret config.

(** The body of the loop of [detect_human_edits]. *)
Definition detect_step (today_ : date) (modified : list Path) (p : Path)
  : M W (list Path) :=
  if bool_decide (".git" ∈ p) then ret modified
  else
    is_file <- path_is_file host p ;;
    if negb is_file then ret modified
    else
      mtime <- stat_mtime host p ;;
      d <- fromtimestamp host mtime ;;
      if bool_decide (d = today_) then ret (modified ++ [p]) else ret modified.

(** [detect_human_edits] *)
Definition detect_human_edits (book_dir : Path) : M W (list Path) :=
  today_ <- today host ;;
  paths <- path_rglob host book_dir "*" ;;
  modified <- for_fold paths [] (detect_step today_) ;;
  (match modified with
   | _ :: _ =>
       log_info "Human edits detected today (%d file(s)):"
                [AInt (Z.of_nat (length modified))] ;;
       for_each modified (fun p =>
         rel <- relative_to p book_dir ;;
         log_info "  %s" [APath rel])
   | [] => log_info "No human edits detected today." []
   end) ;;
  ret modified.

(** [commit_human_edits] *)
Definition commit_human_edits (book_dir : Path) (files : list Path) : M W unit :=
  _run ["git"; "add"; "."] book_dir true ;;
  _run ["git"; "commit"; "-m"; "chore: human updates"] book_dir true ;;
  _run ["git"; "push"; "origin"; "main"] book_dir true ;;
  log_info "Human edits committed and pushed to main." [].

(** The tag name of [snapshot] for a date. *)
Definition snapshot_tag (d : date) : string := "pre-nightly-" +:+ isoformat d.

(** [snapshot] *)
Definition snapshot (book_dir : Path) : M W string :=
  d <- today host ;;
  let tag := snapshot_tag d in
  result <- _run ["git"; "tag"; tag] book_dir false ;;
  (if negb (returncode result =? 0)
      && Str.contains "already exists" (str_or (stderr result) "")
   then log_warning "Tag %s already exists — skipping." [AStr tag]
   else
     _run ["git"; "push"; "origin"; tag] book_dir true ;;
     log_info "Snapshot tag created: %s" [AStr tag]) ;;
  ret tag.

(** [branch_for_draft] *)
Definition branch_for_draft (book_dir : Path) : M W unit :=
  result <- _run ["git"; "branch"; "--list"; "draft"] book_dir false ;;
  let draft_exists_locally := negb (Str.is_empty (Str.strip (stdout result))) in
  remote_result <- _run ["git"; "ls-remote"; "--heads"; "origin"; "draft"] book_dir false ;;
  let draft_exists_remotely := negb (Str.is_empty (Str.strip (stdout remote_result))) in
  (if negb draft_exists_locally && negb draft_exists_remotely then
     log_info "Creating draft branch from main." [] ;;
     _run ["git"; "checkout"; "-b"; "draft"; "main"] book_dir true ;;
     _run ["git"; "push"; "-u"; "origin"; "draft"] book_dir true ;;
     ret tt
   else
     _run ["git"; "checkout"; "draft"] book_dir true ;;
     _run ["git"; "rebase"; "main"] book_dir true ;;
     ret tt) ;;
  log_info "On draft branch, rebased onto main." [].

(** The body of the loop over the files of Global Material. *)
Definition load_global_file (book_dir : Path) (sections : list ContextSection)
    (md_file : Path) : M W (list ContextSection) :=
  text <- read_text host md_file ;;
  rel <- relative_to md_file book_dir ;;
  let sections := sections ++ [mk_section (Pth.to_string rel) text] in
  log_info "Loaded: %s (%d words)" [AStr (Pth.name md_file); AInt (_count_words text)] ;;
  ret sections.

(** The body of the loop over the files of Chapters material. *)
Definition load_chapter_file (book_dir : Path) (sections : list ContextSection)
    (md_file : Path) : M W (list ContextSection) :=
  text <- read_text host md_file ;;
  rel <- relative_to md_file book_dir ;;
  let sections := sections ++ [mk_section (Pth.to_string rel) text] in
  rel' <- relative_to md_file book_dir ;;
  log_info "Loaded: %s (%d words)" [APath rel'; AInt (_count_words text)] ;;
  ret sections.

(** [build_payload] *)
Definition build_payload (book_dir : Path) (config_ : dict) : M W Payload :=
  let sections : list ContextSection := [] in
  (* Global Material (all .md files) *)
  let global_dir := Pth.div book_dir "Global Material" in
  present <- path_exists host global_dir ;;
  sections <- (if present : bool then
                 found <- path_glob host global_dir "*.md" ;;
                 for_fold (sorted found) sections (load_global_file book_dir)
               else ret sections) ;;
  (* Chapters material (all .md files, recursively) *)
  let chapters_dir := Pth.div book_dir "Chapters material" in
  present <- path_exists host chapters_dir ;;
  sections <- (if present : bool then
                 found <- path_rglob host chapters_dir "*.md" ;;
                 for_fold (sorted found) sections (load_chapter_file book_dir)
               else ret sections) ;;
  (* Review/current.md *)
  let current_md := Pth.div (Pth.div book_dir "Review") "current.md" in
  present <- path_exists host current_md ;;
  sections <- (if present : bool then
                 text <- read_text host current_md ;;
                 rel <- relative_to current_md book_dir ;;
                 let sections := sections ++ [mk_section (Pth.to_string rel) text] in
                 log_info "Loaded: Review/current.md (%d words)" [AInt (_count_words text)] ;;
                 ret sections
               else
                 log_warning "Review/current.md not found — starting fresh." [] ;;
                 ret sections) ;;
  (* Word count from latest Full_Book_*.md *)
  let word_count_ := 0 in
  let current_version_dir := Pth.div book_dir "Current version" in
  present <- path_exists host current_version_dir ;;
  word_count_ <- (if present : bool then
                    found <- path_glob host current_version_dir "Full_Book_*.md" ;;
                    let candidates := sorted found in
                    match last candidates with
                    | Some latest =>
                        text <- read_text host latest ;;
                        let word_count_ := _count_words text in
                        log_info "Manuscript word count: %d (from %s)"
                                 [AInt word_count_; AStr (Pth.name latest)] ;;
                        ret word_count_
                    | None => ret word_count_
                    end
                  else ret word_count_) ;;
  let payload := mk_payload sections word_count_ config_ in
  log_info "Payload built: %d context section(s), %d manuscript words."
           [AInt (Z.of_nat (length sections)); AInt word_count_] ;;
  ret payload.

(** [d[k]] *)
Definition dict_getitem (d : dict) (k : pykey) : M W pyval :=
  match d !! k with
  | Some v => ret v
  | None => raise (KeyError k)
  end.

(** Step 3 of [main]: detect the human edits and, if there are any,
    commit them. *)
Definition reconcile_human_edits (book_dir : Path) : M W unit :=
  edited_files <- detect_human_edits book_dir ;;
  match edited_files with
  | _ :: _ => commit_human_edits book_dir edited_files
  | [] => ret tt
  end.

(** [main], for the parsed argument [repo_url]. *)
Definition main (repo_url : string) : M W unit :=
  book_name <- lift (book_name_from_url repo_url) ;;
  let book_dir := Pth.div BOOKS_ROOT book_name in
  log_info (Str.replicate 60 "=") [] ;;
  log_info "Ink Gateway — nightly session starting" [] ;;
  log_info "Book: %s" [AStr book_name] ;;
  log_info "Dir:  %s" [APath book_dir] ;;
  log_info (Str.replicate 60 "=") [] ;;
  (* Step 1 *)
  ensure_repo repo_url book_dir ;;
  (* Step 2 *)
  config_ <- load_config book_dir ;;
  (* Step 3 *)
  reconcile_human_edits book_dir ;;
  (* Step 4 *)
  snapshot book_dir ;;
  (* Step 5 *)
  branch_for_draft book_dir ;;
  (* Step 6 *)
  payload <- build_payload book_dir config_ ;;
  log_info (Str.replicate 60 "=") [] ;;
  log_info "Phase 1 complete. Payload ready for AI generation (Phase 2)." [] ;;
  target <- dict_getitem config_ (KStr "nightly_output_target") ;;
  log_info "  Sections: %d | Manuscript words: %d | Nightly target: %d"
           [AInt (Z.of_nat (length (context_sections payload)));
            AInt (word_count payload);
            AVal target] ;;
  log_info (Str.replicate 60 "=") [].

(** The script: [main] under the handler that logs a fatal error and
    exits with status 1. *)
Definition script (repo_url : string) : State W -> Z * State W :=
  fun s =>
    match main repo_url s with
    | (Ok _, s') => (0, s')
    | (Raise e, s') =>
        (1, mk_state (world s') (records s' ++ [mk_record ERROR "Fatal error: %s" [AExn e]])
                     (calls s'))
    end.

End Engine.

(* ===================================================================== *)
(** ** Concrete hosts *)
(* ===================================================================== *)

(** A YAML parser given by a table from file texts to documents; a text
    outside the table does not parse. *)
Fixpoint parse_by_table (table : list (string * pyval)) (text : string) : outcome pyval :=
  match table with
  | [] => Raise (YAMLError "could not parse")
  | (t, v) :: table' => if String.eqb t text then Ok v else parse_by_table table' text
  end.

(** The scripted host: each external command is answered by the next
    reply of a script (and exits zero in silence once the script is
    used up); the file system and the clock are fixed: [mkdir] fails as
    the tree says and otherwise leaves the tree as it is, as the
    commands do. *)
Module Scripted.

Record world := mk_world {
  replies : list CompletedProcess;
  root : node;
  clock : date;
  zone : Z -> date;
  yaml : list (string * pyval)
}.

Definition run (cmd : list string) (dir : Path) (w : world) : CompletedProcess * world :=
  match replies w with
  | [] => (mk_completed 0 "" "", w)
  | r :: rs => (r, mk_world rs (root w) (clock w) (zone w) (yaml w))
  end.

Definition mkdir (p : Path) (w : world) : outcome unit * world :=
  (match FS.mkdir_error (root w) p with
   | Some e => Raise e
   | None => Ok tt
   end, w).

Definition host (table : list (string * pyval)) : Host world :=
  mk_host world run root mkdir clock zone (parse_by_table table).

End Scripted.

(** A model of the repository that [git] keeps, for the commands of
    [snapshot] and [branch_for_draft]: tags, local branches, the branches
    and tags of [origin], and the branch checked out.  A branch is the
    list of its commits, newest first.  [failing] tells which commands
    fail for a reason outside the repository (network, lock, conflict);
    such a command changes nothing. *)
Module Git.

Definition commit := positive.

Record repo := mk_repo {
  head : string;
  branches : gmap string (list commit);
  remote_branches : gmap string (list commit);
  tags : gmap string commit;
  remote_tags : gmap string commit;
  failing : list string -> bool
}.

Definition ok (out : string) : CompletedProcess := mk_completed 0 out "".
Definition fail (code : Z) (err : string) : CompletedProcess := mk_completed code "" err.

(** The commit [HEAD] resolves to. *)
Definition head_commit (r : repo) : option commit :=
  h ← branches r !! head r; List.hd_error h.

(** [old] can be fast-forwarded to [new]. *)
Definition fast_forward (old new : list commit) : bool :=
  bool_decide (old `suffix_of` new).

Definition set_head (r : repo) (b : string) : repo :=
  mk_repo b (branches r) (remote_branches r) (tags r) (remote_tags r) (failing r).
Definition set_branch (r : repo) (b : string) (h : list commit) : repo :=
  mk_repo (head r) (<[b:=h]> (branches r)) (remote_branches r) (tags r) (remote_tags r) (failing r).
Definition set_remote_branch (r : repo) (b : string) (h : list commit) : repo :=
  mk_repo (head r) (branches r) (<[b:=h]> (remote_branches r)) (tags r) (remote_tags r) (failing r).
Definition set_tag (r : repo) (t : string) (c : commit) : repo :=
  mk_repo (head r) (branches r) (remote_branches r) (<[t:=c]> (tags r)) (remote_tags r) (failing r).
Definition set_remote_tag (r : repo) (t : string) (c : commit) : repo :=
  mk_repo (head r) (branches r) (remote_branches r) (tags r) (<[t:=c]> (remote_tags r)) (failing r).

(** [git tag t] *)
Definition tag (t : string) (r : repo) : CompletedProcess * repo :=
  match tags r !! t with
  | Some _ => (fail 128 ("fatal: tag '" +:+ t +:+ "' already exists"), r)
  | None =>
      match head_commit r with
      | Some c => (ok "", set_tag r t c)
      | None => (fail 128 "fatal: Failed to resolve 'HEAD' as a valid ref.", r)
      end
  end.

(** [git push origin x], for a tag or a branch [x] *)
Definition push (x : string) (r : repo) : CompletedProcess * repo :=
  match tags r !! x, branches r !! x with
  | Some c, _ =>
      match remote_tags r !! x with
      | None => (ok "", set_remote_tag r x c)
      | Some c' =>
          if bool_decide (c' = c) then (ok "", r)
          else (fail 1 "error: failed to push some refs (tag rejected)", r)
      end
  | None, Some h =>
      match remote_branches r !! x with
      | None => (ok "", set_remote_branch r x h)
      | Some h' =>
          if fast_forward h' h then (ok "", set_remote_branch r x h)
          else (fail 1 "error: failed to push some refs (non-fast-forward)", r)
      end
  | None, None => (fail 1 ("error: src refspec " +:+ x +:+ " does not match any"), r)
  end.

(** [git branch --list b] *)
Definition branch_list (b : string) (r : repo) : CompletedProcess * repo :=
  match branches r !! b with
  | Some _ => (ok ((if String.eqb b (head r) then "* " else "  ") +:+ b), r)
  | None => (ok "", r)
  end.

(** [git ls-remote --heads origin b] *)
Definition ls_remote (b : string) (r : repo) : CompletedProcess * repo :=
  match remote_branches r !! b with
  | Some h => (ok (pretty (Z.pos (List.hd 1%positive h)) +:+ " refs/heads/" +:+ b), r)
  | None => (ok "", r)
  end.

(** [git checkout -b b start] *)
Definition checkout_new (b start : string) (r : repo) : CompletedProcess * repo :=
  match branches r !! b, branches r !! start with
  | Some _, _ => (fail 128 ("fatal: a branch named '" +:+ b +:+ "' already exists"), r)
  | None, Some h => (ok "", set_head (set_branch r b h) b)
  | None, None => (fail 128 ("fatal: '" +:+ start +:+ "' is not a commit"), r)
  end.

(** [git checkout b]: a branch known only from [origin] is created
    from it. *)
Definition checkout (b : string) (r : repo) : CompletedProcess * repo :=
  match branches r !! b, remote_branches r !! b with
  | Some _, _ => (ok "", set_head r b)
  | None, Some h => (ok "", set_head (set_branch r b h) b)
  | None, None => (fail 1 ("error: pathspec '" +:+ b +:+ "' did not match"), r)
  end.

(** [git rebase upstream]: the commits of the current branch that
    [upstream] lacks are replayed on top of [upstream]. *)
Definition rebase (upstream : string) (r : repo) : CompletedProcess * repo :=
  match branches r !! upstream, branches r !! head r with
  | Some hu, Some h =>
      (ok "", set_branch r (head r) (filter (fun c => c ∉ hu) h ++ hu))
  | _, _ => (fail 128 ("fatal: invalid upstream '" +:+ upstream +:+ "'"), r)
  end.

(** The command lines the model understands. *)
Inductive request :=
| Tag (t : string)
| Push (x : string)
| BranchList (b : string)
| LsRemote (b : string)
| CheckoutNew (b start : string)
| Checkout (b : string)
| Rebase (upstream : string)
| Other.

Definition parse (cmd : list string) : request :=
  match cmd with
  | ["git"; "tag"; t] => Tag t
  | ["git"; "push"; "origin"; x] => Push x
  | ["git"; "push"; "-u"; "origin"; x] => Push x
  | ["git"; "branch"; "--list"; b] => BranchList b
  | ["git"; "ls-remote"; "--heads"; "origin"; b] => LsRemote b
  | ["git"; "checkout"; "-b"; b; start] => CheckoutNew b start
  | ["git"; "checkout"; b] => Checkout b
  | ["git"; "rebase"; upstream] => Rebase upstream
  | _ => Other
  end.

Definition perform (q : request) (r : repo) : CompletedProcess * repo :=
  match q with
  | Tag t => tag t r
  | Push x => push x r
  | BranchList b => branch_list b r
  | LsRemote b => ls_remote b r
  | CheckoutNew b start => checkout_new b start r
  | Checkout b => checkout b r
  | Rebase upstream => rebase upstream r
  | Other => (fail 1 "git: command outside the model", r)
  end.

(** The command line interface. *)
Definition exec (cmd : list string) (r : repo) : CompletedProcess * repo :=
  if failing r cmd then (fail 1 "fatal: unable to complete the operation", r)
  else perform (parse cmd) r.

Record world := mk_world {
  repository : repo;
  root : node;
  clock : date;
  zone : Z -> date
}.

Definition run (cmd : list string) (dir : Path) (w : world) : CompletedProcess * world :=
  let '(result, r') := exec cmd (repository w) in
  (result, mk_world r' (root w) (clock w) (zone w)).

Definition mkdir (p : Path) (w : world) : outcome unit * world :=
  (match FS.mkdir_error (root w) p with
   | Some e => Raise e
   | None => Ok tt
   end, w).

Definition host : Host world :=
  mk_host world run root mkdir clock zone (parse_by_table []).

(** The names of the tags of a repository. *)
Definition tag_names (r : repo) : list string := (map_to_list (tags r)).*1.

(** How many tags are called [t]. *)
Definition count_tags (t : string) (r : repo) : nat :=
  length (filter (fun n => n = t) (tag_names r)).




End Git.

(** The working copy on top of the repository, for [git add] and
    [git commit]: the paths whose content differs from [HEAD]
    (untracked files included), the paths staged for the next commit,
    and the paths each commit made from this copy recorded.  A commit
    is made on the branch that is checked out; every other command
    goes to the repository as in [Git]. *)
Module Worktree.

Record copy := mk_copy {
  repository : Git.repo;
  changed : list Path;
  staged : list Path;
  recorded : gmap Git.commit (list Path)
}.

(** The commits that bear a name already, and an identifier that none
    of them bears (it stands for the hash of a new commit). *)
Definition known (c : copy) : list Git.commit :=
  mjoin (map_to_list (Git.branches (repository c))).*2
  ++ mjoin (map_to_list (Git.remote_branches (repository c))).*2
  ++ (map_to_list (Git.tags (repository c))).*2
  ++ (map_to_list (Git.remote_tags (repository c))).*2
  ++ (map_to_list (recorded c)).*1.

Definition fresh (c : copy) : Git.commit :=
  Pos.succ (foldr Pos.max 1%positive (known c)).

(** [git add .] at the top of the working copy: every change is staged. *)
Definition add_all (c : copy) : CompletedProcess * copy :=
  (Git.ok "", mk_copy (repository c) (changed c) (changed c) (recorded c)).

(** [git commit -m message]: with nothing staged it exits 1; otherwise
    a new commit that records the staged paths is put on top of the
    branch that is checked out. *)
Definition commit (message : string) (c : copy) : CompletedProcess * copy :=
  match staged c with
  | [] => (mk_completed 1 "nothing to commit, working tree clean" "", c)
  | _ :: _ =>
      let r := repository c in
      let id := fresh c in
      let history := default [] (Git.branches r !! Git.head r) in
      (Git.ok ("[" +:+ Git.head r +:+ "] " +:+ message),
       mk_copy (Git.set_branch r (Git.head r) (id :: history))
               (filter (fun p => p ∉ staged c) (changed c))
               []
               (<[id := staged c]> (recorded c)))
  end.

Inductive request :=
| AddAll
| Commit (message : string)
| Repository.

Definition parse (cmd : list string) : request :=
  match cmd with
  | ["git"; "add"; "."] => AddAll
  | ["git"; "commit"; "-m"; message] => Commit message
  | _ => Repository
  end.

Definition perform (cmd : list string) (c : copy) : CompletedProcess * copy :=
  match parse cmd with
  | AddAll => add_all c
  | Commit message => commit message c
  | Repository =>
      let '(reply, r) := Git.perform (Git.parse cmd) (repository c) in
      (reply, mk_copy r (changed c) (staged c) (recorded c))
  end.

(** The command line interface. *)
Definition exec (cmd : list string) (c : copy) : CompletedProcess * copy :=
  if Git.failing (repository c) cmd
  then (Git.fail 1 "fatal: unable to complete the operation", c)
  else perform cmd c.

Record world := mk_world {
  working : copy;
  root : node;
  clock : date;
  zone : Z -> date
}.

Definition run (cmd : list string) (dir : Path) (w : world) : CompletedProcess * world :=
  let '(reply, c') := exec cmd (working w) in
  (reply, mk_world c' (root w) (clock w) (zone w)).

Definition mkdir (p : Path) (w : world) : outcome unit * world :=
  (match FS.mkdir_error (root w) p with
   | Some e => Raise e
   | None => Ok tt
   end, w).

Definition host : Host world :=
  mk_host world run root mkdir clock zone (parse_by_table []).

End Worktree.

(* ===================================================================== *)
(** ** Concrete worlds used to run the program *)
(* ===================================================================== *)

Module Examples.

Definition nov3 : date := mk_date 2026 11 3.
Definition nov2 : date := mk_date 2026 11 2.

(** Time stamps from 1000 on fall on 3 November, earlier ones on the
    day before. *)
Definition zone (t : Z) : date := if 1000 <=? t then nov3 else nov2.

Definition book_dir : Path := Pth.div BOOKS_ROOT "my-novel".

(** A file system that holds [book] at [book_dir]. *)
Definition holding (book : node) : node :=
  Dir 0 [("data", Dir 0 [("ink-gateway", Dir 0 [("books", Dir 0 [("my-novel", book)])])])].

(** A project with files in every directory the program reads; only
    [notes.txt] (and a file of [.git]) was modified on 3 November. *)
Definition project : node :=
  Dir 10
    [(".git", Dir 1500 [("HEAD", File (Some "ref: refs/heads/main") 1500)]);
     ("Global Material",
       Dir 10 [("b.md", File (Some "second") 10);
               ("Config.yml", File (Some "model: m") 10);
               ("a.md", File (Some "first  file") 10);
               ("notes.txt", File (Some "") 1200)]);
     ("Chapters material",
       Dir 10 [("a-b", Dir 10 [("c.md", File (Some "c") 10)]);
               ("a", Dir 10 [("z.md", File (Some "z") 10)]);
               ("a.md", File (Some "q") 10)]);
     ("Review", Dir 10 [("current.md", File (Some "draft under review") 10)]);
     ("Current version",
       Dir 10 [("Full_Book_v2.md", File (Some "one two three") 10);
               ("Full_Book_v1.md", File (Some "one") 10)])].

(** A project that holds nothing but an empty override file, last
    modified before 3 November. *)
Definition quiet_project : node :=
  Dir 10 [("Global Material", Dir 10 [("Config.yml", File (Some "") 10)])].

(** A project with no file at all. *)
Definition bare_project : node := Dir 10 [].

(** A parser table: the override file of [project] sets a recognised
    key and an unrecognised one; an empty file is the empty document. *)
Definition yaml_table : list (string * pyval) :=
  [("model: m", PDict (<[KStr "model" := PStr "m"]> (<[KStr "colour" := PInt 1]> ∅)));
   ("", PNone)].

Definition scripted (replies : list CompletedProcess) (book : node) : Scripted.world :=
  Scripted.mk_world replies (holding book) nov3 zone yaml_table.

Definition scripted_host : Host Scripted.world := Scripted.host yaml_table.

(** Tag creation fails on a locked ref, the push that follows exits zero. *)
Definition locked_ref : Scripted.world :=
  scripted [mk_completed 128 "" "fatal: cannot lock ref 'refs/tags/pre-nightly-2026-11-03'";
            mk_completed 0 "" ""] project.

(** A repository with a main line of two commits and nothing else. *)
Definition fresh_repo : Git.repo :=
  Git.mk_repo "main" (<["main" := [2; 1]%positive]> ∅) ∅ ∅ ∅ (fun _ => false).

(** A repository whose draft branch exists on both sides, one commit
    behind the main line and one commit of its own ahead. *)
Definition drafted_repo : Git.repo :=
  Git.mk_repo "main"
    (<["draft" := [7; 1]%positive]> (<["main" := [2; 1]%positive]> ∅))
    (<["draft" := [7; 1]%positive]> ∅) ∅ ∅ (fun _ => false).

Definition git_world (r : Git.repo) : Git.world :=
  Git.mk_world r (holding project) nov3 zone.

(** A repository as the clone leaves it: the main line in step with
    [origin] and checked out. *)
Definition cloned_repo : Git.repo :=
  Git.mk_repo "main" (<["main" := [2; 1]%positive]> ∅) (<["main" := [2; 1]%positive]> ∅)
    ∅ ∅ (fun _ => false).

(** The same repository as the first session leaves it: the draft
    branch was created from the main line, published, and is the
    branch checked out. *)
Definition after_first_session : Git.repo :=
  Git.mk_repo "draft"
    (<["draft" := [2; 1]%positive]> (<["main" := [2; 1]%positive]> ∅))
    (<["draft" := [2; 1]%positive]> (<["main" := [2; 1]%positive]> ∅))
    ∅ ∅ (fun _ => false).

(** The working copy of [project] on a repository, [notes.txt] being
    the one file that differs from what is committed. *)
Definition working_copy (r : Git.repo) : Worktree.world :=
  Worktree.mk_world
    (Worktree.mk_copy r [book_dir ++ ["Global Material"; "notes.txt"]] [] ∅)
    (holding project) nov3 zone.

End Examples.

(* ===================================================================== *)
(** ** The vocabulary of the statements *)
(* ===================================================================== *)

(** The definitions below are not code of [engine.py]: they name what
    the statements about it speak of (the records a call of the runner
    leaves, the nodes of a directory, the files that count as edited
    today), and each statement compares the program with them. *)

(** The records one call of [_run] appends to the log. *)
Definition run_records (cmd : list string) (r : CompletedProcess) : list LogRecord :=
  [mk_record INFO "$ %s" [AStr (Str.join " " cmd)]]
  ++ (if Str.is_empty (Str.strip (stdout r)) then []
      else [mk_record INFO (Str.strip (stdout r)) []])
  ++ (if negb (returncode r =? 0) && negb (Str.is_empty (Str.strip (stderr r)))
      then [mk_record ERROR (Str.strip (stderr r)) []]
      else []).

(** What one call of [_run] returns. *)
Definition run_outcome (cmd : list string) (check : bool) (r : CompletedProcess)
  : outcome CompletedProcess :=
  if negb (returncode r =? 0) && check
  then Raise (RuntimeError (command_failed (returncode r) cmd))
  else Ok r.

(** The reply to a command issued in state [s], and the state after
    [_run] has issued it. *)
Definition reply_of {W : Type} (host : Host W) (cmd : list string) (dir : Path)
    (s : State W) : CompletedProcess :=
  (subprocess_run host cmd dir (world s)).1.

Definition after_run {W : Type} (host : Host W) (cmd : list string) (dir : Path)
    (s : State W) : State W :=
  mk_state (subprocess_run host cmd dir (world s)).2
           (records s ++ run_records cmd (reply_of host cmd dir s))
           (calls s ++ [mk_call cmd dir]).

(** The state after one more log record. *)
Definition logged {W : Type} (lv : levelname) (fmt : string) (a : list logarg)
    (s : State W) : State W :=
  mk_state (world s) (records s ++ [mk_record lv fmt a]) (calls s).

(** A reply whose captured output holds something other than white space. *)
Definition has_output (r : CompletedProcess) : bool :=
  negb (Str.is_empty (Str.strip (stdout r))).

Definition exited_nonzero (r : CompletedProcess) : bool :=
  negb (returncode r =? 0).

(** The command lines of [branch_for_draft] and [commit_human_edits]. *)
Module Cmd.
Definition list_draft : list string := ["git"; "branch"; "--list"; "draft"].
Definition ls_remote_draft : list string := ["git"; "ls-remote"; "--heads"; "origin"; "draft"].
Definition create_draft : list string := ["git"; "checkout"; "-b"; "draft"; "main"].
Definition publish_draft : list string := ["git"; "push"; "-u"; "origin"; "draft"].
Definition checkout_draft : list string := ["git"; "checkout"; "draft"].
Definition rebase_main : list string := ["git"; "rebase"; "main"].
Definition add_all : list string := ["git"; "add"; "."].
Definition commit_edits : list string := ["git"; "commit"; "-m"; "chore: human updates"].
Definition push_main : list string := ["git"; "push"; "origin"; "main"].
End Cmd.

(** An optional value is there. *)
Definition present {A : Type} (o : option A) : bool :=
  match o with
  | Some _ => true
  | None => false
  end.

(** Where [load_config] looks for the override file. *)
Definition config_path (book_dir : Path) : Path :=
  Pth.div (Pth.div book_dir "Global Material") "Config.yml".

(** The modification time stamp of the node at a path. *)
Definition mtime_of (root : node) (p : Path) : Z :=
  match FS.lookup root p with
  | Some (File _ t) => t
  | Some (Dir t _) => t
  | None => 0
  end.

(** A path that counts as a human edit of today: outside [.git], a
    regular file, last modified on the current calendar date. *)
Definition edited_today {W : Type} (host : Host W) (w : W) (p : Path) : bool :=
  negb (bool_decide (".git" ∈ p))
  && FS.is_file (filesystem host w) p
  && bool_decide (date_fromtimestamp host w (mtime_of (filesystem host w) p)
                  = date_today host w).

(** The path a context section records for a file: its path relative
    to the project, as a string. *)
Definition section_path (book_dir p : Path) : string :=
  match Pth.strip_prefix book_dir p with
  | Some rel => Pth.to_string rel
  | None => ""
  end.

(** The text of the file at a path, if it is a file that decodes. *)
Definition text_at (root : node) (p : Path) : option string :=
  match FS.lookup root p with
  | Some (File (Some text) _) => Some text
  | _ => None
  end.

(** One round of a loading loop of [build_payload] appends the section
    of the file it reads and leaves the world as it is. *)
Definition loads_one {W : Type} (book_dir : Path)
    (body : list ContextSection → Path → M W (list ContextSection)) : Prop :=
  ∀ acc p s acc' s',
    body acc p s = (Ok acc', s') →
    map path acc' = map path acc ++ [section_path book_dir p] ∧ world s' = world s.

(** The names of the entries of the directory at a path ([os.listdir]),
    none when there is no directory. *)
Definition listdir (root : node) (d : Path) : list string :=
  match FS.lookup root d with
  | Some (Dir _ es) => map fst es
  | _ => []
  end.

(** The relative paths of everything below the directory at a path. *)
Definition tree (root : node) (d : Path) : list (list string) :=
  match FS.lookup root d with
  | Some (Dir m es) => FS.walk (Dir m es)
  | _ => []
  end.

(** The order of strings by code point. *)
Definition str_le (a b : string) : Prop := String.leb a b = true.

(** The file at a path can be read as text. *)
Definition readable (root : node) (p : Path) : Prop := is_Some (text_at root p).

(** The directory [main] works in for a repository URL: [BOOKS_ROOT]
    joined with the book name. *)
Definition book_dir_of (url : string) : outcome Path :=
  match book_name_from_url url with
  | Ok book_name => Ok (Pth.div BOOKS_ROOT book_name)
  | Raise e => Raise e
  end.

(** A loading loop of [build_payload] goes through on a file that reads
    as text and lies under the project, and leaves the world as it is. *)
Definition loads_readable {W : Type} (host : Host W) (book_dir : Path)
    (body : list ContextSection → Path → M W (list ContextSection)) : Prop :=
  ∀ acc rel s,
    readable (filesystem host (world s)) (book_dir ++ rel) →
    ∃ acc' s', body acc (book_dir ++ rel) s = (Ok acc', s') ∧ world s' = world s.

(* ===================================================================== *)
(** ** More vocabulary: what a computation leaves alone *)
(* ===================================================================== *)

(** A computation that, whatever it returns, issues no external command
    and leaves the world as it found it. *)
Definition quiet {W A : Type} (m : M W A) : Prop :=
  ∀ s, calls (m s).2 = calls s ∧ world (m s).2 = world s.

(** The state after [mkdir] was asked for a directory and its parents. *)
Definition made_dir {W : Type} (host : Host W) (p : Path) (s : State W) : State W :=
  mk_state (mkdir_parents host p (world s)).2 (records s) (calls s).

(** The command lines of [ensure_repo]. *)
Definition fetch_all : list string := ["git"; "fetch"; "--all"; "--tags"].
Definition clone_into (url : string) (book_dir : Path) : list string :=
  ["git"; "clone"; url; Pth.to_string book_dir].

(** The call by which [ensure_repo] brings the repository up to date:
    a fetch in the directory when it exists, a clone run from its parent
    otherwise. *)
Definition sync_call (there : bool) (url : string) (book_dir : Path) : Call :=
  if there then mk_call fetch_all book_dir
  else mk_call (clone_into url book_dir) (Pth.parent book_dir).

(** What [ensure_repo] has done before it issues its command: nothing
    that can fail when the directory is there, the creation of the
    parent directories otherwise. *)
Definition sync_prepared {W : Type} (host : Host W) (there : bool) (book_dir : Path)
    (w : W) : outcome unit * W :=
  if there then (Ok tt, w) else mkdir_parents host (Pth.parent book_dir) w.

(** The context section [build_payload] makes of a file: its path
    relative to the project and its text. *)
Definition section_of (root : node) (book_dir p : Path) : ContextSection :=
  mk_section (section_path book_dir p) (default EmptyString (text_at root p)).

(** The files [build_payload] makes sections of, in the order it visits
    them. *)
Definition context_files (root : node) (book_dir : Path) : list Path :=
  sorted (FS.glob root (Pth.div book_dir "Global Material") "*.md")
  ++ sorted (FS.rglob root (Pth.div book_dir "Chapters material") "*.md")
  ++ (if FS.exists_ root (Pth.div (Pth.div book_dir "Review") "current.md")
      then [Pth.div (Pth.div book_dir "Review") "current.md"] else []).

(** One round of a loading loop reads the file as text and appends its
    section. *)
Definition loads_text {W : Type} (host : Host W) (book_dir : Path)
    (body : list ContextSection → Path → M W (list ContextSection)) : Prop :=
  ∀ acc p s acc' s',
    body acc p s = (Ok acc', s') →
    readable (filesystem host (world s)) p
    ∧ acc' = acc ++ [section_of (filesystem host (world s)) book_dir p]
    ∧ world s' = world s.

(** The dates of [datetime.date]: years 1 to 9999. *)
Definition valid_date (d : date) : Prop :=
  1 ≤ year d ≤ 9999 ∧ 1 ≤ month d ≤ 12 ∧ 1 ≤ day d ≤ 31.

(** The number a string of decimal digits writes. *)
Fixpoint decimal (acc : Z) (digits : string) : Z :=
  match digits with
  | EmptyString => acc
  | String c digits' => decimal (10 * acc + (Z.of_N (N_of_ascii c) - 48)) digits'
  end.

(** A computation that, whatever it returns, issues only commands that
    satisfy [allowed]. *)
Definition issues {W A : Type} (allowed : Call → Prop) (m : M W A) : Prop :=
  ∀ s, ∃ cs, calls (m s).2 = calls s ++ cs ∧ Forall allowed cs.

(** A call of [git] in the project directory, or the clone that
    creates this directory from its parent. *)
Definition git_in_project (url : string) (book_dir : Path) (c : Call) : Prop :=
  head (argv c) = Some "git"
  ∧ (cwd c = book_dir ∨ c = mk_call (clone_into url book_dir) (Pth.parent book_dir)).

(** Further worlds to run the program in. *)
Module Cases.

(** A project whose override file holds a YAML sequence, and the parser
    table that reads it. *)
Definition listed_project : node :=
  Dir 10 [("Global Material", Dir 10 [("Config.yml", File (Some "- model") 10)])].

Definition sequence_table : list (string * pyval) :=
  [("- model", PList [PStr "model"])].

Definition listed : State Scripted.world :=
  initial (Scripted.mk_world [] (Examples.holding listed_project) Examples.nov3
             Examples.zone sequence_table).

(** A books directory that holds a repository called [.git], with a
    file written on 3 November. *)
Definition dot_git_dir : Path := Pth.div BOOKS_ROOT ".git".

Definition dot_git : State Scripted.world :=
  initial (Scripted.mk_world []
             (Dir 0 [("data", Dir 0 [("ink-gateway", Dir 0 [("books", Dir 0
                [(".git", Dir 10 [("chapter.md", File (Some "text") 1200)])])])])])
             Examples.nov3 Examples.zone []).

(** A file system in which a regular file bears the name of the books
    directory. *)
Definition blocked : Scripted.world :=
  Scripted.mk_world []
    (Dir 0 [("data", Dir 0 [("ink-gateway", Dir 0 [("books", File (Some "") 10)])])])
    Examples.nov3 Examples.zone [].

End Cases.

(* ===================================================================== *)
(** * Properties *)
(* ===================================================================== *)

(** ** The book name of a URL *)

Lemma rstrip_by_replicate (p : ascii → bool) (c : ascii) (n : nat) :
  p c = true → Str.rstrip_by p (Str.replicate n c) = EmptyString.
Proof.
  intros Hc. induction n as [|n IH]; simpl; [done|].
  by rewrite IH, Hc.
Qed.

Lemma rstrip_by_app_replicate (p : ascii → bool) (c : ascii) (n : nat) (s : string) :
  p c = true → Str.rstrip_by p (s +:+ Str.replicate n c) = Str.rstrip_by p s.
Proof.
  intros Hc. induction s as [|a s IH]; simpl.
  - by apply rstrip_by_replicate.
  - by rewrite IH.
Qed.

Lemma split_not_nil (sep : ascii) (s : string) : Str.split sep s ≠ [].
Proof.
  destruct s as [|c s]; simpl; [done|].
  destruct (Ascii.eqb c sep); [done|].
  by destruct (Str.split sep s).
Qed.

Lemma index_last_total (xs : list string) : xs ≠ [] → ∃ x, index_last xs = Ok x.
Proof.
  intros Hne. unfold index_last.
  destruct (last xs) as [x|] eqn:E; [by eexists|].
  by apply last_None in E.
Qed.

(** The example of the docstring of [book_name_from_url]. *)
Example book_name_docstring :
  book_name_from_url "https://github.com/Philippe-arnd/my-novel" = Ok "my-novel".
Proof. reflexivity. Qed.

(** C9. The book name does not depend on trailing slashes: for every
    URL and every number of ["/"] characters appended to it, the name
    derived is the one derived from the URL itself; a name is always
    derived, and so is the same working directory under [BOOKS_ROOT]. *)
Theorem book_name_trailing_slashes (url : string) (n : nat) :
  ∃ book_name,
    book_name_from_url url = Ok book_name
    ∧ book_name_from_url (url +:+ Str.replicate n "/") = Ok book_name
    ∧ book_dir_of (url +:+ Str.replicate n "/") = book_dir_of url.
Proof.
  destruct (index_last_total (Str.split "/" (Str.rstrip "/" url))) as [name Hname];
    [apply split_not_nil|].
  assert (Hsame : book_name_from_url (url +:+ Str.replicate n "/") = book_name_from_url url).
  { unfold book_name_from_url, Str.rstrip. by rewrite rstrip_by_app_replicate. }
  exists name. split_and!; [done | by rewrite Hsame |].
  unfold book_dir_of. by rewrite Hsame.
Qed.

(** ** The command runner *)

Lemma str_or_empty (s : string) : str_or s "" = s.
Proof. by destruct s. Qed.

Section RunFacts.
Context {W : Type} (host : Host W).

Lemma _run_unfold (cmd : list string) (dir : Path) (check : bool) (s : State W) :
  _run host cmd dir check s =
    (run_outcome cmd check (reply_of host cmd dir s), after_run host cmd dir s).
Proof.
  unfold _run, run_outcome, after_run, reply_of, run_records, bind, run_process,
    when, log_info, log_error, log_, ret, raise.
  simpl.
  destruct (subprocess_run host cmd dir (world s)) as [r w']. simpl.
  destruct (Str.is_empty (Str.strip (stdout r))); simpl;
    destruct (returncode r =? 0); simpl;
    destruct (Str.is_empty (Str.strip (stderr r))); simpl;
    destruct check; simpl; rewrite <- ?app_assoc; reflexivity.
Qed.

(** A checked command either raises, leaving the state after the
    command, or hands the reply on. *)
Lemma bind_run_checked {B : Type} (cmd : list string) (dir : Path)
    (k : CompletedProcess → M W B) (s : State W) :
  bind (_run host cmd dir true) k s =
    if exited_nonzero (reply_of host cmd dir s)
    then (Raise (RuntimeError (command_failed (returncode (reply_of host cmd dir s)) cmd)),
          after_run host cmd dir s)
    else k (reply_of host cmd dir s) (after_run host cmd dir s).
Proof.
  unfold bind. rewrite _run_unfold. unfold run_outcome, exited_nonzero.
  rewrite andb_true_r. by destruct (negb _).
Qed.

(** A probing command never raises. *)
Lemma bind_run_probe {B : Type} (cmd : list string) (dir : Path)
    (k : CompletedProcess → M W B) (s : State W) :
  bind (_run host cmd dir false) k s =
    k (reply_of host cmd dir s) (after_run host cmd dir s).
Proof.
  unfold bind. rewrite _run_unfold. unfold run_outcome.
  by rewrite andb_false_r.
Qed.

Lemma calls_after_run (cmd : list string) (dir : Path) (s : State W) :
  calls (after_run host cmd dir s) = calls s ++ [mk_call cmd dir].
Proof. reflexivity. Qed.

Lemma world_after_run (cmd : list string) (dir : Path) (s : State W) :
  world (after_run host cmd dir s) = (subprocess_run host cmd dir (world s)).2.
Proof. reflexivity. Qed.

Lemma calls_logged (lv : levelname) (fmt : string) (a : list logarg) (s : State W) :
  calls (logged lv fmt a s) = calls s.
Proof. reflexivity. Qed.

Lemma world_logged (lv : levelname) (fmt : string) (a : list logarg) (s : State W) :
  world (logged lv fmt a s) = world s.
Proof. reflexivity. Qed.

Lemma last_records_logged (lv : levelname) (fmt : string) (a : list logarg) (s : State W) :
  last (records (logged lv fmt a s)) = Some (mk_record lv fmt a).
Proof. unfold logged. cbn [records]. apply last_snoc. Qed.

Lemma bind_log {B : Type} (lv : levelname) (fmt : string) (a : list logarg)
    (k : unit → M W B) (s : State W) :
  bind (log_ lv fmt a) k s = k tt (logged lv fmt a s).
Proof. reflexivity. Qed.

Lemma bind_ret {A B : Type} (a : A) (k : A → M W B) (s : State W) :
  bind (ret a) k s = k a s.
Proof. reflexivity. Qed.

Lemma bind_bind {A B C : Type} (m : M W A) (f : A → M W B) (g : B → M W C) (s : State W) :
  bind (bind m f) g s = bind m (fun a => bind (f a) g) s.
Proof. unfold bind. destruct (m s) as [[a|e] s']; reflexivity. Qed.

Lemma bind_if {A B : Type} (c : bool) (m1 m2 : M W A) (k : A → M W B) (s : State W) :
  bind (if c then m1 else m2) k s = if c then bind m1 k s else bind m2 k s.
Proof. by destruct c. Qed.

End RunFacts.

Ltac run_step :=
  cbv beta;
  first [ rewrite bind_bind | rewrite bind_log | rewrite bind_ret
        | rewrite bind_run_checked | rewrite bind_run_probe ].

Section StepFacts.
Context {W : Type} (host : Host W).

Lemma snapshot_unfold (book_dir : Path) (s : State W) :
  snapshot host book_dir s =
    let tag := snapshot_tag (date_today host (world s)) in
    let tag_cmd := ["git"; "tag"; tag] in
    let push_cmd := ["git"; "push"; "origin"; tag] in
    let reply := reply_of host tag_cmd book_dir s in
    let s1 := after_run host tag_cmd book_dir s in
    if exited_nonzero reply && Str.contains "already exists" (stderr reply)
    then (Ok tag, logged WARNING "Tag %s already exists — skipping." [AStr tag] s1)
    else
      let s2 := after_run host push_cmd book_dir s1 in
      if exited_nonzero (reply_of host push_cmd book_dir s1)
      then (Raise (RuntimeError (command_failed
              (returncode (reply_of host push_cmd book_dir s1)) push_cmd)), s2)
      else (Ok tag, logged INFO "Snapshot tag created: %s" [AStr tag] s2).
Proof.
  unfold snapshot. unfold bind at 1. unfold today at 1.
  rewrite bind_run_probe. cbv zeta. rewrite str_or_empty.
  unfold exited_nonzero, log_warning, log_info.
  destruct (negb _ && Str.contains _ _).
  - reflexivity.
  - repeat run_step.
    fold (exited_nonzero (reply_of host
            ["git"; "push"; "origin"; snapshot_tag (date_today host (world s))] book_dir
            (after_run host ["git"; "tag"; snapshot_tag (date_today host (world s))] book_dir s))).
    destruct (exited_nonzero _); reflexivity.
Qed.

Lemma branch_for_draft_unfold (book_dir : Path) (s : State W) :
  branch_for_draft host book_dir s =
    let s1 := after_run host Cmd.list_draft book_dir s in
    let s2 := after_run host Cmd.ls_remote_draft book_dir s1 in
    if negb (has_output (reply_of host Cmd.list_draft book_dir s))
       && negb (has_output (reply_of host Cmd.ls_remote_draft book_dir s1))
    then
      let s3 := logged INFO "Creating draft branch from main." [] s2 in
      let s4 := after_run host Cmd.create_draft book_dir s3 in
      if exited_nonzero (reply_of host Cmd.create_draft book_dir s3)
      then (Raise (RuntimeError (command_failed
              (returncode (reply_of host Cmd.create_draft book_dir s3)) Cmd.create_draft)), s4)
      else
        let s5 := after_run host Cmd.publish_draft book_dir s4 in
        if exited_nonzero (reply_of host Cmd.publish_draft book_dir s4)
        then (Raise (RuntimeError (command_failed
                (returncode (reply_of host Cmd.publish_draft book_dir s4)) Cmd.publish_draft)), s5)
        else (Ok tt, logged INFO "On draft branch, rebased onto main." [] s5)
    else
      let s4 := after_run host Cmd.checkout_draft book_dir s2 in
      if exited_nonzero (reply_of host Cmd.checkout_draft book_dir s2)
      then (Raise (RuntimeError (command_failed
              (returncode (reply_of host Cmd.checkout_draft book_dir s2)) Cmd.checkout_draft)), s4)
      else
        let s5 := after_run host Cmd.rebase_main book_dir s4 in
        if exited_nonzero (reply_of host Cmd.rebase_main book_dir s4)
        then (Raise (RuntimeError (command_failed
                (returncode (reply_of host Cmd.rebase_main book_dir s4)) Cmd.rebase_main)), s5)
        else (Ok tt, logged INFO "On draft branch, rebased onto main." [] s5).
Proof.
  unfold branch_for_draft.
  rewrite bind_run_probe, bind_run_probe. cbv zeta.
  unfold has_output, log_info.
  rewrite bind_if.
  destruct (negb (negb _) && negb (negb _)).
  - repeat run_step.
    destruct (exited_nonzero _); [reflexivity|].
    repeat run_step.
    destruct (exited_nonzero _); reflexivity.
  - repeat run_step.
    destruct (exited_nonzero _); [reflexivity|].
    repeat run_step.
    destruct (exited_nonzero _); reflexivity.
Qed.

End StepFacts.

(** C7. Every call of the command runner issues the command once and
    logs its command line; it logs the captured standard output (stripped)
    when there is any; on a non-zero exit it logs the standard error
    (stripped) when there is any and, unless [check] is off, raises a
    [RuntimeError] whose message carries the exit code and the command
    line; with [check] off, and on a zero exit, it returns the reply. *)
Theorem run_contract {W : Type} (host : Host W) (cmd : list string) (dir : Path)
    (check : bool) (s : State W) :
  let reply := (subprocess_run host cmd dir (world s)).1 in
  let out := Str.strip (stdout reply) in
  let err := Str.strip (stderr reply) in
  let failed := negb (returncode reply =? 0) in
  records (_run host cmd dir check s).2 =
    records s
    ++ [mk_record INFO "$ %s" [AStr (Str.join " " cmd)]]
    ++ (if Str.is_empty out then [] else [mk_record INFO out []])
    ++ (if failed && negb (Str.is_empty err) then [mk_record ERROR err []] else [])
  ∧ calls (_run host cmd dir check s).2 = calls s ++ [mk_call cmd dir]
  ∧ (_run host cmd dir check s).1 =
      if failed && check
      then Raise (RuntimeError ("Command failed (exit " +:+ pretty (returncode reply)
                                  +:+ "): " +:+ Str.join " " cmd))
      else Ok reply.
Proof.
  intros reply out err failed.
  rewrite _run_unfold. done.
Qed.

(** ** The snapshotter *)

(** C1. When tag creation exits non-zero and its standard error does
    not say "already exists", [snapshot] does not raise: it goes on to
    issue [git push origin <tag>], and when that push exits zero it
    returns the tag and logs "Snapshot tag created". *)
Theorem snapshot_pushes_after_failed_tag {W : Type} (host : Host W) (book_dir : Path)
    (s : State W) :
  let tag := snapshot_tag (date_today host (world s)) in
  let tagging := subprocess_run host ["git"; "tag"; tag] book_dir (world s) in
  let pushing := subprocess_run host ["git"; "push"; "origin"; tag] book_dir tagging.2 in
  returncode tagging.1 ≠ 0 →
  Str.contains "already exists" (stderr tagging.1) = false →
  calls (snapshot host book_dir s).2 =
    calls s ++ [mk_call ["git"; "tag"; tag] book_dir;
                mk_call ["git"; "push"; "origin"; tag] book_dir]
  ∧ (returncode pushing.1 = 0 →
     (snapshot host book_dir s).1 = Ok tag
     ∧ last (records (snapshot host book_dir s).2)
       = Some (mk_record INFO "Snapshot tag created: %s" [AStr tag])).
Proof.
  intros tag tagging pushing Hcode Herr.
  pose (s1 := after_run host ["git"; "tag"; tag] book_dir s).
  pose (s2 := after_run host ["git"; "push"; "origin"; tag] book_dir s1).
  assert (Hsnap : snapshot host book_dir s =
    if exited_nonzero pushing.1
    then (Raise (RuntimeError (command_failed (returncode pushing.1)
                                 ["git"; "push"; "origin"; tag])), s2)
    else (Ok tag, logged INFO "Snapshot tag created: %s" [AStr tag] s2)).
  { rewrite snapshot_unfold. cbv zeta. unfold reply_of.
    rewrite world_after_run. fold tag tagging pushing.
    by rewrite Herr, andb_false_r. }
  rewrite Hsnap. unfold exited_nonzero. split.
  - destruct (negb (returncode pushing.1 =? 0)); cbn [snd]; unfold s2, s1;
      rewrite ?calls_logged, !calls_after_run, <- app_assoc; reflexivity.
  - intros Hpush. rewrite Hpush. change (negb (0 =? 0)) with false. cbn [fst snd].
    split; [reflexivity|]. apply last_records_logged.
Qed.

(** The run on a locked ref: the tag is not created, the push is issued
    and the snapshotter returns as if the tag had been created. *)
Lemma snapshot_pushes_after_failed_tag_witness :
  let s := initial Examples.locked_ref in
  calls (snapshot Examples.scripted_host Examples.book_dir s).2 =
    [mk_call ["git"; "tag"; "pre-nightly-2026-11-03"] Examples.book_dir;
     mk_call ["git"; "push"; "origin"; "pre-nightly-2026-11-03"] Examples.book_dir]
  ∧ (snapshot Examples.scripted_host Examples.book_dir s).1 = Ok "pre-nightly-2026-11-03".
Proof.
  intros s.
  destruct (snapshot_pushes_after_failed_tag Examples.scripted_host Examples.book_dir s)
    as [Hcalls Hok].
  - vm_compute. discriminate.
  - vm_compute. reflexivity.
  - split.
    + exact Hcalls.
    + apply Hok. vm_compute. reflexivity.
Defined.

(** *** Against the repository model *)

Section GitFacts.

Lemma git_exec_tag (t : string) (r : Git.repo) :
  Git.exec ["git"; "tag"; t] r =
    if Git.failing r ["git"; "tag"; t]
    then (Git.fail 1 "fatal: unable to complete the operation", r)
    else Git.tag t r.
Proof. reflexivity. Qed.

Lemma git_run_clock (cmd : list string) (dir : Path) (w : Git.world) :
  Git.clock (Git.run cmd dir w).2 = Git.clock w.
Proof. unfold Git.run. by destruct (Git.exec cmd (Git.repository w)). Qed.

Lemma snapshot_clock (book_dir : Path) (s : State Git.world) :
  Git.clock (world (snapshot Git.host book_dir s).2) = Git.clock (world s).
Proof.
  rewrite snapshot_unfold. cbv zeta.
  repeat match goal with |- context [if ?b then _ else _] => destruct b end;
    cbn [snd]; rewrite ?world_logged, ?world_after_run;
    change (subprocess_run Git.host) with Git.run; by rewrite ?git_run_clock.
Qed.

(** A tag-creation reply that says "already exists" comes from a
    repository that holds the tag, and leaves it as it is. *)
Lemma git_tag_already_exists (t : string) (dir : Path) (w : Git.world) :
  returncode (Git.run ["git"; "tag"; t] dir w).1 ≠ 0 →
  Str.contains "already exists" (stderr (Git.run ["git"; "tag"; t] dir w).1) = true →
  is_Some (Git.tags (Git.repository w) !! t) ∧ (Git.run ["git"; "tag"; t] dir w).2 = w.
Proof.
  unfold Git.run. rewrite git_exec_tag. unfold Git.tag.
  destruct w as [r root clock zone]. simpl.
  destruct (Git.failing r _); simpl.
  { intros _ H. vm_compute in H. discriminate. }
  destruct (Git.tags r !! t) as [c|] eqn:Et; simpl.
  { intros _ _. split; [by eexists | done]. }
  destruct (Git.head_commit r); simpl.
  - intros H. done.
  - intros _ H. vm_compute in H. discriminate.
Qed.

Lemma filter_eq_absent (x : string) (l : list string) :
  x ∉ l → filter (fun n => n = x) l = [].
Proof.
  induction l as [|y l IH]; intros Hx; [done|].
  apply not_elem_of_cons in Hx as [Hne Hx].
  rewrite filter_cons. destruct (decide (y = x)); [congruence | auto].
Qed.

Lemma count_in_nodup (x : string) (l : list string) :
  NoDup l → x ∈ l → length (filter (fun n => n = x) l) = 1%nat.
Proof.
  induction 1 as [|y l Hy Hl IH]; intros Hin.
  - by apply elem_of_nil in Hin.
  - rewrite filter_cons. destruct (decide (y = x)) as [->|Hne].
    + simpl. by rewrite filter_eq_absent.
    + apply elem_of_cons in Hin as [->|Hin]; [done | auto].
Qed.

Lemma count_tags_present (t : string) (r : Git.repo) :
  is_Some (Git.tags r !! t) → Git.count_tags t r = 1%nat.
Proof.
  intros [c Hc]. unfold Git.count_tags, Git.tag_names.
  apply count_in_nodup.
  - apply NoDup_fst_map_to_list.
  - apply list_elem_of_fmap. exists (t, c). split; [done|].
    by apply elem_of_map_to_list.
Qed.

End GitFacts.

(** C2. Two runs of the snapshotter on one calendar date, the second
    of which finds the tag (its tag creation exits non-zero and says
    "already exists"): both issue [git tag] with the same date-derived
    name; the second returns that name without raising, issues no other
    command, ends its log with the warning of the skip, leaves the
    repository as the first run left it, and the repository holds
    exactly one tag of that name. *)
Theorem snapshot_twice_same_day (w : Git.world) (book_dir : Path) :
  let tag := snapshot_tag (Git.clock w) in
  let tag_call := mk_call ["git"; "tag"; tag] book_dir in
  let first := snapshot Git.host book_dir (initial w) in
  let second := snapshot Git.host book_dir first.2 in
  let retry := (Git.run ["git"; "tag"; tag] book_dir (world first.2)).1 in
  returncode retry ≠ 0 →
  Str.contains "already exists" (stderr retry) = true →
  head (calls first.2) = Some tag_call
  ∧ (∀ name, first.1 = Ok name → name = tag)
  ∧ second.1 = Ok tag
  ∧ calls second.2 = calls first.2 ++ [tag_call]
  ∧ last (records second.2)
    = Some (mk_record WARNING "Tag %s already exists — skipping." [AStr tag])
  ∧ Git.repository (world second.2) = Git.repository (world first.2)
  ∧ Git.count_tags tag (Git.repository (world second.2)) = 1%nat.
Proof.
  intros tag tag_call first second retry Hcode Herr.
  assert (Hclock : Git.clock (world first.2) = Git.clock w)
    by apply (snapshot_clock book_dir (initial w)).
  destruct (git_tag_already_exists tag book_dir (world first.2) Hcode Herr) as [Htag Hsame].
  assert (Hsecond : second =
    (Ok tag, mk_state (world first.2)
               ((records first.2 ++ run_records ["git"; "tag"; tag] retry)
                  ++ [mk_record WARNING "Tag %s already exists — skipping." [AStr tag]])
               (calls first.2 ++ [tag_call]))).
  { unfold second. rewrite snapshot_unfold. cbv zeta.
    change (date_today Git.host (world first.2)) with (Git.clock (world first.2)).
    rewrite Hclock. fold tag.
    unfold reply_of, exited_nonzero, logged, after_run, reply_of.
    change (subprocess_run Git.host) with Git.run. fold retry.
    rewrite Herr, andb_true_r.
    apply Z.eqb_neq in Hcode. rewrite Hcode. cbn [negb andb world records calls].
    rewrite Hsame. reflexivity. }
  repeat split.
  - unfold first. rewrite snapshot_unfold. cbv zeta.
    change (date_today Git.host (world (initial w))) with (Git.clock w). fold tag.
    repeat match goal with |- context [if ?b then _ else _] => destruct b end;
      cbn [snd]; rewrite ?calls_logged, ?calls_after_run; done.
  - unfold first. rewrite snapshot_unfold. cbv zeta.
    change (date_today Git.host (world (initial w))) with (Git.clock w). fold tag.
    repeat match goal with |- context [if ?b then _ else _] => destruct b end;
      cbn [fst]; congruence.
  - by rewrite Hsecond.
  - by rewrite Hsecond.
  - rewrite Hsecond. cbn [snd records]. by rewrite last_snoc.
  - by rewrite Hsecond.
  - rewrite Hsecond. simpl. by apply count_tags_present.
Qed.

Lemma snapshot_twice_same_day_witness :
  let w := Examples.git_world Examples.fresh_repo in
  let first := snapshot Git.host Examples.book_dir (initial w) in
  let second := snapshot Git.host Examples.book_dir first.2 in
  second.1 = Ok "pre-nightly-2026-11-03"
  ∧ Git.count_tags "pre-nightly-2026-11-03" (Git.repository (world second.2)) = 1%nat.
Proof.
  intros w first second.
  destruct (snapshot_twice_same_day w Examples.book_dir) as (_ & _ & H2 & _ & _ & _ & Hc).
  - vm_compute. discriminate.
  - vm_compute. reflexivity.
  - split; [exact H2 | exact Hc].
Defined.

(** ** The draft branch manager *)


Section DraftFacts.
















End DraftFacts.

Section DraftRun.



End DraftRun.

Section DraftSuccess.




End DraftSuccess.



Example draft_branch_rebases :
  let drafted := Examples.git_world Examples.drafted_repo in
  let result := branch_for_draft Git.host Examples.book_dir (initial drafted) in
  result.1 = Ok tt
  ∧ map argv (calls result.2)
    = [Cmd.list_draft; Cmd.ls_remote_draft; Cmd.checkout_draft; Cmd.rebase_main]
  ∧ Git.head (Git.repository (world result.2)) = "draft"
  ∧ Git.branches (Git.repository (world result.2)) !! "draft" = Some [7; 2; 1]%positive.
Proof. vm_compute. done. Qed.

(** ** The configuration loader *)

Section ConfigFacts.
Context {W : Type} (host : Host W).

Lemma exists_of_lookup (root : node) (p : Path) (n : node) :
  FS.lookup root p = Some n → FS.exists_ root p = true.
Proof. unfold FS.exists_. by intros ->. Qed.

(** The override file is there and parses to [document]. *)
Lemma load_config_document (book_dir : Path) (s : State W) (text : string) (mtime : Z)
    (document : pyval) (items : dict) :
  FS.lookup (filesystem host (world s)) (config_path book_dir)
    = Some (File (Some text) mtime) →
  yaml_safe_load host text = Ok document →
  py_or document (PDict ∅) = PDict items →
  (load_config host book_dir s).1
  = Ok (dict_update DEFAULTS
          (filter (fun kv => dict_contains DEFAULTS kv.1 = true) items)).
Proof.
  intros Hfile Hparse Hor.
  unfold load_config. fold (config_path book_dir).
  unfold path_exists, read_text, read_fs, bind, ret, lift, log_info, log_warning, log_.
  cbn [world]. rewrite (exists_of_lookup _ _ _ Hfile), Hfile, Hparse.
  cbv beta iota delta [ret]. rewrite Hor. reflexivity.
Qed.

(** The override file is absent. *)
Lemma load_config_absent (book_dir : Path) (s : State W) :
  FS.lookup (filesystem host (world s)) (config_path book_dir) = None →
  (load_config host book_dir s).1 = Ok DEFAULTS.
Proof.
  intros Hnone.
  unfold load_config. fold (config_path book_dir).
  unfold path_exists, read_fs, bind, ret, log_info, log_warning, log_, FS.exists_.
  cbn [world]. by rewrite Hnone.
Qed.

End ConfigFacts.

Lemma py_or_dict (overrides : dict) : py_or (PDict overrides) (PDict ∅) = PDict overrides.
Proof.
  unfold py_or, truthy. case_bool_decide as Hdom; [|done].
  apply dom_empty_inv_L in Hdom. by rewrite Hdom.
Qed.

Lemma allow_list_lookup (overrides : dict) (k : pykey) :
  dict_update DEFAULTS (filter (fun kv => dict_contains DEFAULTS kv.1 = true) overrides) !! k
  = if bool_decide (k ∈ dom DEFAULTS)
    then match overrides !! k with Some v => Some v | None => DEFAULTS !! k end
    else None.
Proof.
  unfold dict_update, dict_contains.
  rewrite lookup_union, map_lookup_filter.
  case_bool_decide as Hk.
  - destruct (overrides !! k) as [v|] eqn:Ev; simpl.
    + rewrite option_guard_True by (by rewrite bool_decide_eq_true).
      simpl. by destruct (DEFAULTS !! k).
    + by destruct (DEFAULTS !! k).
  - apply not_elem_of_dom in Hk. rewrite Hk.
    destruct (overrides !! k) as [v|] eqn:Ev; simpl; [|done].
    rewrite option_guard_False; [done|].
    rewrite bool_decide_eq_true. simpl. by rewrite not_elem_of_dom.
Qed.

(** C3. When the override file holds a mapping, whatever its keys, the
    loader returns a configuration with exactly the keys of [DEFAULTS]:
    a key of [DEFAULTS] that the override has takes the value of the
    override, one that it lacks keeps its default, and every other key
    of the override is dropped. *)
Theorem load_config_allow_list {W : Type} (host : Host W) (book_dir : Path) (s : State W)
    (text : string) (mtime : Z) (overrides : dict) :
  FS.lookup (filesystem host (world s))
            (Pth.div (Pth.div book_dir "Global Material") "Config.yml")
    = Some (File (Some text) mtime) →
  yaml_safe_load host text = Ok (PDict overrides) →
  ∃ merged : dict,
    (load_config host book_dir s).1 = Ok merged
    ∧ dom merged = dom DEFAULTS
    ∧ (∀ k, k ∈ dom DEFAULTS →
         merged !! k = match overrides !! k with
                       | Some v => Some v
                       | None => DEFAULTS !! k
                       end)
    ∧ (∀ k, k ∉ dom DEFAULTS → merged !! k = None).
Proof.
  intros Hfile Hparse.
  eexists. split.
  { eapply load_config_document; [exact Hfile | exact Hparse | apply py_or_dict]. }
  split_and!.
  - apply set_eq. intros k. rewrite !elem_of_dom, allow_list_lookup.
    case_bool_decide as Hk.
    + apply elem_of_dom in Hk. destruct (overrides !! k); [|done].
      split; [done | by eexists].
    + apply not_elem_of_dom in Hk. rewrite Hk. done.
  - intros k Hk. rewrite allow_list_lookup. by rewrite bool_decide_true.
  - intros k Hk. rewrite allow_list_lookup. by rewrite bool_decide_false.
Qed.

(** The override file of the example project: model is overridden,
    colour is not a recognised key and is dropped, chapter_count keeps
    its default. *)
Lemma load_config_allow_list_witness :
  ∃ merged : dict,
    (load_config Examples.scripted_host Examples.book_dir
                 (initial (Examples.scripted [] Examples.project))).1 = Ok merged
    ∧ merged !! KStr "model" = Some (PStr "m")
    ∧ merged !! KStr "chapter_count" = Some (PInt 30)
    ∧ merged !! KStr "colour" = None.
Proof.
  destruct (load_config_allow_list Examples.scripted_host Examples.book_dir
              (initial (Examples.scripted [] Examples.project))
              "model: m" 10
              (<[KStr "model" := PStr "m"]> (<[KStr "colour" := PInt 1]> ∅)))
    as (merged & Hrun & _ & Hin & Hout).
  - reflexivity.
  - reflexivity.
  - exists merged. split_and!.
    + exact Hrun.
    + rewrite Hin; [reflexivity|]. apply elem_of_dom. eexists. reflexivity.
    + rewrite Hin; [reflexivity|]. apply elem_of_dom. eexists. reflexivity.
    + apply Hout. apply not_elem_of_dom. reflexivity.
Defined.

(** C10. An override file that exists and parses to an empty document
    ([None], or the empty mapping) raises nothing: the loader returns
    exactly [DEFAULTS], as it does when the file is absent. *)
Theorem load_config_empty_document {W : Type} (host : Host W) (book_dir : Path)
    (s_empty s_absent : State W) (text : string) (mtime : Z) (document : pyval) :
  let config_yml := Pth.div (Pth.div book_dir "Global Material") "Config.yml" in
  FS.lookup (filesystem host (world s_empty)) config_yml = Some (File (Some text) mtime) →
  yaml_safe_load host text = Ok document →
  document = PNone ∨ document = PDict ∅ →
  FS.lookup (filesystem host (world s_absent)) config_yml = None →
  (load_config host book_dir s_empty).1 = Ok DEFAULTS
  ∧ (load_config host book_dir s_absent).1 = Ok DEFAULTS.
Proof.
  intros config_yml Hfile Hparse Hdoc Habsent. split.
  - rewrite (load_config_document host book_dir s_empty text mtime document ∅ Hfile Hparse)
      by (by destruct Hdoc as [-> | ->]).
    reflexivity.
  - by apply load_config_absent.
Qed.

(** A project whose override file is empty, and a project without one. *)
Lemma load_config_empty_document_witness :
  (load_config Examples.scripted_host Examples.book_dir
               (initial (Examples.scripted [] Examples.quiet_project))).1 = Ok DEFAULTS
  ∧ (load_config Examples.scripted_host Examples.book_dir
                 (initial (Examples.scripted [] Examples.bare_project))).1 = Ok DEFAULTS.
Proof.
  apply (load_config_empty_document Examples.scripted_host Examples.book_dir
           (initial (Examples.scripted [] Examples.quiet_project))
           (initial (Examples.scripted [] Examples.bare_project))
           EmptyString 10 PNone).
  - reflexivity.
  - reflexivity.
  - left. reflexivity.
  - reflexivity.
Defined.

(** ** The edit reconciler *)

Lemma strip_prefix_app (base rest : Path) : Pth.strip_prefix base (base ++ rest) = Some rest.
Proof.
  induction base as [|b base IH]; [done|].
  simpl. by rewrite String.eqb_refl.
Qed.

Lemma rglob_under (root : node) (d : Path) (pat : string) (p : Path) :
  p ∈ FS.rglob root d pat → ∃ rel, p = d ++ rel.
Proof.
  unfold FS.rglob. destruct (FS.lookup root d) as [[? ?|m es]|]; try by intros ?%elem_of_nil.
  intros (rel & -> & _)%list_elem_of_fmap. by exists rel.
Qed.

Lemma glob_under (root : node) (d : Path) (pat : string) (p : Path) :
  p ∈ FS.glob root d pat → ∃ name, p = d ++ [name].
Proof.
  unfold FS.glob. destruct (FS.lookup root d) as [[? ?|m es]|]; try by intros ?%elem_of_nil.
  intros (e & -> & _)%list_elem_of_fmap. by exists e.1.
Qed.

Section DetectFacts.
Context {W : Type} (host : Host W).

Lemma detect_step_filter (today_ : date) (modified : list Path) (p : Path) (s : State W) :
  today_ = date_today host (world s) →
  detect_step host today_ modified p s
  = (Ok (modified ++ filter (fun q => edited_today host (world s) q = true) [p]), s).
Proof.
  intros ->. unfold detect_step, edited_today, mtime_of, FS.is_file.
  rewrite filter_cons, filter_nil.
  destruct (bool_decide (".git" ∈ p)); cbn [negb andb].
  { rewrite decide_False by done. by rewrite app_nil_r. }
  unfold path_is_file, stat_mtime, fromtimestamp, read_fs, bind, ret, FS.is_file.
  destruct (FS.lookup (filesystem host (world s)) p) as [[text t|t es]|] eqn:E;
    cbn [negb andb]; try (rewrite decide_False by done; by rewrite app_nil_r).
  rewrite E. cbv beta iota.
  case_bool_decide as Hd.
  - by rewrite decide_True by done.
  - rewrite decide_False by done. by rewrite app_nil_r.
Qed.

Lemma detect_loop_filter (today_ : date) (paths modified : list Path) (s : State W) :
  today_ = date_today host (world s) →
  for_fold paths modified (detect_step host today_) s
  = (Ok (modified ++ filter (fun q => edited_today host (world s) q = true) paths), s).
Proof.
  intros Ht. revert modified.
  induction paths as [|p paths IH]; intros modified.
  - simpl. by rewrite filter_nil, app_nil_r.
  - cbn [for_fold]. unfold bind at 1. rewrite detect_step_filter by done.
    rewrite IH, <- app_assoc. by rewrite <- filter_app.
Qed.

(** Logging the detected files changes the records only. *)
Lemma log_relative_paths (book_dir : Path) (files : list Path) (s : State W) :
  (∀ p, p ∈ files → ∃ rel, p = book_dir ++ rel) →
  ∃ s', for_each files (fun p => rel <- relative_to (W:=W) p book_dir ;;
                                log_info "  %s" [APath rel]) s = (Ok tt, s')
        ∧ world s' = world s ∧ calls s' = calls s.
Proof.
  revert s. induction files as [|p files IH]; intros s Hunder.
  - by exists s.
  - destruct (Hunder p) as [rel ->]; [by left|].
    destruct (IH (logged INFO "  %s" [APath rel] s)) as (s' & Hrun & Hw & Hc).
    { intros q Hq. apply Hunder. by right. }
    exists s'. split; [|done].
    cbn [for_each]. unfold bind at 1. unfold bind at 1.
    unfold relative_to. rewrite strip_prefix_app. cbn [ret].
    exact Hrun.
Qed.

Lemma detect_human_edits_run (book_dir : Path) (s : State W) :
  let edited := filter (fun p => edited_today host (world s) p = true)
                       (FS.rglob (filesystem host (world s)) book_dir "*") in
  ∃ s', detect_human_edits host book_dir s = (Ok edited, s')
        ∧ world s' = world s ∧ calls s' = calls s.
Proof.
  intros edited. unfold detect_human_edits.
  unfold bind at 1. unfold today at 1.
  unfold bind at 1. unfold path_rglob at 1, bind at 1, read_fs at 1, ret at 1.
  unfold bind at 1. rewrite detect_loop_filter by done.
  rewrite app_nil_l. fold edited.
  destruct edited as [|p rest] eqn:Ee.
  - eexists. split; [reflexivity | done].
  - unfold bind at 1. unfold bind at 1. unfold log_info at 1, log_ at 1.
    destruct (log_relative_paths book_dir (p :: rest)
                (logged INFO "Human edits detected today (%d file(s)):"
                        [AInt (Z.of_nat (length (p :: rest)))] s))
      as (s' & Hrun & Hw & Hc).
    { intros q Hq. rewrite <- Ee in Hq. unfold edited in Hq.
      apply list_elem_of_filter in Hq as [_ Hq]. by eapply rglob_under. }
    unfold logged in Hrun. rewrite Hrun.
    eexists. split; [reflexivity | done].
Qed.

End DetectFacts.

Section ReconcileFacts.
Context {W : Type} (host : Host W).

Lemma commit_human_edits_unfold (book_dir : Path) (files : list Path) (s : State W) :
  commit_human_edits host book_dir files s =
    let s1 := after_run host Cmd.add_all book_dir s in
    let s2 := after_run host Cmd.commit_edits book_dir s1 in
    let s3 := after_run host Cmd.push_main book_dir s2 in
    if exited_nonzero (reply_of host Cmd.add_all book_dir s)
    then (Raise (RuntimeError (command_failed
            (returncode (reply_of host Cmd.add_all book_dir s)) Cmd.add_all)), s1)
    else if exited_nonzero (reply_of host Cmd.commit_edits book_dir s1)
    then (Raise (RuntimeError (command_failed
            (returncode (reply_of host Cmd.commit_edits book_dir s1)) Cmd.commit_edits)), s2)
    else if exited_nonzero (reply_of host Cmd.push_main book_dir s2)
    then (Raise (RuntimeError (command_failed
            (returncode (reply_of host Cmd.push_main book_dir s2)) Cmd.push_main)), s3)
    else (Ok tt, logged INFO "Human edits committed and pushed to main." [] s3).
Proof.
  unfold commit_human_edits. cbv zeta.
  rewrite bind_run_checked. destruct (exited_nonzero _); [reflexivity|].
  rewrite bind_run_checked. destruct (exited_nonzero _); [reflexivity|].
  rewrite bind_run_checked. destruct (exited_nonzero _); reflexivity.
Qed.

Lemma reconcile_unfold (book_dir : Path) (s : State W) :
  ∃ s', world s' = world s ∧ calls s' = calls s
        ∧ reconcile_human_edits host book_dir s =
            match filter (fun p => edited_today host (world s) p = true)
                         (FS.rglob (filesystem host (world s)) book_dir "*") with
            | [] => (Ok tt, s')
            | p :: rest => commit_human_edits host book_dir (p :: rest) s'
            end.
Proof.
  destruct (detect_human_edits_run host book_dir s) as (s' & Hrun & Hw & Hc).
  exists s'. split_and!; [done..|].
  unfold reconcile_human_edits, bind. rewrite Hrun.
  by destruct (filter _ _).
Qed.

End ReconcileFacts.

(** ** The edit reconciler on a working copy *)

Section WorktreeFacts.

Lemma reply_of_worktree (cmd : list string) (dir : Path) (s : State Worktree.world) :
  reply_of Worktree.host cmd dir s = (Worktree.exec cmd (Worktree.working (world s))).1.
Proof.
  unfold reply_of. simpl. unfold Worktree.run.
  by destruct (Worktree.exec cmd (Worktree.working (world s))).
Qed.

Lemma working_after_run (cmd : list string) (dir : Path) (s : State Worktree.world) :
  Worktree.working (world (after_run Worktree.host cmd dir s))
  = (Worktree.exec cmd (Worktree.working (world s))).2.
Proof.
  unfold after_run. simpl. unfold Worktree.run.
  by destruct (Worktree.exec cmd (Worktree.working (world s))).
Qed.

Lemma exec_add_all (c : Worktree.copy) :
  Git.failing (Worktree.repository c) Cmd.add_all = false →
  Worktree.exec Cmd.add_all c = Worktree.add_all c.
Proof. intros Hf. unfold Worktree.exec. by rewrite Hf. Qed.

Lemma exec_commit_edits (c : Worktree.copy) :
  Git.failing (Worktree.repository c) Cmd.commit_edits = false →
  Worktree.exec Cmd.commit_edits c = Worktree.commit "chore: human updates" c.
Proof. intros Hf. unfold Worktree.exec. by rewrite Hf. Qed.

Lemma exec_push_main (c : Worktree.copy) :
  Git.failing (Worktree.repository c) Cmd.push_main = false →
  Worktree.exec Cmd.push_main c
  = ((Git.push "main" (Worktree.repository c)).1,
     Worktree.mk_copy (Git.push "main" (Worktree.repository c)).2
       (Worktree.changed c) (Worktree.staged c) (Worktree.recorded c)).
Proof.
  intros Hf. unfold Worktree.exec. rewrite Hf.
  change (Worktree.perform Cmd.push_main c)
    with (let '(reply, r) := Git.push "main" (Worktree.repository c) in
          (reply, Worktree.mk_copy r (Worktree.changed c) (Worktree.staged c)
                    (Worktree.recorded c))).
  by destruct (Git.push "main" (Worktree.repository c)).
Qed.

Lemma below_max (x : positive) (l : list positive) :
  x ∈ l → (x <= foldr Pos.max 1%positive l)%positive.
Proof.
  induction l as [|y l IH]; [by intros ?%elem_of_nil|].
  intros [->|Hx]%elem_of_cons; cbn [foldr]; [lia|].
  specialize (IH Hx). lia.
Qed.

(** The identifier of a new commit is borne by no commit of a branch. *)
Lemma fresh_not_on_branch (c : Worktree.copy) (b : string) (h : list Git.commit) :
  Git.branches (Worktree.repository c) !! b = Some h → Worktree.fresh c ∉ h.
Proof.
  intros Hb Hin.
  assert (Worktree.fresh c ∈ Worktree.known c) as Hknown.
  { unfold Worktree.known. apply elem_of_app. left.
    apply list_elem_of_join. exists h. split; [done|].
    apply list_elem_of_fmap. exists (b, h). split; [done|].
    by apply elem_of_map_to_list. }
  apply below_max in Hknown. unfold Worktree.fresh in Hknown. lia.
Qed.

End WorktreeFacts.

(** C6. On a working copy, step 3 of [main] with one or more detected
    files, each of them a change of the copy, and no command failing:
    the three commands are issued and exit zero, the step returns and
    logs that the edits were committed and pushed to main, and exactly
    one commit is made, which records every change and so every
    detected file.  But the commit is put on the branch that is
    checked out, which is [main] only until [branch_for_draft] has run:
    when it is [main] the push brings the commit to the main line of
    [origin]; when it is any other branch (the draft branch, from the
    second session on) the main line, here and at [origin], stays as it
    was and does not hold the commit. *)
Theorem edits_go_to_the_branch_checked_out (w : Worktree.world) (book_dir : Path)
    (main_line : list Git.commit) :
  let c := Worktree.working w in
  let r := Worktree.repository c in
  let edited := filter (fun p => edited_today Worktree.host w p = true)
                       (FS.rglob (Worktree.root w) book_dir "*") in
  let result := reconcile_human_edits Worktree.host book_dir (initial w) in
  let c' := Worktree.working (world result.2) in
  let r' := Worktree.repository c' in
  edited ≠ [] →
  (∀ p, p ∈ edited → p ∈ Worktree.changed c) →
  Git.branches r !! "main" = Some main_line →
  Git.remote_branches r !! "main" = Some main_line →
  Git.tags r !! "main" = None →
  (∀ cmd, Git.failing r cmd = false) →
  result.1 = Ok tt
  ∧ map argv (calls result.2) = [Cmd.add_all; Cmd.commit_edits; Cmd.push_main]
  ∧ last (records result.2)
    = Some (mk_record INFO "Human edits committed and pushed to main." [])
  ∧ ∃ (id : Git.commit) (files : list Path),
      Git.branches r' !! Git.head r
      = Some (id :: default [] (Git.branches r !! Git.head r))
      ∧ Worktree.recorded c' !! id = Some files
      ∧ (∀ p, p ∈ Worktree.changed c → p ∈ files)
      ∧ (∀ p, p ∈ edited → p ∈ files)
      ∧ (id ∉ main_line)
      ∧ (Git.head r = "main" →
         Git.remote_branches r' !! "main" = Some (id :: main_line))
      ∧ (Git.head r ≠ "main" →
         Git.branches r' !! "main" = Some main_line
         ∧ Git.remote_branches r' !! "main" = Some main_line).
Proof.
  intros c r edited result c' r' Hsome Hchanged Hmain Hremote Htag Hfail.
  destruct (reconcile_unfold Worktree.host book_dir (initial w)) as (s0 & Hw & Hc & Hrun).
  cbn [world initial] in Hw, Hrun.
  change (filesystem Worktree.host w) with (Worktree.root w) in Hrun.
  fold edited in Hrun. clearbody edited.
  assert (Worktree.changed c ≠ []) as Hdirty.
  { destruct edited as [|p rest]; [done|]. intros Hnil.
    specialize (Hchanged p ltac:(by left)). rewrite Hnil in Hchanged.
    by apply elem_of_nil in Hchanged. }
  set (id := Worktree.fresh (Worktree.add_all c).2).
  set (history := default [] (Git.branches r !! Git.head r)).
  set (r2 := Git.set_branch r (Git.head r) (id :: history)).
  set (c2 := Worktree.mk_copy r2
               (filter (fun p => p ∉ Worktree.changed c) (Worktree.changed c)) []
               (<[id := Worktree.changed c]> (Worktree.recorded c))).
  assert (Worktree.exec Cmd.add_all c = (Git.ok "", (Worktree.add_all c).2)) as Hadd.
  { by rewrite exec_add_all by apply Hfail. }
  assert (Worktree.exec Cmd.commit_edits (Worktree.add_all c).2
          = (Git.ok ("[" +:+ Git.head r +:+ "] chore: human updates"), c2)) as Hcommit.
  { rewrite exec_commit_edits by apply Hfail.
    unfold Worktree.commit. cbn [Worktree.add_all snd Worktree.staged Worktree.repository
      Worktree.changed Worktree.recorded].
    fold c r. by destruct (Worktree.changed c). }
  assert (id ∉ main_line) as Hfresh.
  { apply (fresh_not_on_branch _ "main"). exact Hmain. }
  assert (∃ pushed, Git.push "main" r2 = (Git.ok "", Git.set_remote_branch r2 "main" pushed)
           ∧ Git.branches r2 !! "main" = Some pushed) as (pushed & Hpush & Hpushed).
  { unfold Git.push. cbn [r2 Git.set_branch Git.tags Git.branches Git.remote_branches].
    fold r. rewrite Htag, Hremote.
    destruct (decide (Git.head r = "main")) as [Hhead|Hhead].
    - rewrite Hhead, lookup_insert_eq.
      unfold history. rewrite Hhead, Hmain. cbn [default].
      unfold Git.fast_forward. rewrite bool_decide_true by (by apply suffix_cons_r).
      by eexists.
    - rewrite lookup_insert_ne, Hmain by done.
      unfold Git.fast_forward. rewrite bool_decide_true by done.
      by eexists. }
  assert (Worktree.exec Cmd.push_main c2
          = (Git.ok "", Worktree.mk_copy (Git.set_remote_branch r2 "main" pushed)
                          (Worktree.changed c2) (Worktree.staged c2) (Worktree.recorded c2)))
    as Hpushing.
  { rewrite exec_push_main by apply Hfail.
    change (Worktree.repository c2) with r2. by rewrite Hpush. }
  assert (result = (Ok tt,
            logged INFO "Human edits committed and pushed to main." []
              (after_run Worktree.host Cmd.push_main book_dir
                 (after_run Worktree.host Cmd.commit_edits book_dir
                    (after_run Worktree.host Cmd.add_all book_dir s0))))
          ∧ c' = Worktree.mk_copy (Git.set_remote_branch r2 "main" pushed)
                   (Worktree.changed c2) (Worktree.staged c2) (Worktree.recorded c2))
    as [Hresult Hcopy].
  { assert (result = (Ok tt,
            logged INFO "Human edits committed and pushed to main." []
              (after_run Worktree.host Cmd.push_main book_dir
                 (after_run Worktree.host Cmd.commit_edits book_dir
                    (after_run Worktree.host Cmd.add_all book_dir s0))))) as Hresult.
    { unfold result. rewrite Hrun.
      destruct edited as [|p rest]; [done|].
      rewrite commit_human_edits_unfold. cbv zeta.
      rewrite !reply_of_worktree, !working_after_run, Hw.
      fold c. rewrite Hadd. cbn [fst snd]. rewrite Hcommit. cbn [fst snd].
      rewrite Hpushing. reflexivity. }
    split; [exact Hresult|].
    unfold c'. rewrite Hresult. cbn [snd]. rewrite world_logged.
    rewrite !working_after_run, Hw. fold c.
    rewrite Hadd. cbn [snd]. rewrite Hcommit. cbn [snd]. by rewrite Hpushing. }
  split_and!.
  - by rewrite Hresult.
  - rewrite Hresult. cbn [snd]. rewrite calls_logged, !calls_after_run, Hc. reflexivity.
  - rewrite Hresult. apply last_records_logged.
  - exists id, (Worktree.changed c). unfold r'. rewrite Hcopy.
    cbn [Worktree.repository Worktree.recorded c2 Git.set_remote_branch Git.branches
         Git.remote_branches r2 Git.set_branch].
    fold r. split_and!.
    + by rewrite lookup_insert_eq.
    + by rewrite lookup_insert_eq.
    + done.
    + exact Hchanged.
    + exact Hfresh.
    + intros Hhead. rewrite lookup_insert_eq. f_equal.
      cbn [r2 Git.set_branch Git.branches] in Hpushed. fold r in Hpushed.
      rewrite Hhead, lookup_insert_eq in Hpushed. injection Hpushed as <-.
      unfold history. by rewrite Hhead, Hmain.
    + intros Hhead. cbn [r2 Git.set_branch Git.branches] in Hpushed. fold r in Hpushed.
      rewrite lookup_insert_ne in Hpushed by done.
      rewrite lookup_insert_ne by done. rewrite lookup_insert_eq.
      split; [exact Hmain | congruence].
Qed.

(** The first session leaves the draft branch checked out. *)
Example first_session_checks_out_draft :
  Worktree.repository
    (Worktree.working
       (world (branch_for_draft Worktree.host Examples.book_dir
                 (initial (Examples.working_copy Examples.cloned_repo))).2))
  = Examples.after_first_session.
Proof. vm_compute. reflexivity. Qed.

(** The second session of a project: the edit of the day is committed
    on the draft branch, and the main line stays at its two commits,
    here and at [origin]. *)
Lemma edits_go_to_the_branch_checked_out_witness :
  let result := reconcile_human_edits Worktree.host Examples.book_dir
                  (initial (Examples.working_copy Examples.after_first_session)) in
  let r' := Worktree.repository (Worktree.working (world result.2)) in
  result.1 = Ok tt
  ∧ Git.branches r' !! "main" = Some [2; 1]%positive
  ∧ Git.remote_branches r' !! "main" = Some [2; 1]%positive
  ∧ ∃ id, Git.branches r' !! "draft" = Some (id :: [2; 1]%positive)
          ∧ id ∉ [2; 1]%positive.
Proof.
  intros result r'.
  destruct (edits_go_to_the_branch_checked_out
              (Examples.working_copy Examples.after_first_session)
              Examples.book_dir [2; 1]%positive)
    as (Hok & _ & _ & id & files & Hbranch & _ & _ & _ & Hfresh & _ & Hmain).
  - vm_compute. discriminate.
  - intros p Hp.
    assert (filter (fun p => edited_today Worktree.host
                               (Examples.working_copy Examples.after_first_session) p = true)
              (FS.rglob (Worktree.root (Examples.working_copy Examples.after_first_session))
                 Examples.book_dir "*")
            = [Examples.book_dir ++ ["Global Material"; "notes.txt"]]) as Hedited
      by (vm_compute; reflexivity).
    rewrite Hedited in Hp. exact Hp.
  - reflexivity.
  - reflexivity.
  - reflexivity.
  - reflexivity.
  - destruct Hmain as [Hlocal Hremote]; [discriminate|].
    split; [exact Hok|]. split; [exact Hlocal|]. split; [exact Hremote|].
    exists id. split; [exact Hbranch | exact Hfresh].
Defined.

(** ** The payload builder *)

(** *** Order of paths *)

Lemma ascii_compare_refl (a : ascii) : Ascii.compare a a = Eq.
Proof. unfold Ascii.compare. apply N.compare_refl. Qed.

Lemma ascii_compare_trans (a b d : ascii) (c : comparison) :
  Ascii.compare a b = c → Ascii.compare b d = c → Ascii.compare a d = c.
Proof.
  unfold Ascii.compare. destruct c; intros H1 H2.
  - apply N.compare_eq_iff in H1, H2. apply N.compare_eq_iff. congruence.
  - rewrite N.compare_lt_iff in *. by etrans.
  - rewrite N.compare_gt_iff in *. by etrans.
Qed.

Lemma str_compare_eq (x y : string) : String.compare x y = Eq ↔ x = y.
Proof.
  split; [apply String.compare_eq_iff|].
  intros ->. induction y as [|a y IH]; [done|].
  simpl. by rewrite ascii_compare_refl.
Qed.

Lemma str_compare_trans (x y z : string) (c : comparison) :
  String.compare x y = c → String.compare y z = c → String.compare x z = c.
Proof.
  revert y z. induction x as [|a x IH]; intros [|b y] [|d z]; simpl; try congruence.
  destruct (Ascii.compare a b) eqn:Eab; destruct (Ascii.compare b d) eqn:Ebd;
    try (apply Ascii.compare_eq_iff in Eab; subst b);
    try (apply Ascii.compare_eq_iff in Ebd; subst d);
    rewrite ?ascii_compare_refl, ?Eab, ?Ebd; try congruence; try apply IH.
  - rewrite (ascii_compare_trans a b d Lt) by done. done.
  - rewrite (ascii_compare_trans a b d Gt) by done. done.
Qed.

Lemma path_compare_antisym (p q : Path) : Pth.compare q p = CompOpp (Pth.compare p q).
Proof.
  apply list_compare_antisym; [apply str_compare_eq|].
  intros x y. apply String.compare_antisym.
Qed.

Lemma path_compare_trans (p q r : Path) (c : comparison) :
  Pth.compare p q = c → Pth.compare q r = c → Pth.compare p r = c.
Proof.
  apply list_compare_trans; [apply str_compare_eq | apply str_compare_trans |].
  intros x y. apply String.compare_antisym.
Qed.

Lemma path_compare_eq (p q : Path) : Pth.compare p q = Eq ↔ p = q.
Proof. apply list_compare_refl, str_compare_eq. Qed.

#[global] Instance path_le_total : Total Pth.le.
Proof.
  intros p q. unfold Pth.le, Pth.leb.
  rewrite (path_compare_antisym p q).
  destruct (Pth.compare p q); simpl; auto.
Qed.

#[global] Instance path_le_trans : Transitive Pth.le.
Proof.
  intros p q r. unfold Pth.le, Pth.leb.
  destruct (Pth.compare p q) eqn:Epq; [| |done].
  - apply path_compare_eq in Epq. by subst q.
  - destruct (Pth.compare q r) eqn:Eqr; [| |done].
    + apply path_compare_eq in Eqr. subst r. by rewrite Epq.
    + by rewrite (path_compare_trans p q r Lt).
Qed.

#[global] Instance path_le_antisym : AntiSymm (=) Pth.le.
Proof.
  intros p q. unfold Pth.le, Pth.leb.
  rewrite (path_compare_antisym p q).
  destruct (Pth.compare p q) eqn:E; simpl; try done.
  intros _ _. by apply path_compare_eq.
Qed.

Lemma sorted_sorted (paths : list Path) : StronglySorted Pth.le (sorted paths).
Proof. apply StronglySorted_merge_sort; apply _. Qed.

Lemma sorted_perm (paths : list Path) : sorted paths ≡ₚ paths.
Proof. apply merge_sort_Permutation. Qed.

(** In a directory the order of paths is the order of the names. *)
Lemma path_le_sibling (d : Path) (a b : string) :
  Pth.le (d ++ [a]) (d ++ [b]) ↔ String.leb a b = true.
Proof.
  unfold Pth.le, Pth.leb, Pth.compare, String.leb.
  rewrite list_compare_app by apply str_compare_eq.
  simpl. by destruct (String.compare a b).
Qed.

(** The last element of a sorted list is the greatest. *)
Lemma last_sorted_greatest (l : list Path) (latest : Path) :
  StronglySorted Pth.le l → last l = Some latest →
  latest ∈ l ∧ ∀ p, p ∈ l → Pth.le p latest.
Proof.
  intros Hs Hlast.
  apply last_Some in Hlast as [l' ->].
  split; [set_solver|].
  intros p Hp. apply elem_of_app in Hp as [Hp|Hp].
  - induction l' as [|x l' IH]; [by apply elem_of_nil in Hp|].
    simpl in Hs. apply StronglySorted_inv in Hs as [Hs Hall].
    apply elem_of_cons in Hp as [->|Hp]; [|by apply IH].
    rewrite Forall_forall in Hall. apply Hall. set_solver.
  - apply list_elem_of_singleton in Hp as ->.
    destruct (total Pth.le latest latest); done.
Qed.

Section PayloadFacts.
Context {W : Type} (host : Host W).

Lemma bind_ok {A B : Type} (m : M W A) (k : A → M W B) (s s2 : State W) (b : B) :
  bind m k s = (Ok b, s2) → ∃ a s1, m s = (Ok a, s1) ∧ k a s1 = (Ok b, s2).
Proof.
  unfold bind. destruct (m s) as [[a|e] s1]; [|done].
  intros H. by exists a, s1.
Qed.

Lemma read_text_ok (p : Path) (s s1 : State W) (text : string) :
  read_text host p s = (Ok text, s1) →
  text_at (filesystem host (world s)) p = Some text ∧ s1 = s.
Proof.
  unfold read_text, read_fs, bind, ret, raise, text_at.
  destruct (FS.lookup (filesystem host (world s)) p) as [[[t|] ?|? ?]|]; try done.
  by intros [= -> ->].
Qed.

Lemma relative_to_ok (p base rel : Path) (s s1 : State W) :
  relative_to p base s = (Ok rel, s1) → section_path base p = Pth.to_string rel ∧ s1 = s.
Proof.
  unfold relative_to, section_path, ret, raise.
  destruct (Pth.strip_prefix base p); [|done]. by intros [= -> ->].
Qed.

Lemma log_ok (lv : levelname) (fmt : string) (a : list logarg) (s s1 : State W) (u : unit) :
  log_ lv fmt a s = (Ok u, s1) → world s1 = world s.
Proof. unfold log_. by intros [= _ <-]. Qed.

Lemma load_global_file_one (book_dir : Path) :
  loads_one book_dir (load_global_file host book_dir).
Proof.
  intros acc p s acc' s' H. unfold load_global_file in H.
  apply bind_ok in H as (text & s1 & [_ ->]%read_text_ok & H).
  apply bind_ok in H as (rel & s2 & [Hrel ->]%relative_to_ok & H).
  apply bind_ok in H as (u & s3 & Hw%log_ok & H).
  injection H as <- <-. by rewrite map_app, Hrel.
Qed.

Lemma load_chapter_file_one (book_dir : Path) :
  loads_one book_dir (load_chapter_file host book_dir).
Proof.
  intros acc p s acc' s' H. unfold load_chapter_file in H.
  apply bind_ok in H as (text & s1 & [_ ->]%read_text_ok & H).
  apply bind_ok in H as (rel & s2 & [Hrel ->]%relative_to_ok & H).
  apply bind_ok in H as (rel' & s3 & [_ ->]%relative_to_ok & H).
  apply bind_ok in H as (u & s4 & Hw%log_ok & H).
  injection H as <- <-. by rewrite map_app, Hrel.
Qed.

Lemma loading_loop (book_dir : Path)
    (body : list ContextSection → Path → M W (list ContextSection))
    (files : list Path) (acc acc' : list ContextSection) (s s' : State W) :
  loads_one book_dir body →
  for_fold files acc body s = (Ok acc', s') →
  map path acc' = map path acc ++ map (section_path book_dir) files
  ∧ world s' = world s.
Proof.
  intros Hbody. revert acc s.
  induction files as [|p files IH]; intros acc s H.
  - injection H as <- <-. by rewrite app_nil_r.
  - cbn [for_fold] in H.
    apply bind_ok in H as (acc1 & s1 & [Hacc Hw]%Hbody & H).
    apply IH in H as [-> ->].
    by rewrite Hacc, Hw, <- app_assoc.
Qed.

Lemma path_exists_ok (p : Path) (s s1 : State W) (b : bool) :
  path_exists host p s = (Ok b, s1) → b = FS.exists_ (filesystem host (world s)) p ∧ s1 = s.
Proof. unfold path_exists, read_fs, bind, ret. by intros [= <- <-]. Qed.

Lemma glob_absent (root : node) (d : Path) (pat : string) :
  FS.exists_ root d = false → FS.glob root d pat = [].
Proof. unfold FS.exists_, FS.glob. by destruct (FS.lookup root d). Qed.

Lemma rglob_absent (root : node) (d : Path) (pat : string) :
  FS.exists_ root d = false → FS.rglob root d pat = [].
Proof. unfold FS.exists_, FS.rglob. by destruct (FS.lookup root d). Qed.

(** A block of [build_payload] that loads the sorted files of a
    directory when the directory exists. *)
Lemma loading_block (book_dir : Path)
    (body : list ContextSection → Path → M W (list ContextSection))
    (getter : M W (list Path)) (found : list Path) (there : bool)
    (acc acc' : list ContextSection) (s s' : State W) :
  loads_one book_dir body →
  getter s = (Ok found, s) →
  (there = false → found = []) →
  (if there then (l <- getter ;; for_fold (sorted l) acc body) else ret acc) s
    = (Ok acc', s') →
  map path acc' = map path acc ++ map (section_path book_dir) (sorted found)
  ∧ world s' = world s.
Proof.
  intros Hbody Hget Hnone H. destruct there.
  - apply bind_ok in H as (l & s1 & Hl & H).
    rewrite Hget in Hl. injection Hl as <- <-.
    by eapply loading_loop.
  - rewrite (Hnone eq_refl). injection H as <- <-.
    by rewrite app_nil_r.
Qed.

Lemma build_payload_ok (book_dir : Path) (config_ : dict) (s s' : State W)
    (payload : Payload) :
  build_payload host book_dir config_ s = (Ok payload, s') →
  let root := filesystem host (world s) in
  let review := Pth.div (Pth.div book_dir "Review") "current.md" in
  map path (context_sections payload)
  = map (section_path book_dir)
        (sorted (FS.glob root (Pth.div book_dir "Global Material") "*.md"))
    ++ map (section_path book_dir)
           (sorted (FS.rglob root (Pth.div book_dir "Chapters material") "*.md"))
    ++ (if FS.exists_ root review then [section_path book_dir review] else [])
  ∧ match last (sorted (FS.glob root (Pth.div book_dir "Current version")
                                "Full_Book_*.md")) with
    | Some latest =>
        ∃ text, text_at root latest = Some text
                ∧ word_count payload = _count_words text
    | None => word_count payload = 0
    end
  ∧ config payload = config_.
Proof.
  intros H root review. unfold build_payload in H.
  (* Global Material *)
  apply bind_ok in H as (there1 & s1 & [-> ->]%path_exists_ok & H).
  apply bind_ok in H as (secs1 & s2 & Hblock1 & H).
  eapply (loading_block book_dir) in Hblock1 as [Hsecs1 Hw2];
    [ | apply load_global_file_one | reflexivity | apply glob_absent ].
  (* Chapters material *)
  apply bind_ok in H as (there2 & s3 & [-> ->]%path_exists_ok & H).
  apply bind_ok in H as (secs2 & s4 & Hblock2 & H).
  eapply (loading_block book_dir) in Hblock2 as [Hsecs2 Hw4];
    [ | apply load_chapter_file_one | reflexivity | apply rglob_absent ].
  (* Review/current.md *)
  apply bind_ok in H as (there3 & s5 & [-> ->]%path_exists_ok & H).
  apply bind_ok in H as (secs3 & s6 & Hreview & H).
  assert (Hsecs3 : map path secs3 = map path secs2
            ++ (if FS.exists_ root review then [section_path book_dir review] else [])
          ∧ world s6 = world s4).
  { fold review in Hreview. rewrite Hw4, Hw2 in Hreview. fold root in Hreview.
    destruct (FS.exists_ root review).
    - apply bind_ok in Hreview as (text & s7 & [_ ->]%read_text_ok & Hreview).
      apply bind_ok in Hreview as (rel & s8 & [Hrel ->]%relative_to_ok & Hreview).
      apply bind_ok in Hreview as (u & s9 & Hw%log_ok & Hreview).
      injection Hreview as <- <-. by rewrite map_app, Hrel.
    - apply bind_ok in Hreview as (u & s9 & Hw%log_ok & Hreview).
      injection Hreview as <- <-. by rewrite app_nil_r. }
  destruct Hsecs3 as [Hsecs3 Hw6].
  (* Word count *)
  apply bind_ok in H as (there4 & s7 & [-> ->]%path_exists_ok & H).
  apply bind_ok in H as (count & s8 & Hcount & H).
  assert (Hwords :
    match last (sorted (FS.glob root (Pth.div book_dir "Current version")
                                "Full_Book_*.md")) with
    | Some latest => ∃ text, text_at root latest = Some text ∧ count = _count_words text
    | None => count = 0
    end).
  { rewrite Hw6, Hw4, Hw2 in Hcount. fold root in Hcount.
    destruct (FS.exists_ root (Pth.div book_dir "Current version")) eqn:Ecv.
    - apply bind_ok in Hcount as (found & s9 & Hfound & Hcount).
      unfold path_glob, read_fs, bind, ret in Hfound.
      injection Hfound as <- <-. rewrite Hw6, Hw4, Hw2 in Hcount. fold root in Hcount.
      destruct (last _) as [latest|]; [|by injection Hcount as <- _].
      apply bind_ok in Hcount as (text & s10 & [Htext ->]%read_text_ok & Hcount).
      rewrite Hw6, Hw4, Hw2 in Htext. fold root in Htext.
      exists text. split; [done|].
      apply bind_ok in Hcount as (u & s11 & _ & Hcount).
      by injection Hcount as <- _.
    - rewrite glob_absent by done. by injection Hcount as <- _. }
  apply bind_ok in H as (u & s9 & _ & H).
  injection H as <- _. cbn [context_sections word_count config].
  rewrite Hsecs3, Hsecs2, Hsecs1, Hw2. fold root.
  by rewrite <- !app_assoc.
Qed.

End PayloadFacts.

(** *** Patterns *)

Lemma fnmatch_literal (pat name : string) :
  Str.mem "*" pat = false → Str.mem "?" pat = false →
  Str.fnmatch pat name = String.eqb pat name.
Proof.
  revert name. induction pat as [|p pat IH]; intros name Hstar Hany.
  - by destruct name.
  - cbn [Str.mem] in Hstar, Hany.
    apply orb_false_elim in Hstar as [Hp1 Hstar].
    apply orb_false_elim in Hany as [Hp2 Hany].
    rewrite Ascii.eqb_sym in Hp1. rewrite Ascii.eqb_sym in Hp2.
    cbn -[Ascii.eqb]. rewrite Hp1. destruct name as [|c name]; [done|].
    rewrite Hp2, IH by done. cbn -[Ascii.eqb]. by destruct (Ascii.eqb p c).
Qed.

Lemma fnmatch_star_unfold (pat name : string) :
  Str.fnmatch (String "*" pat) name
  = Str.fnmatch pat name
    || match name with
       | EmptyString => false
       | String _ name' => Str.fnmatch (String "*" pat) name'
       end.
Proof. by destruct name. Qed.

Lemma fnmatch_star_suffix (suffix name : string) :
  Str.mem "*" suffix = false → Str.mem "?" suffix = false →
  Str.fnmatch (String "*" suffix) name = Str.endswith suffix name.
Proof.
  intros Hstar Hany. induction name as [|c name IH];
    rewrite fnmatch_star_unfold, fnmatch_literal by done; cbn [Str.endswith]; [done|].
  by rewrite IH.
Qed.

Lemma fnmatch_md (name : string) : Str.fnmatch "*.md" name = Str.endswith ".md" name.
Proof. by apply fnmatch_star_suffix. Qed.

(** *** Listings *)

Lemma glob_md_listdir (root : node) (d : Path) :
  FS.glob root d "*.md"
  = map (fun name => d ++ [name])
        (filter (fun n => Str.endswith ".md" n = true) (listdir root d)).
Proof.
  unfold FS.glob, listdir.
  destruct (FS.lookup root d) as [[? ?|m es]|]; try done.
  induction es as [|e es IH]; [done|].
  cbn [map]. rewrite !filter_cons, fnmatch_md.
  destruct (decide (Str.endswith ".md" e.1 = true)); cbn [map]; by rewrite IH.
Qed.

Lemma rglob_md_tree (root : node) (d : Path) :
  FS.rglob root d "*.md"
  = map (fun rel => d ++ rel)
        (filter (fun rel => Str.endswith ".md" (List.last rel "") = true) (tree root d)).
Proof.
  unfold FS.rglob, tree.
  destruct (FS.lookup root d) as [[? ?|m es]|]; try done.
  f_equal. generalize (FS.walk (Dir m es)). intros l.
  induction l as [|rel l IH]; [done|].
  rewrite !filter_cons. rewrite fnmatch_md.
  destruct (decide (Str.endswith ".md" (List.last rel "") = true)); by rewrite IH.
Qed.

(** *** Sorting relative to a directory *)

Lemma path_le_under (d p q : Path) : Pth.le (d ++ p) (d ++ q) ↔ Pth.le p q.
Proof.
  unfold Pth.le, Pth.leb, Pth.compare.
  by rewrite list_compare_app by apply str_compare_eq.
Qed.

Lemma sorted_siblings (d : Path) (names : list string) :
  StronglySorted Pth.le (map (fun name => d ++ [name]) names) →
  StronglySorted str_le names.
Proof.
  induction names as [|n names IH]; intros Hs; [constructor|].
  simpl in Hs. apply StronglySorted_inv in Hs as [Hs Hall].
  constructor; [by apply IH|].
  apply Forall_forall. intros m Hm. rewrite Forall_forall in Hall.
  apply path_le_sibling with (d := d). apply Hall.
  apply list_elem_of_fmap. by exists m.
Qed.

Lemma sorted_under (d : Path) (rels : list Path) :
  StronglySorted Pth.le (map (fun rel => d ++ rel) rels) →
  StronglySorted Pth.le rels.
Proof.
  induction rels as [|r rels IH]; intros Hs; [constructor|].
  simpl in Hs. apply StronglySorted_inv in Hs as [Hs Hall].
  constructor; [by apply IH|].
  apply Forall_forall. intros m Hm. rewrite Forall_forall in Hall.
  apply path_le_under with (d := d). apply Hall.
  apply list_elem_of_fmap. by exists m.
Qed.

(** The sorted paths of a listing are the listing's directory applied
    to a sorted rearrangement of its relative parts. *)
Lemma sorted_names (d : Path) (l : list string) :
  ∃ names, sorted (map (fun name => d ++ [name]) l) = map (fun name => d ++ [name]) names
           ∧ names ≡ₚ l ∧ StronglySorted str_le names.
Proof.
  destruct (Permutation_map_inv (fun name => d ++ [name]) l
              (sorted_perm (map (fun name => d ++ [name]) l))) as (names & Heq & Hperm).
  exists names. split_and!; [done | by symmetry |].
  apply (sorted_siblings d). rewrite <- Heq. apply sorted_sorted.
Qed.

Lemma sorted_rels (d : Path) (l : list Path) :
  ∃ rels, sorted (map (fun rel => d ++ rel) l) = map (fun rel => d ++ rel) rels
          ∧ rels ≡ₚ l ∧ StronglySorted Pth.le rels.
Proof.
  destruct (Permutation_map_inv (fun rel => d ++ rel) l
              (sorted_perm (map (fun rel => d ++ rel) l))) as (rels & Heq & Hperm).
  exists rels. split_and!; [done | by symmetry |].
  apply (sorted_under d). rewrite <- Heq. apply sorted_sorted.
Qed.

Lemma str_le_before (names : list string) (a b : string) :
  StronglySorted str_le names → a ∈ names → b ∈ names → ¬ str_le b a →
  ∃ l1 l2 l3, names = l1 ++ a :: l2 ++ b :: l3.
Proof.
  intros Hs Ha Hb Hnot.
  apply list_elem_of_split in Ha as (l1 & l' & ->).
  apply elem_of_app in Hb as [Hb|Hb].
  - exfalso. apply Hnot. clear Hnot.
    induction l1 as [|z l1 IH]; [by apply elem_of_nil in Hb|].
    simpl in Hs. apply StronglySorted_inv in Hs as [Hs Hall].
    apply elem_of_cons in Hb as [->|Hb]; [|by apply IH].
    rewrite Forall_forall in Hall. apply Hall. set_solver.
  - apply elem_of_cons in Hb as [->|Hb].
    + exfalso. apply Hnot. unfold str_le. by destruct (String.leb_total a a).
    + apply list_elem_of_split in Hb as (l2 & l3 & ->). by exists l1, l2, l3.
Qed.

Lemma section_path_under (book_dir rel : Path) :
  section_path book_dir (book_dir ++ rel) = Pth.to_string rel.
Proof. unfold section_path. by rewrite strip_prefix_app. Qed.

(** C4 (amended). The paths of the context list of a payload are, in
    this order: the markdown files directly in Global Material, sorted
    by file name; the markdown files at any depth below Chapters
    material, sorted by their relative path compared part by part,
    each part by code point (the order of [pathlib] paths: by the whole
    path and not by the file name, but not the order of the paths
    written as strings); and Review/current.md when it exists.  In
    particular a.md comes before b.md. *)
Theorem payload_context_order {W : Type} (host : Host W) (book_dir : Path)
    (config_ : dict) (s : State W) (payload : Payload) :
  (build_payload host book_dir config_ s).1 = Ok payload →
  let root := filesystem host (world s) in
  ∃ (names : list string) (nested : list Path),
    map path (context_sections payload)
    = map (fun name => "Global Material/" +:+ name) names
      ++ map (fun rel => Pth.to_string ("Chapters material" :: rel)) nested
      ++ (if FS.exists_ root (book_dir ++ ["Review"; "current.md"])
          then ["Review/current.md"] else [])
    ∧ names ≡ₚ filter (fun n => Str.endswith ".md" n = true)
                       (listdir root (book_dir ++ ["Global Material"]))
    ∧ StronglySorted str_le names
    ∧ nested ≡ₚ filter (fun rel => Str.endswith ".md" (List.last rel "") = true)
                        (tree root (book_dir ++ ["Chapters material"]))
    ∧ StronglySorted Pth.le nested
    ∧ ("a.md" ∈ names → "b.md" ∈ names →
       ∃ l1 l2 l3, names = l1 ++ "a.md" :: l2 ++ "b.md" :: l3).
Proof.
  intros Hok root.
  destruct (build_payload host book_dir config_ s) as [o s'] eqn:Hrun.
  simpl in Hok. subst o.
  apply build_payload_ok in Hrun as (Hpaths & _ & _). fold root in Hpaths.
  change (Pth.div book_dir "Global Material") with (book_dir ++ ["Global Material"]) in Hpaths.
  change (Pth.div book_dir "Chapters material") with (book_dir ++ ["Chapters material"]) in Hpaths.
  change (Pth.div (Pth.div book_dir "Review") "current.md")
    with ((book_dir ++ ["Review"]) ++ ["current.md"]) in Hpaths.
  rewrite <- (app_assoc book_dir ["Review"] ["current.md"]) in Hpaths.
  rewrite section_path_under in Hpaths.
  rewrite glob_md_listdir, rglob_md_tree in Hpaths.
  destruct (sorted_names (book_dir ++ ["Global Material"])
              (filter (fun n => Str.endswith ".md" n = true)
                      (listdir root (book_dir ++ ["Global Material"]))))
    as (names & Hnames & Hperm1 & Hs1).
  destruct (sorted_rels (book_dir ++ ["Chapters material"])
              (filter (fun rel => Str.endswith ".md" (List.last rel "") = true)
                      (tree root (book_dir ++ ["Chapters material"]))))
    as (nested & Hnested & Hperm2 & Hs2).
  exists names, nested. split_and!; try done.
  - rewrite Hpaths, Hnames, Hnested, <- !list_fmap_compose.
    f_equal; [|f_equal].
    + apply map_ext. intros name. unfold compose.
      rewrite <- app_assoc. by rewrite section_path_under.
    + apply map_ext. intros rel. unfold compose.
      rewrite <- app_assoc. by rewrite section_path_under.
  - intros Ha Hb. by apply str_le_before.
Qed.

(** The example project: b.md is listed before a.md in its directory,
    and the chapter files are nested. *)
Lemma payload_context_order_witness :
  ∃ payload,
    (build_payload Examples.scripted_host Examples.book_dir DEFAULTS
                   (initial (Examples.scripted [] Examples.project))).1 = Ok payload
    ∧ map path (context_sections payload)
      = ["Global Material/a.md"; "Global Material/b.md";
         "Chapters material/a/z.md"; "Chapters material/a-b/c.md";
         "Chapters material/a.md"; "Review/current.md"]
    ∧ ∃ names nested,
        map path (context_sections payload)
        = map (fun name => "Global Material/" +:+ name) names
          ++ map (fun rel => Pth.to_string ("Chapters material" :: rel)) nested
          ++ ["Review/current.md"]
        ∧ StronglySorted str_le names
        ∧ StronglySorted Pth.le nested.
Proof.
  assert (Hrun : ∃ payload,
    (build_payload Examples.scripted_host Examples.book_dir DEFAULTS
                   (initial (Examples.scripted [] Examples.project))).1 = Ok payload
    ∧ map path (context_sections payload)
      = ["Global Material/a.md"; "Global Material/b.md";
         "Chapters material/a/z.md"; "Chapters material/a-b/c.md";
         "Chapters material/a.md"; "Review/current.md"]).
  { eexists. split; vm_compute; reflexivity. }
  destruct Hrun as (payload & Hrun & Hlist).
  exists payload. split; [exact Hrun|]. split; [exact Hlist|].
  destruct (payload_context_order Examples.scripted_host Examples.book_dir DEFAULTS
              (initial (Examples.scripted [] Examples.project)) payload Hrun)
    as (names & nested & Hpaths & _ & Hs1 & _ & Hs2 & _).
  exists names, nested. split_and!; [exact Hpaths | exact Hs1 | exact Hs2].
Defined.

(** The claim as first stated, with the chapter files in the
    lexicographic order of their full relative paths, fails on the
    example project: [a/z.md] is listed before [a-b/c.md], and as
    strings the second path comes first, [-] sorting before [/]. *)
Lemma payload_order_is_not_string_order :
  ∃ payload chapters,
    (build_payload Examples.scripted_host Examples.book_dir DEFAULTS
                   (initial (Examples.scripted [] Examples.project))).1 = Ok payload
    ∧ map path (context_sections payload)
      = ["Global Material/a.md"; "Global Material/b.md"] ++ chapters
        ++ ["Review/current.md"]
    ∧ chapters = ["Chapters material/a/z.md"; "Chapters material/a-b/c.md";
                  "Chapters material/a.md"]
    ∧ ¬ StronglySorted str_le chapters.
Proof.
  assert (Hrun : ∃ payload,
    (build_payload Examples.scripted_host Examples.book_dir DEFAULTS
                   (initial (Examples.scripted [] Examples.project))).1 = Ok payload
    ∧ map path (context_sections payload)
      = ["Global Material/a.md"; "Global Material/b.md";
         "Chapters material/a/z.md"; "Chapters material/a-b/c.md";
         "Chapters material/a.md"; "Review/current.md"]).
  { eexists. split; vm_compute; reflexivity. }
  destruct Hrun as (payload & Hrun & Hlist).
  exists payload, ["Chapters material/a/z.md"; "Chapters material/a-b/c.md";
                   "Chapters material/a.md"].
  split; [exact Hrun|]. split; [exact Hlist|]. split; [reflexivity|].
  intros Hsorted. inversion Hsorted as [|first rest _ Hall]; subst.
  inversion Hall as [|second rest' Hle _]; subst.
  unfold str_le in Hle. vm_compute in Hle. discriminate Hle.
Qed.

Section PayloadTotal.
Context {W : Type} (host : Host W).

Lemma bind_eq {A B : Type} (m : M W A) (k : A → M W B) (s s1 : State W) (a : A) :
  m s = (Ok a, s1) → bind m k s = k a s1.
Proof. unfold bind. by intros ->. Qed.

Lemma read_text_readable (p : Path) (s : State W) :
  readable (filesystem host (world s)) p →
  ∃ text, read_text host p s = (Ok text, s).
Proof.
  intros [text Htext]. exists text.
  unfold text_at in Htext. unfold read_text, read_fs, bind, ret.
  by destruct (FS.lookup _ p) as [[[t|] ?|? ?]|]; simplify_eq.
Qed.

Lemma relative_to_under (book_dir rel : Path) (s : State W) :
  relative_to (book_dir ++ rel) book_dir s = (Ok rel, s).
Proof. unfold relative_to. by rewrite strip_prefix_app. Qed.

Lemma load_global_file_readable (book_dir : Path) :
  loads_readable host book_dir (load_global_file host book_dir).
Proof.
  intros acc rel s [text Hread]%read_text_readable.
  unfold load_global_file.
  rewrite (bind_eq _ _ _ _ _ Hread), (bind_eq _ _ _ _ _ (relative_to_under _ _ _)).
  by eexists _, _.
Qed.

Lemma load_chapter_file_readable (book_dir : Path) :
  loads_readable host book_dir (load_chapter_file host book_dir).
Proof.
  intros acc rel s [text Hread]%read_text_readable.
  unfold load_chapter_file.
  rewrite (bind_eq _ _ _ _ _ Hread), (bind_eq _ _ _ _ _ (relative_to_under _ _ _)),
    (bind_eq _ _ _ _ _ (relative_to_under _ _ _)).
  by eexists _, _.
Qed.

Lemma loading_loop_total (book_dir : Path)
    (body : list ContextSection → Path → M W (list ContextSection))
    (files : list Path) (acc : list ContextSection) (s : State W) :
  loads_readable host book_dir body →
  (∀ p, p ∈ files → readable (filesystem host (world s)) p ∧ ∃ rel, p = book_dir ++ rel) →
  ∃ acc' s', for_fold files acc body s = (Ok acc', s') ∧ world s' = world s.
Proof.
  intros Hbody. revert acc s.
  induction files as [|p files IH]; intros acc s Hfiles.
  - by exists acc, s.
  - destruct (Hfiles p) as [Hread [rel ->]]; [by left|].
    destruct (Hbody acc rel s Hread) as (acc1 & s1 & Hrun & Hw).
    destruct (IH acc1 s1) as (acc' & s' & Hloop & Hw').
    { intros q Hq. rewrite Hw. apply Hfiles. by right. }
    exists acc', s'. split; [|congruence].
    cbn [for_fold]. by rewrite (bind_eq _ _ _ _ _ Hrun).
Qed.

Lemma loading_block_total (book_dir : Path)
    (body : list ContextSection → Path → M W (list ContextSection))
    (getter : M W (list Path)) (found : list Path) (there : bool)
    (acc : list ContextSection) (s : State W) :
  loads_readable host book_dir body →
  getter s = (Ok found, s) →
  (∀ p, p ∈ found → readable (filesystem host (world s)) p ∧ ∃ rel, p = book_dir ++ rel) →
  ∃ acc' s',
    (if there then (l <- getter ;; for_fold (sorted l) acc body) else ret acc) s
      = (Ok acc', s')
    ∧ world s' = world s.
Proof.
  intros Hbody Hget Hfound. destruct there; [|by exists acc, s].
  rewrite (bind_eq _ _ _ _ _ Hget).
  apply (loading_loop_total book_dir); [done|].
  intros p Hp. apply Hfound. by rewrite <- (sorted_perm found).
Qed.

Lemma build_payload_total (book_dir : Path) (config_ : dict) (s : State W) :
  let root := filesystem host (world s) in
  let review := book_dir ++ ["Review"; "current.md"] in
  (∀ p, p ∈ FS.glob root (book_dir ++ ["Global Material"]) "*.md" → readable root p) →
  (∀ p, p ∈ FS.rglob root (book_dir ++ ["Chapters material"]) "*.md" → readable root p) →
  (FS.exists_ root review = true → readable root review) →
  (∀ p, p ∈ FS.glob root (book_dir ++ ["Current version"]) "Full_Book_*.md" →
        readable root p) →
  ∃ payload s', build_payload host book_dir config_ s = (Ok payload, s').
Proof.
  intros root review Hglobal Hchapters Hreview Hversions.
  unfold build_payload.
  change (Pth.div book_dir "Global Material") with (book_dir ++ ["Global Material"]).
  change (Pth.div book_dir "Chapters material") with (book_dir ++ ["Chapters material"]).
  change (Pth.div book_dir "Current version") with (book_dir ++ ["Current version"]).
  change (Pth.div (Pth.div book_dir "Review") "current.md")
    with ((book_dir ++ ["Review"]) ++ ["current.md"]).
  rewrite <- (app_assoc book_dir ["Review"] ["current.md"]).
  change (["Review"] ++ ["current.md"]) with ["Review"; "current.md"]. fold review.
  (* Global Material *)
  rewrite (bind_eq (path_exists host _) _ s s _ eq_refl).
  edestruct (loading_block_total book_dir (load_global_file host book_dir)
               (path_glob host (book_dir ++ ["Global Material"]) "*.md"))
    as (secs1 & s1 & Hrun1 & Hw1);
    [apply load_global_file_readable | reflexivity | | ].
  { intros p Hp. split; [by apply Hglobal|].
    apply glob_under in Hp as [name ->]. rewrite <- app_assoc. by eexists. }
  rewrite (bind_eq _ _ _ _ _ Hrun1).
  (* Chapters material *)
  rewrite (bind_eq (path_exists host _) _ s1 s1 _ eq_refl).
  edestruct (loading_block_total book_dir (load_chapter_file host book_dir)
               (path_rglob host (book_dir ++ ["Chapters material"]) "*.md"))
    as (secs2 & s2 & Hrun2 & Hw2);
    [apply load_chapter_file_readable | reflexivity | | ].
  { intros p Hp. rewrite Hw1 in Hp |- *. split; [by apply Hchapters|].
    apply rglob_under in Hp as [rel ->]. rewrite <- app_assoc. by eexists. }
  rewrite (bind_eq _ _ _ _ _ Hrun2).
  (* Review/current.md *)
  rewrite (bind_eq (path_exists host _) _ s2 s2 _ eq_refl).
  assert (Hrun3 : ∃ secs3 s3,
    (if FS.exists_ (filesystem host (world s2)) review
     then text <- read_text host review ;;
          rel <- relative_to review book_dir ;;
          log_info "Loaded: Review/current.md (%d words)" [AInt (_count_words text)] ;;
          ret (secs2 ++ [mk_section (Pth.to_string rel) text])
     else log_warning "Review/current.md not found — starting fresh." [] ;;
          ret secs2) s2 = (Ok secs3, s3)
    ∧ world s3 = world s).
  { rewrite Hw2, Hw1. fold root.
    destruct (FS.exists_ root review) eqn:Ex.
    - destruct (read_text_readable review s2) as [text Hread].
      { rewrite Hw2, Hw1. by apply Hreview. }
      rewrite (bind_eq _ _ _ _ _ Hread).
      unfold review at 1. rewrite (bind_eq _ _ _ _ _ (relative_to_under _ _ _)).
      eexists _, _. split; [reflexivity|]. cbn [world]. congruence.
    - eexists _, _. split; [reflexivity|]. cbn [world]. congruence. }
  destruct Hrun3 as (secs3 & s3 & Hrun3 & Hw3).
  rewrite (bind_eq _ _ _ _ _ Hrun3).
  (* Word count *)
  rewrite (bind_eq (path_exists host _) _ s3 s3 _ eq_refl).
  rewrite Hw3. fold root.
  assert (Hrun4 : ∃ count s4,
    (if FS.exists_ root (book_dir ++ ["Current version"])
     then found <- path_glob host (book_dir ++ ["Current version"]) "Full_Book_*.md" ;;
          match last (sorted found) with
          | Some latest =>
              text <- read_text host latest ;;
              log_info "Manuscript word count: %d (from %s)"
                       [AInt (_count_words text); AStr (Pth.name latest)] ;;
              ret (_count_words text)
          | None => ret 0
          end
     else ret 0) s3 = (Ok count, s4)).
  { destruct (FS.exists_ root (book_dir ++ ["Current version"])); [|by eexists _, _].
    rewrite (bind_eq (path_glob host _ _) _ s3 s3 _ eq_refl).
    rewrite Hw3. fold root.
    destruct (last (sorted _)) as [latest|] eqn:Hlast; [|by eexists _, _].
    destruct (read_text_readable latest s3) as [text Hread].
    { rewrite Hw3. apply Hversions.
      rewrite <- (sorted_perm (FS.glob root _ _)).
      by apply (last_sorted_greatest _ _ (sorted_sorted _) Hlast). }
    rewrite (bind_eq _ _ _ _ _ Hread). by eexists _, _. }
  destruct Hrun4 as (count & s4 & Hrun4).
  rewrite (bind_eq _ _ _ _ _ Hrun4).
  by eexists _, _.
Qed.

End PayloadTotal.

Lemma glob_elem (root : node) (d : Path) (pat : string) (p : Path) :
  p ∈ FS.glob root d pat
  ↔ ∃ name, p = d ++ [name] ∧ name ∈ listdir root d ∧ Str.fnmatch pat name = true.
Proof.
  unfold FS.glob, listdir.
  destruct (FS.lookup root d) as [[? ?|m es]|].
  1,3: split; [by intros ?%elem_of_nil | by intros (? & _ & ?%elem_of_nil & _)].
  rewrite list_elem_of_fmap. split.
  - intros (e & -> & [Hm He]%list_elem_of_filter).
    exists e.1. split_and!; [done| |done].
    apply list_elem_of_fmap. by exists e.
  - intros (name & -> & (e & -> & He)%list_elem_of_fmap & Hm).
    exists e. split; [done|]. by apply list_elem_of_filter.
Qed.

(** C5. The word count of a payload comes from the manuscript files:
    the entries of Current version whose name matches
    [Full_Book_*.md].  Sorted, the last of them is the latest, and the
    word count is the number of pieces of its text split on white
    space, so 3 for the text "one two three"; without the directory, or
    without a matching file, the word count is 0.  The payload is built
    whenever the files the builder reads decode as text. *)
Theorem payload_word_count {W : Type} (host : Host W) (book_dir : Path)
    (config_ : dict) (s : State W) :
  let root := filesystem host (world s) in
  let version_dir := book_dir ++ ["Current version"] in
  let manuscripts := FS.glob root version_dir "Full_Book_*.md" in
  let built := (build_payload host book_dir config_ s).1 in
  (∀ p, p ∈ manuscripts ↔
        ∃ name, p = version_dir ++ [name] ∧ name ∈ listdir root version_dir
                ∧ Str.fnmatch "Full_Book_*.md" name = true)
  ∧ ((∀ p, p ∈ FS.glob root (book_dir ++ ["Global Material"]) "*.md" → readable root p) →
     (∀ p, p ∈ FS.rglob root (book_dir ++ ["Chapters material"]) "*.md" → readable root p) →
     (FS.exists_ root (book_dir ++ ["Review"; "current.md"]) = true →
      readable root (book_dir ++ ["Review"; "current.md"])) →
     (∀ p, p ∈ manuscripts → readable root p) →
     ∃ payload, built = Ok payload)
  ∧ (∀ payload, built = Ok payload →
     (FS.exists_ root version_dir = false → word_count payload = 0)
     ∧ (manuscripts = [] → word_count payload = 0)
     ∧ (manuscripts ≠ [] →
        ∃ latest text,
          last (sorted manuscripts) = Some latest
          ∧ latest ∈ manuscripts
          ∧ (∀ p, p ∈ manuscripts → Pth.le p latest)
          ∧ text_at root latest = Some text
          ∧ word_count payload = Z.of_nat (length (Str.split_ws text))
          ∧ (text = "one two three" → word_count payload = 3))).
Proof.
  intros root version_dir manuscripts built. split_and!.
  - intros p. apply glob_elem.
  - intros H1 H2 H3 H4.
    destruct (build_payload_total host book_dir config_ s H1 H2 H3 H4) as (payload & s' & Hrun).
    exists payload. unfold built. by rewrite Hrun.
  - intros payload Hok. unfold built in Hok.
    destruct (build_payload host book_dir config_ s) as [o s'] eqn:Hrun.
    simpl in Hok. subst o.
    apply build_payload_ok in Hrun as (_ & Hwords & _). fold root in Hwords.
    change (Pth.div book_dir "Current version") with version_dir in Hwords.
    fold manuscripts in Hwords.
    assert (Hempty : manuscripts = [] → word_count payload = 0).
    { intros Hnil. by rewrite Hnil in Hwords. }
    split_and!.
    + intros Habsent. apply Hempty. by apply glob_absent.
    + exact Hempty.
    + intros Hsome.
      destruct (last (sorted manuscripts)) as [latest|] eqn:Hlast.
      * destruct Hwords as (text & Htext & Hcount).
        destruct (last_sorted_greatest _ _ (sorted_sorted manuscripts) Hlast) as [Hin Hmax].
        exists latest, text. split_and!; try done.
        -- by rewrite <- (sorted_perm manuscripts).
        -- intros p Hp. apply Hmax. by rewrite (sorted_perm manuscripts).
        -- intros ->. by rewrite Hcount.
      * apply last_None in Hlast.
        exfalso. apply Hsome. apply Permutation_nil_r. rewrite <- Hlast.
        symmetry. apply sorted_perm.
Qed.

(** The example project holds two manuscripts; the later one reads
    "one two three".  A project with no file has no manuscript. *)
Example word_count_examples :
  word_count <$> value_of (build_payload Examples.scripted_host Examples.book_dir DEFAULTS
                             (initial (Examples.scripted [] Examples.project))).1 = Some 3
  ∧ word_count <$> value_of (build_payload Examples.scripted_host Examples.book_dir DEFAULTS
                               (initial (Examples.scripted [] Examples.bare_project))).1 = Some 0
  ∧ _count_words "one two three" = 3.
Proof. vm_compute. done. Qed.

(** The word count of the example project, through the theorem: the
    later manuscript is the last of the sorted list. *)
Lemma payload_word_count_witness :
  ∃ payload,
    (build_payload Examples.scripted_host Examples.book_dir DEFAULTS
                   (initial (Examples.scripted [] Examples.project))).1 = Ok payload
    ∧ word_count payload = 3.
Proof.
  destruct (payload_word_count Examples.scripted_host Examples.book_dir DEFAULTS
              (initial (Examples.scripted [] Examples.project))) as (_ & _ & Hcount).
  assert (Hrun : ∃ payload,
    (build_payload Examples.scripted_host Examples.book_dir DEFAULTS
                   (initial (Examples.scripted [] Examples.project))).1 = Ok payload).
  { eexists. vm_compute. reflexivity. }
  destruct Hrun as [payload Hrun]. exists payload. split; [exact Hrun|].
  destruct (Hcount payload Hrun) as (_ & _ & Hlatest).
  destruct Hlatest as (latest & text & Hlast & _ & _ & Htext & _ & Hthree).
  { vm_compute. intros Hnil. discriminate Hnil. }
  apply Hthree.
  vm_compute in Hlast. injection Hlast as <-.
  vm_compute in Htext. injection Htext as <-. reflexivity.
Defined.

(* ===================================================================== *)
(** * Further properties *)
(* ===================================================================== *)

(** ** What the readers leave alone *)

Section Quiet.
Context {W : Type} (host : Host W).

Lemma quiet_ret {A : Type} (a : A) : quiet (ret (W:=W) a).
Proof. by intros s. Qed.

Lemma quiet_raise {A : Type} (e : exn) : quiet (raise (W:=W) (A:=A) e).
Proof. by intros s. Qed.

Lemma quiet_bind {A B : Type} (m : M W A) (k : A → M W B) :
  quiet m → (∀ a, quiet (k a)) → quiet (bind m k).
Proof.
  intros Hm Hk s. unfold bind.
  destruct (Hm s) as [Hc Hw].
  destruct (m s) as [[a|e] s1]; simpl in *; [|done].
  destruct (Hk a s1) as [Hc' Hw']. split; congruence.
Qed.

Lemma quiet_log (lv : levelname) (fmt : string) (a : list logarg) :
  quiet (log_ (W:=W) lv fmt a).
Proof. by intros s. Qed.

Lemma quiet_read_fs : quiet (read_fs host).
Proof. by intros s. Qed.

Lemma quiet_today : quiet (today host).
Proof. by intros s. Qed.

Lemma quiet_fromtimestamp (t : Z) : quiet (fromtimestamp host t).
Proof. by intros s. Qed.

Lemma quiet_lift {A : Type} (o : outcome A) : quiet (lift (W:=W) o).
Proof. destruct o; by intros s. Qed.

Lemma quiet_for_fold {A S : Type} (xs : list A) (acc : S) (body : S → A → M W S) :
  (∀ acc x, quiet (body acc x)) → quiet (for_fold xs acc body).
Proof.
  intros Hbody. revert acc. induction xs as [|x xs IH]; intros acc.
  - apply quiet_ret.
  - cbn [for_fold]. apply quiet_bind; [apply Hbody | intros; apply IH].
Qed.

Lemma quiet_for_each {A : Type} (xs : list A) (body : A → M W unit) :
  (∀ x, quiet (body x)) → quiet (for_each xs body).
Proof.
  intros Hbody. induction xs as [|x xs IH].
  - apply quiet_ret.
  - cbn [for_each]. apply quiet_bind; [apply Hbody | intros; apply IH].
Qed.

End Quiet.

(** Breaks a computation into its steps and closes the quiet ones. *)
Ltac quiet_steps :=
  repeat first
    [ apply quiet_ret | apply quiet_raise | apply quiet_log | apply quiet_read_fs
    | apply quiet_today | apply quiet_fromtimestamp | apply quiet_lift
    | apply quiet_bind; [|intros]
    | apply quiet_for_fold; intros
    | apply quiet_for_each; intros
    | match goal with
      | |- quiet (if ?b then _ else _) => destruct b
      | |- quiet (match ?x with _ => _ end) => destruct x
      end ].

Section QuietSteps.
Context {W : Type} (host : Host W).

Lemma quiet_load_config (book_dir : Path) : quiet (load_config host book_dir).
Proof.
  unfold load_config, path_exists, read_text, dict_items, log_info, log_warning.
  quiet_steps.
Qed.

Lemma quiet_detect_human_edits (book_dir : Path) : quiet (detect_human_edits host book_dir).
Proof.
  unfold detect_human_edits, path_rglob, log_info.
  quiet_steps.
  all: unfold detect_step, path_is_file, stat_mtime, relative_to; quiet_steps.
Qed.

Lemma quiet_build_payload (book_dir : Path) (config_ : dict) :
  quiet (build_payload host book_dir config_).
Proof.
  unfold build_payload, path_exists, path_glob, path_rglob, read_text, relative_to,
    log_info, log_warning.
  quiet_steps.
  all: unfold load_global_file, load_chapter_file, read_text, relative_to, log_info;
    quiet_steps.
Qed.

End QuietSteps.

(** X1.  [load_config], [detect_human_edits] and [build_payload] are
    readers: whatever they return or raise, they issue no external
    command and leave the world as it is. *)
Theorem readers_issue_no_command {W : Type} (host : Host W) (book_dir : Path)
    (config_ : dict) (s : State W) :
  (calls (load_config host book_dir s).2 = calls s
   ∧ world (load_config host book_dir s).2 = world s)
  ∧ (calls (detect_human_edits host book_dir s).2 = calls s
     ∧ world (detect_human_edits host book_dir s).2 = world s)
  ∧ (calls (build_payload host book_dir config_ s).2 = calls s
     ∧ world (build_payload host book_dir config_ s).2 = world s).
Proof.
  split_and!.
  - apply quiet_load_config.
  - apply quiet_load_config.
  - apply quiet_detect_human_edits.
  - apply quiet_detect_human_edits.
  - apply quiet_build_payload.
  - apply quiet_build_payload.
Qed.

(** ** The repository synchroniser *)

Section SyncFacts.
Context {W : Type} (host : Host W).

Lemma ensure_repo_unfold (url : string) (book_dir : Path) (s : State W) :
  ensure_repo host url book_dir s =
    let there := FS.exists_ (filesystem host (world s)) book_dir in
    let call := sync_call there url book_dir in
    let before :=
      if there
      then logged INFO "Repo already cloned at %s — fetching." [APath book_dir] s
      else made_dir host (Pth.parent book_dir)
             (logged INFO "Cloning %s → %s" [AStr url; APath book_dir] s) in
    match (sync_prepared host there book_dir (world s)).1 with
    | Raise e => (Raise e, before)
    | Ok _ =>
        (if exited_nonzero (reply_of host (argv call) (cwd call) before)
         then Raise (RuntimeError (command_failed
                       (returncode (reply_of host (argv call) (cwd call) before))
                       (argv call)))
         else Ok tt,
         after_run host (argv call) (cwd call) before)
    end.
Proof.
  unfold ensure_repo, path_exists, read_fs, log_info, mkdir.
  unfold bind at 1. unfold bind at 1. cbn [ret].
  destruct (FS.exists_ (filesystem host (world s)) book_dir); cbv zeta;
    cbn [sync_call sync_prepared argv cwd fst].
  - rewrite bind_log, bind_run_checked. by destruct (exited_nonzero _).
  - rewrite bind_log. unfold bind at 1. unfold made_dir.
    rewrite world_logged.
    destruct (mkdir_parents host (Pth.parent book_dir) (world s)) as [[[]|e] w1];
      cbn [fst snd]; [|reflexivity].
    rewrite bind_run_checked. by destruct (exited_nonzero _).
Qed.

(** The world in which [ensure_repo] issues its command. *)
Lemma world_before_sync (url : string) (book_dir : Path) (s : State W) (there : bool) :
  world (if there
         then logged INFO "Repo already cloned at %s — fetching." [APath book_dir] s
         else made_dir host (Pth.parent book_dir)
                (logged INFO "Cloning %s → %s" [AStr url; APath book_dir] s))
  = (sync_prepared host there book_dir (world s)).2.
Proof. by destruct there. Qed.

Lemma calls_before_sync (url : string) (book_dir : Path) (s : State W) (there : bool) :
  calls (if there
         then logged INFO "Repo already cloned at %s — fetching." [APath book_dir] s
         else made_dir host (Pth.parent book_dir)
                (logged INFO "Cloning %s → %s" [AStr url; APath book_dir] s))
  = calls s.
Proof. by destruct there. Qed.

(** What [ensure_repo] issues and returns once the directories are
    there. *)
Lemma ensure_repo_sync (url : string) (book_dir : Path) (s : State W) :
  let there := FS.exists_ (filesystem host (world s)) book_dir in
  let call := sync_call there url book_dir in
  let made := sync_prepared host there book_dir (world s) in
  let reply := (subprocess_run host (argv call) (cwd call) made.2).1 in
  made.1 = Ok tt →
  calls (ensure_repo host url book_dir s).2 = calls s ++ [call]
  ∧ (ensure_repo host url book_dir s).1
    = if returncode reply =? 0 then Ok tt
      else Raise (RuntimeError (command_failed (returncode reply) (argv call))).
Proof.
  intros there call made reply Hmade.
  rewrite ensure_repo_unfold. cbv zeta. fold there. fold call. fold made.
  rewrite Hmade. unfold exited_nonzero, reply_of.
  rewrite world_before_sync. fold made reply. cbn [fst snd].
  split.
  - rewrite calls_after_run, calls_before_sync. unfold call. by destruct there.
  - by destruct (returncode reply =? 0).
Qed.

(** What [ensure_repo] does when the directories cannot be created. *)
Lemma ensure_repo_blocked (url : string) (book_dir : Path) (s : State W) (e : exn) :
  let there := FS.exists_ (filesystem host (world s)) book_dir in
  (sync_prepared host there book_dir (world s)).1 = Raise e →
  (ensure_repo host url book_dir s).1 = Raise e
  ∧ calls (ensure_repo host url book_dir s).2 = calls s.
Proof.
  intros there Hmade.
  rewrite ensure_repo_unfold. cbv zeta. fold there. rewrite Hmade. cbn [fst snd].
  split; [reflexivity | apply calls_before_sync].
Qed.

End SyncFacts.


(** A regular file bears the name of the books directory: the clone
    is not attempted, the script exits with status 1 and its last
    record is the fatal error. *)
Example blocked_books_directory :
  let result := script (Scripted.host []) "https://github.com/Philippe-arnd/my-novel"
                  (initial Cases.blocked) in
  result.1 = 1
  ∧ calls result.2 = []
  ∧ last (records result.2)
    = Some (mk_record ERROR "Fatal error: %s"
              [AExn (FileExistsError ["/"; "data"; "ink-gateway"; "books"])]).
Proof. vm_compute. done. Qed.

(** ** The session driver *)

Section SessionFacts.
Context {W : Type} (host : Host W).

(** The state in which [main] starts its first step: the banner is
    logged. *)
Lemma main_unfold (url book_name : string) (s : State W) :
  book_name_from_url url = Ok book_name →
  ∃ s0, world s0 = world s ∧ calls s0 = calls s
    ∧ main host url s =
        (let book_dir := Pth.div BOOKS_ROOT book_name in
         ensure_repo host url book_dir ;;
         config_ <- load_config host book_dir ;;
         reconcile_human_edits host book_dir ;;
         snapshot host book_dir ;;
         branch_for_draft host book_dir ;;
         payload <- build_payload host book_dir config_ ;;
         log_info (Str.replicate 60 "=") [] ;;
         log_info "Phase 1 complete. Payload ready for AI generation (Phase 2)." [] ;;
         target <- dict_getitem config_ (KStr "nightly_output_target") ;;
         log_info "  Sections: %d | Manuscript words: %d | Nightly target: %d"
                  [AInt (Z.of_nat (length (context_sections payload)));
                   AInt (word_count payload);
                   AVal target] ;;
         log_info (Str.replicate 60 "=") []) s0.
Proof.
  intros Hname. unfold main. rewrite Hname. cbn [lift].
  rewrite bind_ret. unfold log_info at 1 2 3 4 5.
  rewrite !bind_log.
  eexists. split_and!; [| |reflexivity]; reflexivity.
Qed.

End SessionFacts.

(** X3.  A failed synchronisation ends the session.  When the fetch
    (or the clone) exits non-zero, the script exits with status 1, that
    command is the only one issued (no commit, tag or branch command
    follows), and the last log record is the fatal error carrying the
    [RuntimeError] of the command.  When the parent directories of a
    project to clone cannot be created, the script exits with status 1
    as well, no command at all is issued, and the last log record is
    the fatal error carrying the exception of [mkdir]. *)
Theorem sync_failure_ends_session {W : Type} (host : Host W) (url book_name : string)
    (w : W) :
  book_name_from_url url = Ok book_name →
  let book_dir := Pth.div BOOKS_ROOT book_name in
  let there := FS.exists_ (filesystem host w) book_dir in
  let call := sync_call there url book_dir in
  let made := if there then (Ok tt, w)
              else mkdir_parents host (Pth.parent book_dir) w in
  let reply := (subprocess_run host (argv call) (cwd call) made.2).1 in
  (made.1 = Ok tt → returncode reply ≠ 0) →
  let result := script host url (initial w) in
  result.1 = 1
  ∧ match made.1 with
    | Ok _ =>
        calls result.2 = [call]
        ∧ last (records result.2)
          = Some (mk_record ERROR "Fatal error: %s"
                    [AExn (RuntimeError (command_failed (returncode reply) (argv call)))])
    | Raise e =>
        calls result.2 = []
        ∧ last (records result.2) = Some (mk_record ERROR "Fatal error: %s" [AExn e])
    end.
Proof.
  intros Hname book_dir there call made reply Hcode result.
  destruct (main_unfold host url book_name (initial w) Hname) as (s0 & Hw & Hc & Hmain).
  cbn [world initial] in Hw. cbn [calls initial] in Hc.
  change made with (sync_prepared host there book_dir w) in *.
  assert (∃ e, (ensure_repo host url book_dir s0).1 = Raise e
               ∧ result = (1, logged ERROR "Fatal error: %s" [AExn e]
                                (ensure_repo host url book_dir s0).2)) as Hfatal.
  { assert (∃ e, (ensure_repo host url book_dir s0).1 = Raise e) as [e He].
    { destruct (sync_prepared host there book_dir w).1 as [[]|e] eqn:Hmade.
      - destruct (ensure_repo_sync host url book_dir s0) as (_ & Hout).
        { by rewrite Hw. }
        rewrite Hw in Hout. fold there call reply in Hout.
        specialize (Hcode eq_refl). apply Z.eqb_neq in Hcode.
        rewrite Hcode in Hout. by eexists.
      - destruct (ensure_repo_blocked host url book_dir s0 e) as (Hout & _).
        { by rewrite Hw. }
        by eexists. }
    exists e. split; [exact He|].
    unfold result, script. rewrite Hmain. cbv zeta. fold book_dir.
    unfold bind at 1.
    destruct (ensure_repo host url book_dir s0) as [o s1]. cbn [fst snd] in He |- *.
    by subst o. }
  destruct Hfatal as (e & He & Hresult).
  split; [by rewrite Hresult|].
  destruct (sync_prepared host there book_dir w).1 as [[]|e'] eqn:Hmade.
  - destruct (ensure_repo_sync host url book_dir s0) as (Hcalls & Hout).
    { by rewrite Hw. }
    rewrite Hw in Hcalls, Hout. fold there call reply in Hcalls, Hout.
    specialize (Hcode eq_refl). apply Z.eqb_neq in Hcode.
    rewrite Hcode, He in Hout. injection Hout as ->.
    rewrite Hresult. cbn [snd].
    split; [by rewrite calls_logged, Hcalls, Hc | apply last_records_logged].
  - destruct (ensure_repo_blocked host url book_dir s0 e') as (Hout & Hcalls).
    { by rewrite Hw. }
    rewrite He in Hout. injection Hout as ->.
    rewrite Hresult. cbn [snd].
    split; [by rewrite calls_logged, Hcalls, Hc | apply last_records_logged].
Qed.

(** A repository that does not answer: the fetch exits 128.  And a
    books directory whose name a regular file bears: nothing is
    issued. *)
Lemma sync_failure_ends_session_witness :
  let result := script Examples.scripted_host "https://github.com/Philippe-arnd/my-novel/"
                  (initial (Examples.scripted
                     [mk_completed 128 EmptyString "fatal: unable to access the repository"]
                     Examples.bare_project)) in
  let blocked := script (Scripted.host []) "https://github.com/Philippe-arnd/my-novel/"
                   (initial Cases.blocked) in
  (result.1 = 1
   ∧ map argv (calls result.2) = [["git"; "fetch"; "--all"; "--tags"]])
  ∧ (blocked.1 = 1 ∧ calls blocked.2 = []).
Proof.
  intros result blocked. split.
  - destruct (sync_failure_ends_session Examples.scripted_host
                "https://github.com/Philippe-arnd/my-novel/" "my-novel"
                (Examples.scripted
                   [mk_completed 128 EmptyString "fatal: unable to access the repository"]
                   Examples.bare_project))
      as (Hstatus & Hcalls & _).
    + reflexivity.
    + intros _. vm_compute. discriminate.
    + split; [exact Hstatus|]. unfold result. rewrite Hcalls. reflexivity.
  - destruct (sync_failure_ends_session (Scripted.host [])
                "https://github.com/Philippe-arnd/my-novel/" "my-novel" Cases.blocked)
      as (Hstatus & Hcalls & _).
    + reflexivity.
    + intros Hmade. vm_compute in Hmade. discriminate Hmade.
    + split; [exact Hstatus | exact Hcalls].
Defined.

Section SessionSteps.
Context {W : Type} (host : Host W).

Lemma quiet_ok {A : Type} (m : M W A) (s s' : State W) (o : outcome A) :
  quiet m → m s = (o, s') → calls s' = calls s.
Proof. intros Hq Hrun. destruct (Hq s) as [Hc _]. by rewrite Hrun in Hc. Qed.

Lemma ensure_repo_ok (url : string) (book_dir : Path) (s s' : State W) (u : unit) :
  ensure_repo host url book_dir s = (Ok u, s') →
  ∃ sync, map argv (calls s') = map argv (calls s) ++ [sync]
          ∧ (sync = fetch_all ∨ sync = clone_into url book_dir).
Proof.
  intros Hrun.
  destruct (sync_prepared host (FS.exists_ (filesystem host (world s)) book_dir)
              book_dir (world s)).1 as [[]|e] eqn:Hmade.
  - destruct (ensure_repo_sync host url book_dir s Hmade) as (Hcalls & _).
    rewrite Hrun in Hcalls. cbn [snd] in Hcalls. rewrite Hcalls, map_app.
    eexists. split; [reflexivity|].
    destruct (FS.exists_ _ _); [by left | by right].
  - destruct (ensure_repo_blocked host url book_dir s e Hmade) as (Hout & _).
    rewrite Hrun in Hout. discriminate Hout.
Qed.

Lemma reconcile_ok (book_dir : Path) (s s' : State W) :
  reconcile_human_edits host book_dir s = (Ok tt, s') →
  ∃ edits, map argv (calls s') = map argv (calls s) ++ edits
           ∧ (edits = [] ∨ edits = [Cmd.add_all; Cmd.commit_edits; Cmd.push_main]).
Proof.
  intros Hrun.
  destruct (reconcile_unfold host book_dir s) as (s0 & _ & Hc & Heq).
  rewrite Hrun in Heq. clear Hrun.
  destruct (filter _ _) as [|p rest].
  - injection Heq as ->. exists []. rewrite app_nil_r, Hc. auto.
  - rewrite commit_human_edits_unfold in Heq. cbv zeta in Heq.
    repeat match type of Heq with context [if ?b then _ else _] => destruct b end;
      try discriminate Heq.
    injection Heq as ->.
    exists [Cmd.add_all; Cmd.commit_edits; Cmd.push_main].
    rewrite calls_logged, !calls_after_run, Hc, !map_app, <- !app_assoc. auto.
Qed.

Lemma snapshot_ok (book_dir : Path) (s s' : State W) (name : string) :
  snapshot host book_dir s = (Ok name, s') →
  name = snapshot_tag (date_today host (world s))
  ∧ ∃ snap, map argv (calls s') = map argv (calls s) ++ snap
            ∧ (snap = [["git"; "tag"; name]]
               ∨ snap = [["git"; "tag"; name]; ["git"; "push"; "origin"; name]]).
Proof.
  rewrite snapshot_unfold. cbv zeta. intros Hrun.
  repeat match type of Hrun with context [if ?b then _ else _] => destruct b end;
    try discriminate Hrun; injection Hrun as <- <-;
    (split; [reflexivity|]);
    repeat (rewrite calls_logged || rewrite calls_after_run);
    rewrite !map_app, <- ?app_assoc;
    eexists; (split; [reflexivity|]); auto.
Qed.

Lemma branch_for_draft_ok (book_dir : Path) (s s' : State W) :
  branch_for_draft host book_dir s = (Ok tt, s') →
  ∃ draft, map argv (calls s') = map argv (calls s) ++ draft
           ∧ (draft = [Cmd.list_draft; Cmd.ls_remote_draft; Cmd.create_draft; Cmd.publish_draft]
              ∨ draft = [Cmd.list_draft; Cmd.ls_remote_draft; Cmd.checkout_draft;
                         Cmd.rebase_main]).
Proof.
  rewrite branch_for_draft_unfold. cbv zeta. intros Hrun.
  repeat match type of Hrun with context [if ?b then _ else _] => destruct b end;
    try discriminate Hrun; injection Hrun as <-;
    repeat (rewrite calls_logged || rewrite calls_after_run);
    rewrite !map_app, <- ?app_assoc;
    eexists; (split; [reflexivity|]); auto.
Qed.

End SessionSteps.

(** X4.  A session that completes issued its commands in one fixed
    order: first the fetch or the clone; then either nothing or the
    add, commit and push of the human edits; then the creation of the
    snapshot tag named after a date, followed or not by its push; then
    the two probes of the draft branch and either its creation and
    publication or its checkout and rebase.  No other command is
    issued. *)
Theorem session_commands {W : Type} (host : Host W) (url : string) (s s' : State W) :
  main host url s = (Ok tt, s') →
  ∃ (book_name : string) (sync : list string) (edits snap draft : list (list string))
    (day : date) (tag : string),
    book_name_from_url url = Ok book_name
    ∧ tag = snapshot_tag day
    ∧ map argv (calls s') = map argv (calls s) ++ sync :: edits ++ snap ++ draft
    ∧ (sync = fetch_all ∨ sync = clone_into url (Pth.div BOOKS_ROOT book_name))
    ∧ (edits = [] ∨ edits = [Cmd.add_all; Cmd.commit_edits; Cmd.push_main])
    ∧ (snap = [["git"; "tag"; tag]]
       ∨ snap = [["git"; "tag"; tag]; ["git"; "push"; "origin"; tag]])
    ∧ (draft = [Cmd.list_draft; Cmd.ls_remote_draft; Cmd.create_draft; Cmd.publish_draft]
       ∨ draft = [Cmd.list_draft; Cmd.ls_remote_draft; Cmd.checkout_draft; Cmd.rebase_main]).
Proof.
  intros Hrun.
  destruct (book_name_from_url url) as [book_name|e] eqn:Hname.
  2: { unfold main in Hrun. rewrite Hname in Hrun. discriminate Hrun. }
  destruct (main_unfold host url book_name s Hname) as (s0 & _ & Hc0 & Hmain).
  rewrite Hmain in Hrun. cbv zeta in Hrun. clear Hmain.
  apply bind_ok in Hrun as (u1 & s1 & Hsync & Hrun).
  apply ensure_repo_ok in Hsync as (sync & Hc1 & Hsync).
  apply bind_ok in Hrun as (config_ & s2 & Hconfig & Hrun).
  apply (quiet_ok _ _ _ _ (quiet_load_config host _)) in Hconfig as Hc2.
  apply bind_ok in Hrun as ([] & s3 & Hedits & Hrun).
  apply reconcile_ok in Hedits as (edits & Hc3 & Hedits).
  apply bind_ok in Hrun as (tag & s4 & Hsnap & Hrun).
  apply snapshot_ok in Hsnap as (Htag & snap & Hc4 & Hsnap).
  apply bind_ok in Hrun as ([] & s5 & Hdraft & Hrun).
  apply branch_for_draft_ok in Hdraft as (draft & Hc5 & Hdraft).
  apply bind_ok in Hrun as (payload & s6 & Hpayload & Hrun).
  apply (quiet_ok _ _ _ _ (quiet_build_payload host _ _)) in Hpayload as Hc6.
  assert (Hc7 : calls s' = calls s6).
  { revert Hrun. apply quiet_ok. unfold log_info, dict_getitem. quiet_steps. }
  exists book_name, sync, edits, snap, draft, (date_today host (world s3)), tag.
  split_and!; try done.
  rewrite Hc7, Hc6, Hc5, Hc4, Hc3, Hc2, Hc1, Hc0, <- !app_assoc. reflexivity.
Qed.

(** A session on the example project, every command exiting zero in
    silence: the repository is fetched, the edit of the day committed,
    the tag created and pushed, the draft branch created. *)
Lemma session_commands_witness :
  ∃ s', main Examples.scripted_host "https://github.com/Philippe-arnd/my-novel"
             (initial (Examples.scripted [] Examples.project)) = (Ok tt, s')
    ∧ map argv (calls s')
      = [fetch_all; Cmd.add_all; Cmd.commit_edits; Cmd.push_main;
         ["git"; "tag"; "pre-nightly-2026-11-03"];
         ["git"; "push"; "origin"; "pre-nightly-2026-11-03"];
         Cmd.list_draft; Cmd.ls_remote_draft; Cmd.create_draft; Cmd.publish_draft]
    ∧ ∃ sync edits snap draft,
        map argv (calls s') = sync :: edits ++ snap ++ draft
        ∧ length edits = 3%nat ∧ length draft = 4%nat.
Proof.
  assert (Hrun : ∃ s', main Examples.scripted_host "https://github.com/Philippe-arnd/my-novel"
             (initial (Examples.scripted [] Examples.project)) = (Ok tt, s')
    ∧ map argv (calls s')
      = [fetch_all; Cmd.add_all; Cmd.commit_edits; Cmd.push_main;
         ["git"; "tag"; "pre-nightly-2026-11-03"];
         ["git"; "push"; "origin"; "pre-nightly-2026-11-03"];
         Cmd.list_draft; Cmd.ls_remote_draft; Cmd.create_draft; Cmd.publish_draft]).
  { eexists. split; vm_compute; reflexivity. }
  destruct Hrun as (s' & Hrun & Hlist).
  exists s'. split; [exact Hrun|]. split; [exact Hlist|].
  destruct (session_commands _ _ _ _ Hrun)
    as (name & sync & edits & snap & draft & day & tag & _ & _ & Hcalls & _ & Hedits
        & Hsnap & Hdraft).
  exists sync, edits, snap, draft. split; [exact Hcalls|].
  rewrite Hlist in Hcalls.
  split.
  - destruct Hedits as [-> | ->]; [|reflexivity].
    exfalso. destruct Hsnap as [-> | ->]; destruct Hdraft as [-> | ->]; discriminate Hcalls.
  - destruct Hdraft as [-> | ->]; reflexivity.
Defined.

(** ** The snapshotter and the draft branch manager, on every host *)

(** X5.  [snapshot] never raises on account of the tag command.  When
    that command exits non-zero and says "already exists", the tag
    command is the only command issued and the tag name is returned.
    In every other case the push of the tag is issued as well, and
    [snapshot] raises exactly when that push exits non-zero, with the
    [RuntimeError] of the push. *)
Theorem snapshot_outcome {W : Type} (host : Host W) (book_dir : Path) (s : State W) :
  let tag := snapshot_tag (date_today host (world s)) in
  let tag_call := mk_call ["git"; "tag"; tag] book_dir in
  let push_call := mk_call ["git"; "push"; "origin"; tag] book_dir in
  let tagging := subprocess_run host ["git"; "tag"; tag] book_dir (world s) in
  let pushing := subprocess_run host ["git"; "push"; "origin"; tag] book_dir tagging.2 in
  let skip := negb (returncode tagging.1 =? 0)
              && Str.contains "already exists" (stderr tagging.1) in
  (skip = true →
   (snapshot host book_dir s).1 = Ok tag
   ∧ calls (snapshot host book_dir s).2 = calls s ++ [tag_call])
  ∧ (skip = false →
     calls (snapshot host book_dir s).2 = calls s ++ [tag_call; push_call]
     ∧ (snapshot host book_dir s).1
       = if returncode pushing.1 =? 0 then Ok tag
         else Raise (RuntimeError (command_failed (returncode pushing.1)
                                     ["git"; "push"; "origin"; tag]))).
Proof.
  intros tag tag_call push_call tagging pushing skip.
  rewrite snapshot_unfold. cbv zeta. unfold reply_of, exited_nonzero.
  rewrite world_after_run. fold tag tagging pushing skip.
  split; intros ->.
  - cbn [fst snd]. by rewrite calls_logged, calls_after_run.
  - destruct (returncode pushing.1 =? 0); cbn [negb fst snd];
      rewrite ?calls_logged, !calls_after_run, <- app_assoc; done.
Qed.

(** X6.  [branch_for_draft] never raises at its probes and reads
    nothing of them but their standard output: it always issues the two
    probes and a third command, which is the creation of the branch
    when both probes print nothing but white space (whatever their exit
    codes) and the checkout otherwise; a fourth command follows exactly
    when the third exits zero. *)
Theorem draft_decision_ignores_exit_codes {W : Type} (host : Host W) (book_dir : Path)
    (s : State W) :
  let local := subprocess_run host Cmd.list_draft book_dir (world s) in
  let remote := subprocess_run host Cmd.ls_remote_draft book_dir local.2 in
  let fresh := Str.is_empty (Str.strip (stdout local.1))
               && Str.is_empty (Str.strip (stdout remote.1)) in
  let third := if fresh then Cmd.create_draft else Cmd.checkout_draft in
  let fourth := if fresh then Cmd.publish_draft else Cmd.rebase_main in
  let step := subprocess_run host third book_dir remote.2 in
  map argv (calls (branch_for_draft host book_dir s).2)
  = map argv (calls s) ++ [Cmd.list_draft; Cmd.ls_remote_draft; third]
    ++ (if returncode step.1 =? 0 then [fourth] else []).
Proof.
  intros local remote fresh third fourth step.
  rewrite branch_for_draft_unfold. cbv zeta.
  unfold has_output, exited_nonzero, reply_of.
  rewrite !world_logged, !world_after_run, !world_logged, !world_after_run.
  fold local. fold remote. rewrite !negb_involutive. fold fresh.
  unfold step, third, fourth.
  destruct fresh.
  - destruct (returncode _ =? 0); cbn [negb];
      [destruct (negb (returncode _ =? 0))|];
      cbn [snd]; repeat (rewrite calls_logged || rewrite calls_after_run);
      by rewrite !map_app, <- !app_assoc.
  - destruct (returncode _ =? 0); cbn [negb];
      [destruct (negb (returncode _ =? 0))|];
      cbn [snd]; repeat (rewrite calls_logged || rewrite calls_after_run);
      by rewrite !map_app, <- !app_assoc.
Qed.

(** ** The configuration loader: documents that are no mapping *)

Section ConfigEdges.
Context {W : Type} (host : Host W).

(** The loader on an override file that is there and parses. *)
Lemma load_config_parsed (book_dir : Path) (s : State W) (text : string) (mtime : Z)
    (document : pyval) :
  FS.lookup (filesystem host (world s)) (config_path book_dir)
    = Some (File (Some text) mtime) →
  yaml_safe_load host text = Ok document →
  load_config host book_dir s
  = match py_or document (PDict ∅) with
    | PDict items =>
        let merged := dict_update DEFAULTS
                        (filter (fun kv => dict_contains DEFAULTS kv.1 = true) items) in
        (Ok merged,
         logged INFO "Config: %s" [AVal (PDict merged)]
           (logged INFO "Config loaded from %s" [APath (config_path book_dir)] s))
    | _ => (Raise (AttributeError "object has no attribute 'items'"), s)
    end.
Proof.
  intros Hfile Hparse.
  unfold load_config. fold (config_path book_dir).
  unfold path_exists, read_text, read_fs, bind, ret, lift, log_info, log_warning, log_.
  cbn [world]. rewrite (exists_of_lookup _ _ _ Hfile), Hfile, Hparse.
  cbv beta iota delta [ret].
  by destruct (py_or document (PDict ∅)).
Qed.

Lemma merge_nothing :
  dict_update DEFAULTS (filter (fun kv => dict_contains DEFAULTS kv.1 = true) (∅ : dict))
  = DEFAULTS.
Proof. unfold dict_update. by rewrite map_filter_empty, (left_id_L ∅ (∪)). Qed.

Lemma merged_keys (items : dict) :
  dom (dict_update DEFAULTS (filter (fun kv => dict_contains DEFAULTS kv.1 = true) items))
  = dom DEFAULTS.
Proof.
  apply set_eq. intros k. rewrite !elem_of_dom, allow_list_lookup.
  case_bool_decide as Hk.
  - apply elem_of_dom in Hk. destruct (items !! k); [|done].
    split; [done | by eexists].
  - apply not_elem_of_dom in Hk. by rewrite Hk.
Qed.

End ConfigEdges.

(** X7.  An override file whose document is not a mapping: when the
    document is falsy (0, False, an empty string, an empty sequence) the
    loader returns exactly [DEFAULTS], as for an empty file; when it is
    truthy (a number, a text, a sequence) the loader raises
    [AttributeError] and logs nothing. *)
Theorem load_config_scalar_document {W : Type} (host : Host W) (book_dir : Path)
    (s : State W) (text : string) (mtime : Z) (document : pyval) :
  FS.lookup (filesystem host (world s))
            (Pth.div (Pth.div book_dir "Global Material") "Config.yml")
    = Some (File (Some text) mtime) →
  yaml_safe_load host text = Ok document →
  (∀ items, document ≠ PDict items) →
  if truthy document
  then load_config host book_dir s
       = (Raise (AttributeError "object has no attribute 'items'"), s)
  else (load_config host book_dir s).1 = Ok DEFAULTS.
Proof.
  intros Hfile Hparse Hscalar.
  rewrite (load_config_parsed host book_dir s text mtime document Hfile Hparse).
  unfold py_or. destruct (truthy document) eqn:Htruth.
  - destruct document; try reflexivity. by destruct (Hscalar d).
  - cbv zeta. cbn [fst]. by rewrite merge_nothing.
Qed.

(** An override file that holds the sequence [- model]. *)
Lemma load_config_scalar_document_witness :
  load_config (Scripted.host Cases.sequence_table) Examples.book_dir Cases.listed
  = (Raise (AttributeError "object has no attribute 'items'"), Cases.listed).
Proof.
  apply (load_config_scalar_document (Scripted.host Cases.sequence_table)
           Examples.book_dir Cases.listed "- model" 10 (PList [PStr "model"])).
  - reflexivity.
  - reflexivity.
  - intros items. discriminate.
Defined.

(** X8.  Every configuration the loader returns, whatever the host and
    the override file, has exactly the keys of [DEFAULTS]; so the lookup
    of ["nightly_output_target"] that ends [main] finds a value and
    raises no [KeyError]. *)
Theorem config_has_default_keys {W : Type} (host : Host W) (book_dir : Path)
    (s s' : State W) (config_ : dict) :
  load_config host book_dir s = (Ok config_, s') →
  dom config_ = dom DEFAULTS
  ∧ ∀ s2 : State W,
      ∃ target, dict_getitem config_ (KStr "nightly_output_target") s2 = (Ok target, s2).
Proof.
  intros Hrun.
  assert (dom config_ = dom DEFAULTS) as Hdom.
  { unfold load_config in Hrun.
    apply bind_ok in Hrun as (there & s1 & _ & Hrun).
    apply bind_ok in Hrun as (merged & s2 & Hmerged & Hrun).
    apply bind_ok in Hrun as ([] & s3 & _ & Hrun).
    injection Hrun as <- <-.
    destruct there.
    - apply bind_ok in Hmerged as (text & s4 & _ & Hmerged).
      apply bind_ok in Hmerged as (document & s5 & _ & Hmerged).
      apply bind_ok in Hmerged as (items & s6 & _ & Hmerged).
      apply bind_ok in Hmerged as ([] & s7 & _ & Hmerged).
      injection Hmerged as <- <-. apply merged_keys.
    - apply bind_ok in Hmerged as ([] & s4 & _ & Hmerged).
      by injection Hmerged as <- <-. }
  split; [exact Hdom|]. intros s2.
  assert (KStr "nightly_output_target" ∈ dom config_) as [target Htarget]%elem_of_dom.
  { rewrite Hdom. apply elem_of_dom. eexists. reflexivity. }
  exists target. unfold dict_getitem. by rewrite Htarget.
Qed.

(** The configuration of the example project. *)
Lemma config_has_default_keys_witness :
  ∃ config_ : dict,
    (load_config Examples.scripted_host Examples.book_dir
       (initial (Examples.scripted [] Examples.project))).1 = Ok config_
    ∧ dom config_ = dom DEFAULTS.
Proof.
  assert (Hrun : ∃ config_ s',
    load_config Examples.scripted_host Examples.book_dir
      (initial (Examples.scripted [] Examples.project)) = (Ok config_, s')).
  { eexists. eexists.
    unfold load_config, path_exists, read_text, read_fs, bind, ret, lift, log_info,
      log_warning, log_, dict_items.
    cbn [world]. reflexivity. }
  destruct Hrun as (config_ & s' & Hrun).
  exists config_. split; [by rewrite Hrun|].
  exact (proj1 (config_has_default_keys Examples.scripted_host Examples.book_dir
                  _ _ _ Hrun)).
Defined.

(** X9.  An override file that is there but does not parse is not
    replaced by the defaults: the error of the parser leaves
    [load_config] as it was raised, and nothing is logged. *)
Theorem load_config_parse_error {W : Type} (host : Host W) (book_dir : Path)
    (s : State W) (text : string) (mtime : Z) (e : exn) :
  FS.lookup (filesystem host (world s))
            (Pth.div (Pth.div book_dir "Global Material") "Config.yml")
    = Some (File (Some text) mtime) →
  yaml_safe_load host text = Raise e →
  load_config host book_dir s = (Raise e, s).
Proof.
  intros Hfile Hparse.
  unfold load_config.
  unfold path_exists, read_text, read_fs, bind, ret, lift, log_info, log_warning, log_.
  cbn [world]. by rewrite (exists_of_lookup _ _ _ Hfile), Hfile, Hparse.
Qed.

(** The override file of the example project, read by a parser that
    knows no document. *)
Lemma load_config_parse_error_witness :
  (load_config (Scripted.host []) Examples.book_dir
     (initial (Examples.scripted [] Examples.project))).1
  = Raise (YAMLError "could not parse").
Proof.
  exact (f_equal fst
           (load_config_parse_error (Scripted.host []) Examples.book_dir
              (initial (Examples.scripted [] Examples.project))
              "model: m" 10 (YAMLError "could not parse") eq_refl eq_refl)).
Defined.

(** ** Counting words *)

Lemma append_empty (s : string) : EmptyString +:+ s = s.
Proof. reflexivity. Qed.

Lemma append_String (c : ascii) (a s : string) : String c a +:+ s = String c (a +:+ s).
Proof. reflexivity. Qed.

Lemma cons_word_app (w : string) (ws more : list string) :
  Str.cons_word w (ws ++ more) = Str.cons_word w ws ++ more.
Proof. unfold Str.cons_word. by destruct (Str.is_empty w). Qed.

Lemma split_ws_scan_cons (c : ascii) (s : string) :
  Str.split_ws_scan (String c s)
  = if Str.isspace c
    then (EmptyString, Str.split_ws s)
    else (String c (Str.split_ws_scan s).1, (Str.split_ws_scan s).2).
Proof.
  unfold Str.split_ws. cbn [Str.split_ws_scan].
  by destruct (Str.split_ws_scan s) as [w ws].
Qed.

Lemma split_ws_cons (c : ascii) (s : string) :
  Str.split_ws (String c s)
  = if Str.isspace c then Str.split_ws s
    else String c (Str.split_ws_scan s).1 :: (Str.split_ws_scan s).2.
Proof.
  unfold Str.split_ws at 1. rewrite split_ws_scan_cons.
  by destruct (Str.isspace c).
Qed.

Lemma split_ws_scan_app (a b : string) (c : ascii) :
  Str.isspace c = true →
  Str.split_ws_scan (a +:+ String c b)
  = ((Str.split_ws_scan a).1, (Str.split_ws_scan a).2 ++ Str.split_ws b).
Proof.
  intros Hc. induction a as [|x a IH].
  - rewrite append_empty, split_ws_scan_cons, Hc. reflexivity.
  - rewrite append_String, !split_ws_scan_cons.
    destruct (Str.isspace x).
    + unfold Str.split_ws. rewrite IH.
      destruct (Str.split_ws_scan a) as [w ws]. cbn [fst snd].
      by rewrite cons_word_app.
    + by rewrite IH.
Qed.

(** The words of two texts joined by a white space character are the
    words of the one followed by the words of the other. *)
Lemma split_ws_app (a b : string) (c : ascii) :
  Str.isspace c = true →
  Str.split_ws (a +:+ String c b) = Str.split_ws a ++ Str.split_ws b.
Proof.
  intros Hc. unfold Str.split_ws at 1 2. rewrite split_ws_scan_app by done.
  destruct (Str.split_ws_scan a) as [w ws]. cbn [fst snd].
  by rewrite cons_word_app.
Qed.

Lemma lstrip_by_head (p : ascii → bool) (s : string) :
  match Str.lstrip_by p s with
  | EmptyString => True
  | String c _ => p c = false
  end.
Proof.
  induction s as [|c s IH]; cbn [Str.lstrip_by]; [done|].
  by destruct (p c) eqn:Hc.
Qed.

Lemma rstrip_by_kept (p : ascii → bool) (c : ascii) (s : string) :
  p c = false → Str.rstrip_by p (String c s) = String c (Str.rstrip_by p s).
Proof. intros Hc. cbn [Str.rstrip_by]. by rewrite Hc, andb_false_r. Qed.

Lemma strip_blank (s : string) :
  Str.is_empty (Str.strip s) = Str.is_empty (Str.lstrip_by Str.isspace s).
Proof.
  unfold Str.strip. pose proof (lstrip_by_head Str.isspace s) as Hhead.
  destruct (Str.lstrip_by Str.isspace s) as [|c rest]; [done|].
  by rewrite rstrip_by_kept.
Qed.

Lemma split_ws_blank (s : string) :
  Str.split_ws s = [] ↔ Str.lstrip_by Str.isspace s = EmptyString.
Proof.
  induction s as [|c s IH]; [done|].
  rewrite split_ws_cons. cbn [Str.lstrip_by].
  destruct (Str.isspace c); [done|]. split; discriminate.
Qed.

(** X10.  A text counts zero words exactly when stripping it leaves
    nothing, that is when the command runner would not log it; and the
    count is never negative. *)
Theorem count_words_zero_iff_blank (text : string) :
  0 ≤ _count_words text
  ∧ (_count_words text = 0 ↔ Str.is_empty (Str.strip text) = true).
Proof.
  unfold _count_words. split; [lia|].
  rewrite strip_blank.
  rewrite <- Nat2Z.inj_0, Nat2Z.inj_iff, length_zero_iff_nil, split_ws_blank.
  by destruct (Str.lstrip_by Str.isspace text).
Qed.

(** X11.  Word counts add up over texts joined by a white space
    character (a blank, a line break): the count of the whole is the
    sum of the counts of the two parts. *)
Theorem count_words_additive (a b : string) (c : ascii) :
  Str.isspace c = true →
  _count_words (a +:+ String c b) = _count_words a + _count_words b.
Proof.
  intros Hc. unfold _count_words.
  rewrite split_ws_app by done. rewrite length_app. lia.
Qed.

(** Two lines of a manuscript. *)
Lemma count_words_additive_witness :
  _count_words ("one two" +:+ String "010" " three") = 2 + 1.
Proof.
  exact (count_words_additive "one two" " three" "010" eq_refl).
Defined.

(** ** The book name and the working directory *)

Lemma split_one_piece (sep : ascii) (s : string) :
  Str.mem sep s = false → Str.split sep s = [s].
Proof.
  induction s as [|c s IH]; [done|].
  cbn [Str.mem Str.split]. intros [Hc Hs]%orb_false_elim.
  rewrite IH by done. rewrite Ascii.eqb_sym in Hc. by rewrite Hc.
Qed.

Lemma split_app (sep : ascii) (x y : string) :
  Str.split sep (x +:+ String sep y) = Str.split sep x ++ Str.split sep y.
Proof.
  induction x as [|c x IH].
  - rewrite append_empty. cbn [Str.split]. by rewrite Ascii.eqb_refl.
  - rewrite append_String. cbn [Str.split]. rewrite IH.
    destruct (Ascii.eqb c sep); [done|].
    pose proof (split_not_nil sep x) as Hne.
    by destruct (Str.split sep x).
Qed.

(** The last piece of a split holds no separator. *)
Lemma split_last_piece (sep : ascii) (s : string) :
  ∃ w, last (Str.split sep s) = Some w ∧ Str.mem sep w = false.
Proof.
  induction s as [|c s (w & Hlast & Hw)].
  - by exists EmptyString.
  - cbn [Str.split].
    destruct (Ascii.eqb c sep) eqn:Hc.
    + exists w. split; [|done].
      pose proof (split_not_nil sep s) as Hne.
      destruct (Str.split sep s); [done|]. exact Hlast.
    + destruct (Str.split sep s) as [|w0 [|w1 ws]]; [done| |].
      * injection Hlast as ->. exists (String c w). split; [done|].
        cbn [Str.mem]. by rewrite Ascii.eqb_sym, Hc, Hw.
      * exists w. by split.
Qed.

Lemma rstrip_by_nothing (p : ascii → bool) (s : string) :
  (∀ c, p c = true → Str.mem c s = false) → Str.rstrip_by p s = s.
Proof.
  induction s as [|a s IH]; [done|].
  intros Hp. cbn [Str.rstrip_by].
  rewrite IH.
  - destruct (p a) eqn:Ha; [|by rewrite andb_false_r].
    specialize (Hp a Ha). cbn [Str.mem] in Hp. by rewrite Ascii.eqb_refl in Hp.
  - intros c Hc. specialize (Hp c Hc). cbn [Str.mem] in Hp.
    by apply orb_false_elim in Hp as [_ ?].
Qed.

Lemma rstrip_by_app (p : ascii → bool) (x y : string) :
  Str.rstrip_by p y ≠ EmptyString →
  Str.rstrip_by p (x +:+ y) = x +:+ Str.rstrip_by p y.
Proof.
  intros Hy. induction x as [|a x IH]; [done|].
  rewrite append_String. cbn [Str.rstrip_by]. rewrite IH.
  destruct (Str.rstrip_by p y) as [|b r]; [done|].
  by destruct x.
Qed.

Lemma components_of_name (name : string) :
  Str.mem "/" name = false →
  Pth.components name
  = if bool_decide (name = EmptyString ∨ name = ".") then [] else [name].
Proof.
  intros Hname. unfold Pth.components. rewrite split_one_piece by done.
  rewrite filter_cons, filter_nil.
  case_bool_decide as Hdot.
  - rewrite decide_False; [done|]. intros [? ?]. by destruct Hdot.
  - rewrite decide_True; [done|]. split; intros ->; apply Hdot; auto.
Qed.

Lemma not_absolute_name (name : string) :
  Str.mem "/" name = false → Pth.is_absolute_str name = false.
Proof.
  destruct name as [|c name]; [done|].
  cbn [Str.mem]. intros [Hc _]%orb_false_elim.
  unfold Pth.is_absolute_str.
  destruct (Ascii.eqb_spec "/" c) as [<-|Hne]; [done|].
  destruct c as [[] [] [] [] [] [] [] []]; try reflexivity. by destruct Hne.
Qed.

(** X12.  Whatever the URL, the book name holds no slash, so joining it
    to [BOOKS_ROOT] never replaces the root: the working directory is
    [BOOKS_ROOT] with the book name as one more part, or [BOOKS_ROOT]
    itself when the name is empty or a dot (a URL made of slashes, or
    ending in [/.]). *)
Theorem book_dir_is_under_books_root (url : string) :
  ∃ book_name,
    book_name_from_url url = Ok book_name
    ∧ Str.mem "/" book_name = false
    ∧ Pth.div BOOKS_ROOT book_name
      = if bool_decide (book_name = EmptyString ∨ book_name = ".")
        then BOOKS_ROOT else BOOKS_ROOT ++ [book_name].
Proof.
  destruct (split_last_piece "/" (Str.rstrip "/" url)) as (name & Hlast & Hname).
  exists name. split_and!.
  - unfold book_name_from_url, index_last. by rewrite Hlast.
  - exact Hname.
  - unfold Pth.div. rewrite not_absolute_name, components_of_name by done.
    case_bool_decide; [by rewrite app_nil_r | done].
Qed.

(** X13.  The book name of a URL that ends in a slash followed by a
    name without a slash is that name, whatever comes before. *)
Theorem book_name_is_last_segment (base name : string) :
  name ≠ EmptyString →
  Str.mem "/" name = false →
  book_name_from_url (base +:+ "/" +:+ name) = Ok name.
Proof.
  intros Hne Hname. unfold book_name_from_url, Str.rstrip.
  assert (Str.rstrip_by (fun c => Str.mem c "/") name = name) as Hkeep.
  { apply rstrip_by_nothing. intros c Hc. cbn [Str.mem] in Hc.
    rewrite orb_false_r in Hc. apply Ascii.eqb_eq in Hc. by subst c. }
  assert (Str.rstrip_by (fun c => Str.mem c "/") ("/" +:+ name) = "/" +:+ name) as Hkeep'.
  { change ("/" +:+ name) with (String "/" name).
    cbn [Str.rstrip_by]. rewrite Hkeep. by destruct name. }
  rewrite rstrip_by_app; rewrite Hkeep'; [|done].
  change (base +:+ "/" +:+ name) with (base +:+ String "/" name).
  rewrite split_app, (split_one_piece "/" name) by done.
  unfold index_last. by rewrite last_snoc.
Qed.

(** The URL of the docstring. *)
Lemma book_name_is_last_segment_witness :
  book_name_from_url ("https://github.com/Philippe-arnd" +:+ "/" +:+ "my-novel")
  = Ok "my-novel".
Proof.
  apply (book_name_is_last_segment "https://github.com/Philippe-arnd" "my-novel").
  - discriminate.
  - reflexivity.
Defined.

(** ** A project directory inside [.git] *)

Lemma filter_none {A : Type} (P : A → Prop) `{∀ x, Decision (P x)} (l : list A) :
  (∀ x, x ∈ l → ¬ P x) → filter P l = [].
Proof.
  induction l as [|x l IH]; intros Hl; [done|].
  rewrite filter_cons, decide_False by (apply Hl; by left).
  apply IH. intros y Hy. apply Hl. by right.
Qed.

(** X14.  When [.git] is one of the parts of the project directory
    itself (a repository whose name is [.git]), every path below it has
    that part: the detector reports no file, whatever was modified
    today, and step 3 of [main] issues no command. *)
Theorem git_directory_hides_edits {W : Type} (host : Host W) (book_dir : Path)
    (s : State W) :
  ".git" ∈ book_dir →
  (detect_human_edits host book_dir s).1 = Ok []
  ∧ (reconcile_human_edits host book_dir s).1 = Ok tt
  ∧ calls (reconcile_human_edits host book_dir s).2 = calls s.
Proof.
  intros Hgit.
  assert (filter (fun p => edited_today host (world s) p = true)
                 (FS.rglob (filesystem host (world s)) book_dir "*") = []) as Hnone.
  { apply filter_none. intros p Hp.
    destruct (rglob_under _ _ _ _ Hp) as [rel ->].
    unfold edited_today. rewrite bool_decide_true; [done|].
    apply elem_of_app. by left. }
  split.
  - destruct (detect_human_edits_run host book_dir s) as (s' & Hrun & _).
    by rewrite Hrun, Hnone.
  - destruct (reconcile_unfold host book_dir s) as (s' & _ & Hc & ->).
    by rewrite Hnone.
Qed.

(** The repository of the URL [https://github.com/u/.git]: its file of
    today is not reported. *)
Lemma git_directory_hides_edits_witness :
  book_dir_of "https://github.com/u/.git" = Ok Cases.dot_git_dir
  ∧ FS.is_file (Scripted.root (world Cases.dot_git)) (Cases.dot_git_dir ++ ["chapter.md"])
    = true
  ∧ (detect_human_edits (Scripted.host []) Cases.dot_git_dir Cases.dot_git).1 = Ok [].
Proof.
  split; [reflexivity|]. split; [reflexivity|].
  apply (git_directory_hides_edits (Scripted.host []) Cases.dot_git_dir Cases.dot_git).
  apply (bool_decide_unpack _). vm_compute. exact I.
Defined.

(** ** The sections of the payload *)

Section PayloadTexts.
Context {W : Type} (host : Host W).

Lemma load_global_file_text (book_dir : Path) :
  loads_text host book_dir (load_global_file host book_dir).
Proof.
  intros acc p s acc' s' H. unfold load_global_file in H.
  apply bind_ok in H as (text & s1 & [Htext ->]%read_text_ok & H).
  apply bind_ok in H as (rel & s2 & [Hrel ->]%relative_to_ok & H).
  apply bind_ok in H as (u & s3 & Hw%log_ok & H).
  injection H as <- <-. split_and!; [by exists text | | done].
  unfold section_of. by rewrite Htext, Hrel.
Qed.

Lemma load_chapter_file_text (book_dir : Path) :
  loads_text host book_dir (load_chapter_file host book_dir).
Proof.
  intros acc p s acc' s' H. unfold load_chapter_file in H.
  apply bind_ok in H as (text & s1 & [Htext ->]%read_text_ok & H).
  apply bind_ok in H as (rel & s2 & [Hrel ->]%relative_to_ok & H).
  apply bind_ok in H as (rel' & s3 & [_ ->]%relative_to_ok & H).
  apply bind_ok in H as (u & s4 & Hw%log_ok & H).
  injection H as <- <-. split_and!; [by exists text | | done].
  unfold section_of. by rewrite Htext, Hrel.
Qed.

Lemma loading_loop_text (book_dir : Path)
    (body : list ContextSection → Path → M W (list ContextSection))
    (files : list Path) (acc acc' : list ContextSection) (s s' : State W) :
  loads_text host book_dir body →
  for_fold files acc body s = (Ok acc', s') →
  Forall (readable (filesystem host (world s))) files
  ∧ acc' = acc ++ map (section_of (filesystem host (world s)) book_dir) files
  ∧ world s' = world s.
Proof.
  intros Hbody. revert acc s.
  induction files as [|p files IH]; intros acc s H.
  - injection H as <- <-. by rewrite app_nil_r.
  - cbn [for_fold] in H.
    apply bind_ok in H as (acc1 & s1 & (Hread & -> & Hw)%Hbody & H).
    apply IH in H as (Hall & -> & ->). rewrite Hw in Hall |- *.
    split_and!; [by constructor | by rewrite <- app_assoc | done].
Qed.

Lemma loading_block_text (book_dir : Path)
    (body : list ContextSection → Path → M W (list ContextSection))
    (getter : M W (list Path)) (found : list Path) (there : bool)
    (acc acc' : list ContextSection) (s s' : State W) :
  loads_text host book_dir body →
  getter s = (Ok found, s) →
  (there = false → found = []) →
  (if there then (l <- getter ;; for_fold (sorted l) acc body) else ret acc) s
    = (Ok acc', s') →
  Forall (readable (filesystem host (world s))) (sorted found)
  ∧ acc' = acc ++ map (section_of (filesystem host (world s)) book_dir) (sorted found)
  ∧ world s' = world s.
Proof.
  intros Hbody Hget Hnone H. destruct there.
  - apply bind_ok in H as (l & s1 & Hl & H).
    rewrite Hget in Hl. injection Hl as <- <-.
    by eapply loading_loop_text.
  - rewrite (Hnone eq_refl). injection H as <- <-.
    by rewrite app_nil_r.
Qed.

End PayloadTexts.

(** X15.  When [build_payload] returns, every file it visited reads as
    text (a directory or an undecodable file among the Markdown entries
    makes it raise instead), the context sections are, in order,
    exactly the relative path and the whole text of each of these files,
    and the payload carries the configuration it was given. *)
Theorem payload_sections_hold_file_texts {W : Type} (host : Host W) (book_dir : Path)
    (config_ : dict) (s s' : State W) (payload : Payload) :
  build_payload host book_dir config_ s = (Ok payload, s') →
  let root := filesystem host (world s) in
  Forall (readable root) (context_files root book_dir)
  ∧ context_sections payload = map (section_of root book_dir) (context_files root book_dir)
  ∧ config payload = config_.
Proof.
  intros H root. unfold build_payload in H.
  apply bind_ok in H as (there1 & s1 & [-> ->]%path_exists_ok & H).
  apply bind_ok in H as (secs1 & s2 & Hblock1 & H).
  eapply (loading_block_text host book_dir) in Hblock1 as (Hall1 & Hsecs1 & Hw2);
    [ | apply load_global_file_text | reflexivity | apply glob_absent ].
  apply bind_ok in H as (there2 & s3 & [-> ->]%path_exists_ok & H).
  apply bind_ok in H as (secs2 & s4 & Hblock2 & H).
  eapply (loading_block_text host book_dir) in Hblock2 as (Hall2 & Hsecs2 & Hw4);
    [ | apply load_chapter_file_text | reflexivity | apply rglob_absent ].
  rewrite Hw2 in Hall2, Hsecs2. fold root in Hall1, Hsecs1, Hall2, Hsecs2.
  apply bind_ok in H as (there3 & s5 & [-> ->]%path_exists_ok & H).
  apply bind_ok in H as (secs3 & s6 & Hreview & H).
  rewrite Hw4, Hw2 in Hreview. fold root in Hreview.
  set (review := Pth.div (Pth.div book_dir "Review") "current.md") in *.
  assert (Forall (readable root) (if FS.exists_ root review then [review] else [])
          ∧ secs3 = secs2 ++ map (section_of root book_dir)
                              (if FS.exists_ root review then [review] else []))
    as [Hall3 Hsecs3].
  { destruct (FS.exists_ root review).
    - apply bind_ok in Hreview as (text & s7 & [Htext ->]%read_text_ok & Hreview).
      apply bind_ok in Hreview as (rel & s8 & [Hrel ->]%relative_to_ok & Hreview).
      apply bind_ok in Hreview as (u & s9 & Hw%log_ok & Hreview).
      injection Hreview as <- <-.
      rewrite Hw4, Hw2 in Htext. fold root in Htext.
      split; [repeat constructor; by exists text|].
      cbn [map]. unfold section_of. by rewrite Htext, Hrel.
    - apply bind_ok in Hreview as (u & s9 & Hw%log_ok & Hreview).
      injection Hreview as <- <-. split; [constructor | by rewrite app_nil_r]. }
  apply bind_ok in H as (there4 & s7 & _ & H).
  apply bind_ok in H as (count & s8 & _ & H).
  apply bind_ok in H as (u & s9 & _ & H).
  injection H as <- _. cbn [context_sections config].
  unfold context_files. fold root review.
  split_and!.
  - rewrite !Forall_app. done.
  - rewrite Hsecs3, Hsecs2, Hsecs1, !map_app, <- !app_assoc. done.
  - done.
Qed.

(** The sections of the example project hold the texts of its files. *)
Lemma payload_sections_hold_file_texts_witness :
  ∃ payload,
    (build_payload Examples.scripted_host Examples.book_dir DEFAULTS
                   (initial (Examples.scripted [] Examples.project))).1 = Ok payload
    ∧ map content (context_sections payload)
      = ["first  file"; "second"; "z"; "c"; "q"; "draft under review"].
Proof.
  assert (Hrun : ∃ payload s',
    build_payload Examples.scripted_host Examples.book_dir DEFAULTS
                  (initial (Examples.scripted [] Examples.project)) = (Ok payload, s')).
  { eexists. eexists. vm_compute. reflexivity. }
  destruct Hrun as (payload & s' & Hrun).
  exists payload. split; [by rewrite Hrun|].
  destruct (payload_sections_hold_file_texts Examples.scripted_host Examples.book_dir
              DEFAULTS _ _ _ Hrun) as (_ & -> & _).
  vm_compute. reflexivity.
Defined.

(** ** The snapshot tag of a day *)

Lemma append_inj_length (a a' b b' : string) :
  String.length a = String.length a' → a +:+ b = a' +:+ b' → a = a' ∧ b = b'.
Proof.
  revert a'. induction a as [|c a IH]; intros [|c' a'] Hlen Heq; try discriminate Hlen.
  - by rewrite !append_empty in Heq.
  - rewrite !append_String in Heq. injection Heq as -> Heq.
    injection Hlen as Hlen. destruct (IH a' Hlen Heq) as [-> ->]. done.
Qed.

(** [zfill] writes a number below [10 ^ width] on exactly [width]
    digits that read back as the number (checked on every such number
    for the two widths of [isoformat]). *)
Lemma zfill_four (n : Z) :
  0 ≤ n < 10000 →
  String.length (Str.zfill 4 n) = 4%nat ∧ decimal 0 (Str.zfill 4 n) = n.
Proof.
  intros Hn.
  assert (forallb (fun n => Nat.eqb (String.length (Str.zfill 4 n)) 4
                            && (decimal 0 (Str.zfill 4 n) =? n))
                  (seqZ 0 10000) = true) as Hall by (vm_compute; reflexivity).
  rewrite forallb_forall in Hall.
  specialize (Hall n). rewrite <- list_elem_of_In, elem_of_seqZ in Hall.
  specialize (Hall ltac:(lia)).
  apply andb_true_iff in Hall as [Hlen Hdec].
  apply Nat.eqb_eq in Hlen. apply Z.eqb_eq in Hdec. done.
Qed.

Lemma zfill_two (n : Z) :
  0 ≤ n < 100 →
  String.length (Str.zfill 2 n) = 2%nat ∧ decimal 0 (Str.zfill 2 n) = n.
Proof.
  intros Hn.
  assert (forallb (fun n => Nat.eqb (String.length (Str.zfill 2 n)) 2
                            && (decimal 0 (Str.zfill 2 n) =? n))
                  (seqZ 0 100) = true) as Hall by (vm_compute; reflexivity).
  rewrite forallb_forall in Hall.
  specialize (Hall n). rewrite <- list_elem_of_In, elem_of_seqZ in Hall.
  specialize (Hall ltac:(lia)).
  apply andb_true_iff in Hall as [Hlen Hdec].
  apply Nat.eqb_eq in Hlen. apply Z.eqb_eq in Hdec. done.
Qed.

(** The date can be read back from its ISO form. *)
Lemma isoformat_inj (d1 d2 : date) :
  valid_date d1 → valid_date d2 → isoformat d1 = isoformat d2 → d1 = d2.
Proof.
  destruct d1 as [y1 m1 a1], d2 as [y2 m2 a2].
  unfold valid_date, isoformat. cbn [year month day].
  intros (Hy1 & Hm1 & Ha1) (Hy2 & Hm2 & Ha2) Heq.
  destruct (zfill_four y1) as [Ly1 Dy1]; [lia|].
  destruct (zfill_four y2) as [Ly2 Dy2]; [lia|].
  destruct (zfill_two m1) as [Lm1 Dm1]; [lia|].
  destruct (zfill_two m2) as [Lm2 Dm2]; [lia|].
  destruct (zfill_two a1) as [La1 Da1]; [lia|].
  destruct (zfill_two a2) as [La2 Da2]; [lia|].
  apply append_inj_length in Heq as [Hy Heq]; [|congruence].
  apply append_inj_length in Heq as [_ Heq]; [|reflexivity].
  apply append_inj_length in Heq as [Hm Heq]; [|congruence].
  apply append_inj_length in Heq as [_ Ha]; [|reflexivity].
  f_equal; congruence.
Qed.

(** X16.  Two different days never share a snapshot tag: for valid
    calendar dates the tag name determines the date, so the tag that
    already exists can only be the one of the same day. *)
Theorem snapshot_tags_differ_by_day (d1 d2 : date) :
  valid_date d1 → valid_date d2 → d1 ≠ d2 → snapshot_tag d1 ≠ snapshot_tag d2.
Proof.
  intros Hv1 Hv2 Hne Htag. apply Hne. unfold snapshot_tag in Htag.
  apply append_inj_length in Htag as [_ Hiso]; [|reflexivity].
  by apply isoformat_inj.
Qed.

(** The tags of 2 and 3 November 2026. *)
Lemma snapshot_tags_differ_by_day_witness :
  snapshot_tag Examples.nov2 ≠ snapshot_tag Examples.nov3.
Proof.
  apply (snapshot_tags_differ_by_day Examples.nov2 Examples.nov3).
  - unfold valid_date. cbn. lia.
  - unfold valid_date. cbn. lia.
  - discriminate.
Defined.

(** ** Where the commands run *)

Section Issues.
Context {W : Type} (host : Host W).
Context (allowed : Call → Prop).

Lemma issues_quiet {A : Type} (m : M W A) : quiet m → issues allowed m.
Proof.
  intros Hm s. exists []. destruct (Hm s) as [-> _]. by rewrite app_nil_r.
Qed.

Lemma issues_bind {A B : Type} (m : M W A) (k : A → M W B) :
  issues allowed m → (∀ a, issues allowed (k a)) → issues allowed (bind m k).
Proof.
  intros Hm Hk s. unfold bind.
  destruct (Hm s) as (cs & Hcs & Hall).
  destruct (m s) as [[a|e] s1]; cbn [snd] in *; [|by exists cs].
  destruct (Hk a s1) as (cs' & Hcs' & Hall').
  exists (cs ++ cs'). split; [|by apply Forall_app].
  by rewrite Hcs', Hcs, <- app_assoc.
Qed.

Lemma issues_run (cmd : list string) (dir : Path) (check : bool) :
  allowed (mk_call cmd dir) → issues allowed (_run host cmd dir check).
Proof.
  intros Hcall s. exists [mk_call cmd dir]. rewrite _run_unfold.
  split; [reflexivity | by repeat constructor].
Qed.

Lemma issues_mkdir (p : Path) : issues allowed (mkdir host p).
Proof.
  intros s. exists []. unfold mkdir.
  destruct (mkdir_parents host p (world s)). by rewrite app_nil_r.
Qed.

Lemma issues_bind_ret {A B : Type} (a : A) (k : A → M W B) :
  issues allowed (k a) → issues allowed (bind (ret a) k).
Proof. intros Hk s. apply Hk. Qed.

End Issues.

(** Breaks a computation into its steps; the readers issue nothing. *)
Ltac issues_steps :=
  repeat first
    [ apply issues_mkdir
    | apply issues_run; split; [reflexivity | first [by left | by right]]
    | apply issues_quiet; first
        [ apply quiet_ret | apply quiet_raise | apply quiet_log | apply quiet_lift
        | apply quiet_read_fs | apply quiet_today | apply quiet_load_config
        | apply quiet_detect_human_edits | apply quiet_build_payload ]
    | apply issues_bind; [|intros]
    | match goal with
      | |- issues _ (if ?b then _ else _) => destruct b
      | |- issues _ (match ?x with _ => _ end) => destruct x
      end ].

(** X17.  Whatever happens in a session, and whether it ends well or
    in the fatal error handler, every external command the script
    issues is a call of [git], and each runs in the project directory
    [BOOKS_ROOT / book_name], except the clone that creates this
    directory, which runs in its parent. *)
Theorem session_runs_git_in_project {W : Type} (host : Host W) (url : string)
    (s : State W) :
  ∃ (book_name : string) (cs : list Call),
    book_name_from_url url = Ok book_name
    ∧ calls (script host url s).2 = calls s ++ cs
    ∧ Forall (git_in_project url (Pth.div BOOKS_ROOT book_name)) cs.
Proof.
  destruct (index_last_total (Str.split "/" (Str.rstrip "/" url))) as [book_name Hname];
    [apply split_not_nil|].
  fold (book_name_from_url url) in Hname.
  exists book_name.
  assert (issues (git_in_project url (Pth.div BOOKS_ROOT book_name)) (main host url))
    as Hmain.
  { unfold main. rewrite Hname. cbn [lift]. apply issues_bind_ret.
    unfold ensure_repo, reconcile_human_edits, commit_human_edits, snapshot,
      branch_for_draft, path_exists, dict_getitem, log_info, log_warning.
    issues_steps. }
  destruct (Hmain s) as (cs & Hcs & Hall).
  exists cs. split; [done|]. split; [|done].
  unfold script. by destruct (main host url s) as [[[]|e] s1].
Qed.

(** ** The commands of the edit reconciler *)

(** The order of [rglob]: the entries of a directory, then what lies
    below its sub-directories. *)
Example rglob_lists_entries_before_descending :
  FS.rglob (Dir 0 [("a", Dir 0 [("x", File None 0); ("s", Dir 0 [("y", File None 0)])]);
                   ("b", File None 0);
                   ("c", Dir 0 [("z", File None 0)])]) ["/"] "*"
  = [["/"; "a"]; ["/"; "b"]; ["/"; "c"]; ["/"; "a"; "x"]; ["/"; "a"; "s"];
     ["/"; "a"; "s"; "y"]; ["/"; "c"; "z"]].
Proof. vm_compute. reflexivity. Qed.



(** A failing commit ends the step: nothing is pushed. *)
Example reconcile_stops_at_failed_commit :
  let s := initial (Examples.scripted
                      [mk_completed 0 EmptyString EmptyString;
                       mk_completed 1 "nothing to commit, working tree clean" EmptyString]
                      Examples.project) in
  raised (reconcile_human_edits Examples.scripted_host Examples.book_dir s).1 = true
  ∧ map argv (calls (reconcile_human_edits Examples.scripted_host Examples.book_dir s).2)
    = [Cmd.add_all; Cmd.commit_edits].
Proof. vm_compute. done. Qed.

